(** * Interview-Screener: evaluation pipeline, result cache and ranking

    A shallow embedding of the evaluation core of the repository:

    - [app/agents/evaluator.py], [analyzer.py], [improvement.py]: the three
      agents that call the language model,
    - [app/agents/nodes.py]: the four LangGraph nodes,
    - [app/core/graph.py]: the sequential workflow,
    - [app/schemas/request.py], [response.py]: the validated request and
      response models,
    - [app/services/evaluation.py]: the cached evaluation service,
    - [app/services/ranking.py]: batch evaluation and ranking,
    - [app/api/routes.py]: the two routes.

    Python dictionaries are finite maps with string keys, Python exceptions
    are an explicit [Raise] outcome, the language model and the Redis store
    are an environment of functions indexed by a call counter. *)

From Stdlib Require Import ZArith String Ascii List Lia Permutation Sorted.
From stdpp Require Import base option list strings gmap fin_maps pretty.

Local Open Scope Z_scope.

(** ** Python values *)

Module Py.

(** The values that occur in the state dictionary and in parsed JSON
    documents. [PyMsgs] is the list of message contents of the [messages]
    channel; [PyOpaque] stands for any other value (a float, a nested list or
    dictionary). *)
Inductive pyval : Type :=
  | PyNone
  | PyBool (b : bool)
  | PyInt (z : Z)
  | PyStr (s : string)
  | PyMsgs (l : list string)
  | PyOpaque.

#[global] Instance pyval_eq_dec : EqDecision pyval.
Proof. solve_decision. Defined.

(** What [parser.parse] or [json.loads] returns: a dictionary or something
    that is not one (a list, a number, ...). *)
Inductive pyobj : Type :=
  | PyDict (d : gmap string pyval)
  | PyNotDict.

(** [len(s)] of a [str]. A text is the list of its characters, and a
    character is one of the 256 values of [ascii], read as the code points 0
    to 255: a text with a character beyond them has no counterpart here. No
    function of the model looks at what the characters are, except [strip]
    for white space. *)
Definition len (s : string) : Z := Z.of_nat (String.length s).

(** [s[:n]]. *)
Definition slice_to (n : nat) (s : string) : string := String.substring 0 n s.

(** [bool(v)]: Python truthiness. *)
Definition truthy (v : pyval) : bool :=
  match v with
  | PyNone => false
  | PyBool b => b
  | PyInt z => negb (z =? 0)
  | PyStr s => negb (String.eqb s EmptyString)
  | PyMsgs l => match l with [] => false | _ => true end
  | PyOpaque => true
  end.

(** [d.get(k)]: the value, or [None] when the key is absent. *)
Definition get (d : gmap string pyval) (k : string) : pyval :=
  default PyNone (d !! k).

(** [d.get(k, dflt)]: the default replaces an absent key only; a key that is
    present with value [None] yields [None]. *)
Definition get_default (d : gmap string pyval) (k : string) (dflt : pyval) : pyval :=
  default dflt (d !! k).

(** [d[k]]: a missing key is a [KeyError]. *)
Definition getitem (d : gmap string pyval) (k : string) : option pyval := d !! k.

(** A dictionary display. *)
Definition dict (l : list (string * pyval)) : gmap string pyval := list_to_map l.

(** The newline character. *)
Definition nl : string := String "010"%char EmptyString.

(** [str(v)] inside an f-string, for the values the prompts interpolate. *)
Definition to_str (v : pyval) : string :=
  match v with
  | PyNone => "None"
  | PyBool true => "True"
  | PyBool false => "False"
  | PyInt z => pretty z
  | PyStr s => s
  | PyMsgs _ => "[...]"
  | PyOpaque => "<object>"
  end.

End Py.
Import Py.

(** ** Exceptions and the effect monad *)

(** An exception is represented by its message, [str(e)]. The exceptions
    whose message is written by a library from data that the model does not
    hold (pydantic's validation report, the [KeyError] of a subscript, the
    [TypeError] of an unpacking) are represented by the name of their
    class. *)
Definition exn := string.

Inductive result (A : Type) : Type :=
  | Ok (a : A)
  | Raise (e : exn).
Arguments Ok {A} a.
Arguments Raise {A} e.

(** The mutable part of the world: the number of language-model invocations
    made so far, the number of Redis commands issued so far, and the content
    of the Redis store. *)
Record world : Type := World {
  llm_calls : nat;
  redis_ops : nat;
  store : gmap string string
}.

(** A computation reads and updates the world and returns or raises; the
    effects made before an exception stay. *)
Definition M (A : Type) : Type := world -> result A * world.

Definition ret {A} (a : A) : M A := fun w => (Ok a, w).
Definition raise {A} (e : exn) : M A := fun w => (Raise e, w).
Definition bind {A B} (m : M A) (k : A -> M B) : M B :=
  fun w => match m w with
           | (Ok a, w') => k a w'
           | (Raise e, w') => (Raise e, w')
           end.
(** [try: m  except Exception as e: h e]. *)
Definition try_except {A} (m : M A) (h : exn -> M A) : M A :=
  fun w => match m w with
           | (Ok a, w') => (Ok a, w')
           | (Raise e, w') => h e w'
           end.
Definition lift {A} (r : result A) : M A := fun w => (r, w).

Declare Scope py_scope.
Delimit Scope py_scope with py.
Notation "x <- m ;; k" := (bind m (fun x => k))
  (at level 100, m at next level, right associativity) : py_scope.
Notation "m ;;; k" := (bind m (fun _ => k))
  (at level 100, right associativity) : py_scope.
Local Open Scope py_scope.

(** ** The external collaborators *)

(** The three role directives of [app/agents]; only their identity matters
    to the model, their wording is not part of it. *)
Inductive system_prompt : Type :=
  | EVALUATOR_SYSTEM_PROMPT
  | ANALYZER_SYSTEM_PROMPT
  | IMPROVEMENT_SYSTEM_PROMPT.

(** The behaviour of everything outside the repository. The language model
    and the Redis server may answer differently at every call, so their
    behaviour is indexed by the call counter of the world. *)
Record Env : Type := {
  (** [get_langchain_llm()]: [Some e] when it raises (no API key). *)
  get_langchain_llm_raises : option exn;
  (** [llm.invoke([SystemMessage(p), HumanMessage(u)]).content] at the n-th
      invocation. *)
  llm_invoke : nat -> system_prompt -> string -> result string;
  (** [JsonOutputParser.parse]. *)
  parser_parse : string -> result pyobj;
  (** pydantic's lax coercion to [int] of a value that is not an [int]
      (a numeric string, an integral float, ...). *)
  lax_int : pyval -> option Z;
  (** [self.redis_client] is set. *)
  redis_client : bool;
  (** [settings.enable_caching]. *)
  enable_caching : bool;
  (** [settings.redis_ttl]. *)
  redis_ttl : Z;
  (** The n-th Redis command fails with this exception. *)
  redis_raises : nat -> option exn;
  (** [hashlib.md5(content.encode()).hexdigest()]. *)
  md5_hexdigest : string -> string;
  (** [json.dumps] and [json.loads]. *)
  json_dumps : gmap string pyval -> string;
  json_loads : string -> result pyobj
}.

Section Model.

Context (E : Env).

(** ** pydantic field validation *)

Definition ValidationError : exn := "ValidationError".

(** An [int] field: an [int] is taken as it is, [None] and lists are
    rejected, any other value goes through the lax coercion. The bounds are
    the [ge] and [le] constraints of the field. *)
Definition validate_int (v : pyval) : option Z :=
  match v with
  | PyInt z => Some z
  | PyNone => None
  | PyMsgs _ => None
  | _ => lax_int E v
  end.

(** A bound that is not declared always holds. *)
Definition at_least (lo : option Z) (z : Z) : bool :=
  match lo with
  | Some l => l <=? z
  | None => true
  end.

Definition at_most (hi : option Z) (z : Z) : bool :=
  match hi with
  | Some h => z <=? h
  | None => true
  end.

Definition int_field (ge le : option Z) (v : option pyval) : result Z :=
  match v ≫= validate_int with
  | Some z =>
      if at_least ge z && at_most le z then Ok z else Raise ValidationError
  | None => Raise ValidationError
  end.

(** A [str] field accepts a [str] only; [min_length] and [max_length] count
    characters. *)
Definition validate_str (v : pyval) : option string :=
  match v with
  | PyStr s => Some s
  | _ => None
  end.

Definition str_field (min_length max_length : option Z) (v : option pyval) : result string :=
  match v ≫= validate_str with
  | Some s =>
      if at_least min_length (len s) && at_most max_length (len s)
      then Ok s else Raise ValidationError
  | None => Raise ValidationError
  end.

Definition rbind {A B} (r : result A) (k : A -> result B) : result B :=
  match r with
  | Ok a => k a
  | Raise e => Raise e
  end.

(** A model built from an unpacked object: the object must be a
    dictionary; a missing key is a missing field, extra keys are ignored. *)
Definition kwargs {A} (init : (string -> option pyval) -> result A) (obj : pyobj) : result A :=
  match obj with
  | PyDict d => init (fun k => d !! k)
  | PyNotDict => Raise "TypeError"
  end.

(** ** app/agents: the structured outputs of the three agents *)

Record EvaluatorOutput : Type := {
  eo_score : Z;
  eo_justification : string
}.

Definition EvaluatorOutput_init (f : string -> option pyval) : result EvaluatorOutput :=
  rbind (int_field (Some 1) (Some 5) (f "score")) (fun score =>
  rbind (str_field None None (f "justification")) (fun justification =>
  Ok {| eo_score := score; eo_justification := justification |})).

Record AnalyzerOutput : Type := {
  ao_strengths : string;
  ao_weaknesses : string;
  ao_summary : string
}.

Definition AnalyzerOutput_init (f : string -> option pyval) : result AnalyzerOutput :=
  rbind (str_field None None (f "strengths")) (fun strengths =>
  rbind (str_field None None (f "weaknesses")) (fun weaknesses =>
  rbind (str_field None None (f "summary")) (fun summary =>
  Ok {| ao_strengths := strengths; ao_weaknesses := weaknesses;
        ao_summary := summary |}))).

Record ImprovementOutput : Type := {
  io_suggestion : string
}.

Definition ImprovementOutput_init (f : string -> option pyval) : result ImprovementOutput :=
  rbind (str_field None None (f "suggestion")) (fun suggestion =>
  Ok {| io_suggestion := suggestion |}).

(** Keyword arguments written out at a call site. *)
Definition kw (l : list (string * pyval)) : string -> option pyval :=
  fun k => (list_to_map l : gmap string pyval) !! k.

(** ** app/schemas/response.py *)

Record EvaluationResponse : Type := {
  er_score : Z;
  er_summary : string;
  er_improvement : string
}.

Definition EvaluationResponse_init (f : string -> option pyval) : result EvaluationResponse :=
  rbind (int_field (Some 1) (Some 5) (f "score")) (fun score =>
  rbind (str_field (Some 10) (Some 200) (f "summary")) (fun summary =>
  rbind (str_field (Some 10) (Some 300) (f "improvement")) (fun improvement =>
  Ok {| er_score := score; er_summary := summary;
        er_improvement := improvement |}))).

(** [result.model_dump()]. *)
Definition model_dump (r : EvaluationResponse) : gmap string pyval :=
  list_to_map [("score", PyInt (er_score r)); ("summary", PyStr (er_summary r));
               ("improvement", PyStr (er_improvement r))].

Record RankedCandidate : Type := {
  rc_candidate_id : string;
  rc_score : Z;
  rc_summary : string;
  rc_improvement : string;
  rc_rank : Z
}.

Definition RankedCandidate_init (f : string -> option pyval) : result RankedCandidate :=
  rbind (str_field None None (f "candidate_id")) (fun candidate_id =>
  rbind (int_field (Some 1) (Some 5) (f "score")) (fun score =>
  rbind (str_field None None (f "summary")) (fun summary =>
  rbind (str_field None None (f "improvement")) (fun improvement =>
  rbind (int_field (Some 1) None (f "rank")) (fun rank =>
  Ok {| rc_candidate_id := candidate_id; rc_score := score;
        rc_summary := summary; rc_improvement := improvement;
        rc_rank := rank |}))))).

Record RankingResponse : Type := {
  rr_candidates : list RankedCandidate;
  rr_total_candidates : Z
}.

(** [candidates] is a list of models that are already validated;
    [total_candidates] has [ge=1]. *)
Definition RankingResponse_init (candidates : list RankedCandidate)
    (total_candidates : Z) : result RankingResponse :=
  rbind (int_field (Some 1) None (Some (PyInt total_candidates))) (fun total =>
  Ok {| rr_candidates := candidates; rr_total_candidates := total |}).

(** ** app/core/llm.py and the agents *)

(** [get_langchain_llm()]: raises when the API key is not configured. *)
Definition get_langchain_llm : M unit :=
  match get_langchain_llm_raises E with
  | Some e => raise e
  | None => ret tt
  end.

(** One invocation of the language model; it is counted in the world. *)
Definition llm_invoke_counted (p : system_prompt) (user_content : string) : M string :=
  fun w => (llm_invoke E (llm_calls w) p user_content,
            {| llm_calls := S (llm_calls w); redis_ops := redis_ops w;
               store := store w |}).

(** [len(v)]: a text and a list have a length, [None], a Boolean and an
    integer have none. What [PyOpaque] stands for is not known, and neither
    is its length: it is taken to have none. *)
Definition py_len (v : pyval) : result Z :=
  match v with
  | PyStr s => Ok (len s)
  | PyMsgs l => Ok (Z.of_nat (length l))
  | PyNone => Raise "object of type 'NoneType' has no len()"
  | PyBool _ => Raise "object of type 'bool' has no len()"
  | PyInt _ => Raise "object of type 'int' has no len()"
  | PyOpaque => Raise "TypeError"
  end.

(** The user message shared by the three agents. *)
Definition answer_and_question (candidate_answer question_context : pyval) : string :=
  let user_content := "Candidate's Answer:" +:+ nl +:+ to_str candidate_answer in
  if truthy question_context
  then "Question: " +:+ to_str question_context +:+ nl +:+ nl +:+ user_content
  else user_content.

Definition with_score (score : pyval) (user_content : string) : string :=
  if truthy score
  then user_content +:+ nl +:+ nl +:+ "Evaluator Score: " +:+ to_str score +:+ "/5"
  else user_content.

Definition with_weaknesses (weaknesses : pyval) (user_content : string) : string :=
  if truthy weaknesses
  then user_content +:+ nl +:+ nl +:+ "Identified Weaknesses: " +:+ to_str weaknesses
  else user_content.

(** [evaluate_answer_sync], app/agents/evaluator.py. *)
Definition evaluate_answer_sync (candidate_answer question_context : pyval)
    : M EvaluatorOutput :=
  _ <- lift (py_len candidate_answer) ;;
  _ <- get_langchain_llm ;;
  let user_content := answer_and_question candidate_answer question_context in
  try_except
    (response <- llm_invoke_counted EVALUATOR_SYSTEM_PROMPT user_content ;;
     parsed <- lift (parser_parse E response) ;;
     lift (kwargs EvaluatorOutput_init parsed))
    (fun e =>
       lift (EvaluatorOutput_init (kw
         [("score", PyInt 3);
          ("justification",
           PyStr ("Evaluation error occurred: " +:+ slice_to 100 e))]))).

(** [analyze_answer_sync], app/agents/analyzer.py. *)
Definition analyze_answer_sync (candidate_answer question_context score : pyval)
    : M AnalyzerOutput :=
  _ <- lift (py_len candidate_answer) ;;
  _ <- get_langchain_llm ;;
  let user_content :=
    with_score score (answer_and_question candidate_answer question_context) in
  try_except
    (response <- llm_invoke_counted ANALYZER_SYSTEM_PROMPT user_content ;;
     parsed <- lift (parser_parse E response) ;;
     lift (kwargs AnalyzerOutput_init parsed))
    (fun e =>
       lift (AnalyzerOutput_init (kw
         [("strengths", PyStr "Unable to analyze strengths");
          ("weaknesses", PyStr "Unable to analyze weaknesses");
          ("summary", PyStr "Analysis unavailable due to error")]))).

(** [suggest_improvement_sync], app/agents/improvement.py. *)
Definition suggest_improvement_sync
    (candidate_answer question_context score weaknesses : pyval)
    : M ImprovementOutput :=
  _ <- get_langchain_llm ;;
  let user_content :=
    with_weaknesses weaknesses
      (with_score score (answer_and_question candidate_answer question_context)) in
  try_except
    (response <- llm_invoke_counted IMPROVEMENT_SYSTEM_PROMPT user_content ;;
     parsed <- lift (parser_parse E response) ;;
     lift (kwargs ImprovementOutput_init parsed))
    (fun e =>
       lift (ImprovementOutput_init (kw
         [("suggestion",
           PyStr "Review the question requirements and ensure your answer addresses all key points with specific examples.")]))).

(** ** app/agents/nodes.py *)

Definition KeyError : exn := "KeyError".

(** [state[k]] inside a [try] block. *)
Definition subscript (state : gmap string pyval) (k : string) : M pyval :=
  match getitem state k with
  | Some v => ret v
  | None => raise KeyError
  end.

Definition evaluator_node (state : gmap string pyval) : M (gmap string pyval) :=
  try_except
    (candidate_answer <- subscript state "candidate_answer" ;;
     result <- evaluate_answer_sync candidate_answer (get state "question_context") ;;
     ret (dict
       [("evaluator_score", PyInt (eo_score result));
        ("evaluator_justification", PyStr (eo_justification result));
        ("current_agent", PyStr "evaluator");
        ("messages",
         PyMsgs ["Score: " +:+ pretty (eo_score result) +:+ ", Justification: "
                 +:+ eo_justification result])]))
    (fun e =>
       ret (dict
         [("evaluator_score", PyInt 3);
          ("evaluator_justification", PyStr "Evaluation error");
          ("error", PyStr e);
          ("current_agent", PyStr "evaluator")])).

Definition analyzer_node (state : gmap string pyval) : M (gmap string pyval) :=
  try_except
    (candidate_answer <- subscript state "candidate_answer" ;;
     result <- analyze_answer_sync candidate_answer (get state "question_context")
                 (get state "evaluator_score") ;;
     ret (dict
       [("analyzer_strengths", PyStr (ao_strengths result));
        ("analyzer_weaknesses", PyStr (ao_weaknesses result));
        ("final_summary", PyStr (ao_summary result));
        ("current_agent", PyStr "analyzer");
        ("messages", PyMsgs ["Summary: " +:+ ao_summary result])]))
    (fun e =>
       ret (dict
         [("analyzer_strengths", PyStr "Analysis unavailable");
          ("analyzer_weaknesses", PyStr "Analysis unavailable");
          ("final_summary", PyStr "Unable to generate summary");
          ("error", PyStr e);
          ("current_agent", PyStr "analyzer")])).

Definition improvement_node (state : gmap string pyval) : M (gmap string pyval) :=
  try_except
    (candidate_answer <- subscript state "candidate_answer" ;;
     result <- suggest_improvement_sync candidate_answer
                 (get state "question_context") (get state "evaluator_score")
                 (get state "analyzer_weaknesses") ;;
     ret (dict
       [("improvement_suggestion", PyStr (io_suggestion result));
        ("final_improvement", PyStr (io_suggestion result));
        ("current_agent", PyStr "improvement");
        ("messages", PyMsgs ["Improvement: " +:+ io_suggestion result])]))
    (fun e =>
       ret (dict
         [("improvement_suggestion", PyStr "Unable to generate suggestion");
          ("final_improvement", PyStr "Unable to generate suggestion");
          ("error", PyStr e);
          ("current_agent", PyStr "improvement")])).

(** The double quote, for the messages that hold one. *)
Definition dquote : string := String (ascii_of_nat 34) EmptyString.

(** [v[:n] + "..."]: a text is sliced and extended; a slice of a list is a
    list, to which a text cannot be added; the other values have no
    slice. *)
Definition cut (n : nat) (v : pyval) : result pyval :=
  match v with
  | PyStr s => Ok (PyStr (slice_to n s +:+ "..."))
  | PyMsgs _ =>
      Raise ("can only concatenate list (not " +:+ dquote +:+ "str" +:+ dquote
             +:+ ") to list")
  | PyNone => Raise "'NoneType' object is not subscriptable"
  | PyBool _ => Raise "'bool' object is not subscriptable"
  | PyInt _ => Raise "'int' object is not subscriptable"
  | PyOpaque => Raise "TypeError"
  end.

(** The [try] block of [synthesizer_node]: the three reads, the two
    truncations and the returned updates. *)
Definition synthesizer_try (state : gmap string pyval) : result (gmap string pyval) :=
  let final_score := get_default state "evaluator_score" (PyInt 3) in
  let final_summary := get_default state "final_summary" (PyStr "No summary available") in
  let final_improvement :=
    get_default state "final_improvement" (PyStr "No improvement suggestion available") in
  rbind (py_len final_summary) (fun n_summary =>
  rbind (if 200 <? n_summary then cut 197 final_summary else Ok final_summary)
    (fun final_summary =>
  rbind (py_len final_improvement) (fun n_improvement =>
  rbind (if 300 <? n_improvement then cut 297 final_improvement
         else Ok final_improvement)
    (fun final_improvement =>
  Ok (dict
    [("final_score", final_score);
     ("final_summary", final_summary);
     ("final_improvement", final_improvement);
     ("current_agent", PyStr "synthesizer");
     ("messages", PyMsgs ["Synthesis complete"])]))))).

Definition synthesizer_node (state : gmap string pyval) : M (gmap string pyval) :=
  try_except
    (lift (synthesizer_try state))
    (fun e =>
       ret (dict
         [("final_score", PyInt 3);
          ("final_summary", PyStr "Synthesis error");
          ("final_improvement", PyStr "Unable to provide feedback");
          ("error", PyStr e);
          ("current_agent", PyStr "synthesizer")])).

(** ** app/core/graph.py *)

(** LangGraph's end marker. *)
Definition END : string := "__end__".

(** A compiled [StateGraph]: the node table, the entry point and the edges. *)
Record StateGraph : Type := {
  nodes : gmap string (gmap string pyval -> M (gmap string pyval));
  entry_point : string;
  edges : gmap string string
}.

Definition build_evaluation_graph : StateGraph := {|
  nodes := list_to_map
    [("evaluator", evaluator_node);
     ("analyzer", analyzer_node);
     ("improvement", improvement_node);
     ("synthesizer", synthesizer_node)];
  entry_point := "evaluator";
  edges := list_to_map
    [("evaluator", "analyzer");
     ("analyzer", "improvement");
     ("improvement", "synthesizer");
     ("synthesizer", END)]
|}.

Definition evaluation_graph : StateGraph := build_evaluation_graph.

(** How the graph applies the updates a node returns: every key overwrites
    the state, except [messages], whose channel is declared with the [add]
    reducer and appends. *)
Definition apply_updates (state update : gmap string pyval) : gmap string pyval :=
  let merged := update ∪ state in
  match update !! "messages" with
  | Some (PyMsgs new) =>
      match state !! "messages" with
      | Some (PyMsgs old) => <["messages" := PyMsgs (old ++ new)]> merged
      | _ => merged
      end
  | _ => merged
  end.

(** LangGraph's default [recursion_limit]. *)
Definition recursion_limit : nat := 25.

(** The run of a graph from a node: the node runs, its updates are applied,
    and the edge out of the node is followed until [END]. The result is the
    list of the states after each step. *)
Fixpoint run (g : StateGraph) (fuel : nat) (node : string)
    (state : gmap string pyval) : M (list (gmap string pyval)) :=
  match fuel with
  | O => raise "GraphRecursionError"
  | S fuel' =>
      match nodes g !! node with
      | None => raise "ValueError"
      | Some fn =>
          update <- fn state ;;
          let state' := apply_updates state update in
          match edges g !! node with
          | Some next =>
              if String.eqb next END then ret [state']
              else (rest <- run g fuel' next state' ;; ret (state' :: rest))
          | None => ret [state']
          end
      end
  end.

(** The states of a run, the input first. *)
Definition invoke_trace (g : StateGraph) (input : gmap string pyval)
    : M (list (gmap string pyval)) :=
  steps <- run g recursion_limit (entry_point g) input ;;
  ret (input :: steps).

(** [graph.invoke(input)]: the last state. *)
Definition invoke (g : StateGraph) (input : gmap string pyval)
    : M (gmap string pyval) :=
  trace <- invoke_trace g input ;;
  ret (List.last trace input).

(** ** app/schemas/request.py *)

Record EvaluateAnswerRequest : Type := {
  candidate_answer : string;
  question_context : option string
}.

Record CandidateAnswer : Type := {
  candidate_id : string;
  answer : string
}.

Record RankCandidatesRequest : Type := {
  candidates : list CandidateAnswer;
  rank_question_context : option string
}.

(** [str | None] as a Python value. *)
Definition of_optional (o : option string) : pyval :=
  match o with
  | Some s => PyStr s
  | None => PyNone
  end.

(** ** app/services/evaluation.py *)

(** [question or ''], the brackets of the f-string in [_generate_cache_key]. *)
Definition or_empty (question : option string) : string :=
  match question with
  | Some q => q
  | None => EmptyString
  end.

Definition cache_content (answer : string) (question : option string) : string :=
  answer +:+ ":" +:+ or_empty question.

Definition _generate_cache_key (answer : string) (question : option string) : string :=
  let content := cache_content answer question in
  "eval:" +:+ md5_hexdigest E content.

(** A Redis command is counted, and fails when the environment says so. *)
Definition redis_command {A} (f : world -> result A * gmap string string) : M A :=
  fun w =>
    match redis_raises E (redis_ops w) with
    | Some e =>
        (Raise e, {| llm_calls := llm_calls w; redis_ops := S (redis_ops w);
                     store := store w |})
    | None =>
        let '(r, st) := f w in
        (r, {| llm_calls := llm_calls w; redis_ops := S (redis_ops w);
               store := st |})
    end.

(** [GET key]. *)
Definition redis_get (key : string) : M (option string) :=
  redis_command (fun w => (Ok (store w !! key), store w)).

(** [SETEX key ttl value]; Redis rejects an expiry that is not positive. *)
Definition redis_setex (key : string) (ttl : Z) (value : string) : M unit :=
  redis_command (fun w =>
    if 0 <? ttl then (Ok tt, <[key := value]> (store w))
    else (Raise "ResponseError", store w)).

Definition caching_off : bool := negb (redis_client E) || negb (enable_caching E).

Definition _get_cached_result (cache_key : string) : M (option EvaluationResponse) :=
  if caching_off then ret None
  else
    try_except
      (cached <- redis_get cache_key ;;
       match cached with
       | Some text =>
           if truthy (PyStr text) then
             data <- lift (json_loads E text) ;;
             response <- lift (kwargs EvaluationResponse_init data) ;;
             ret (Some response)
           else ret None
       | None => ret None
       end)
      (fun e => ret None).

Definition _cache_result (cache_key : string) (result : EvaluationResponse) : M unit :=
  if caching_off then ret tt
  else
    try_except
      (redis_setex cache_key (redis_ttl E) (json_dumps E (model_dump result)))
      (fun e => ret tt).

Definition initial_state (request : EvaluateAnswerRequest) : gmap string pyval :=
  dict
    [("candidate_answer", PyStr (candidate_answer request));
     ("question_context", of_optional (question_context request));
     ("evaluator_score", PyNone);
     ("evaluator_justification", PyNone);
     ("analyzer_strengths", PyNone);
     ("analyzer_weaknesses", PyNone);
     ("improvement_suggestion", PyNone);
     ("final_score", PyNone);
     ("final_summary", PyNone);
     ("final_improvement", PyNone);
     ("messages", PyMsgs []);
     ("current_agent", PyNone);
     ("error", PyNone);
     ("cached", PyBool false)].

(** The first half of the [try] block of [evaluate]: the graph runs and the
    response is built from the final state. *)
Definition run_workflow (request : EvaluateAnswerRequest) : M EvaluationResponse :=
  result <- invoke evaluation_graph (initial_state request) ;;
  final_score <- subscript result "final_score" ;;
  final_summary <- subscript result "final_summary" ;;
  final_improvement <- subscript result "final_improvement" ;;
  lift (EvaluationResponse_init (kw
    [("score", final_score); ("summary", final_summary);
     ("improvement", final_improvement)])).

(** The fallback response of the [except] clause of [evaluate]. *)
Definition fallback_response : M EvaluationResponse :=
  lift (EvaluationResponse_init (kw
    [("score", PyInt 3);
     ("summary", PyStr "Evaluation encountered an error");
     ("improvement", PyStr "Please try again or contact support")])).

(** [EvaluationService.evaluate]. A response object is always true, so
    [if cached_result] tests for [None]. *)
Definition evaluate (request : EvaluateAnswerRequest) : M EvaluationResponse :=
  let cache_key :=
    _generate_cache_key (candidate_answer request) (question_context request) in
  cached_result <- _get_cached_result cache_key ;;
  match cached_result with
  | Some response => ret response
  | None =>
      try_except
        (response <- run_workflow request ;;
         _ <- _cache_result cache_key response ;;
         ret response)
        (fun e => fallback_response)
  end.

(** [evaluate] without the cache: the invocation of the graph and the
    construction of the response of the [try] block, and the fallback of
    the [except] clause; the read and the write of the cache are left out.
    This is the direct pipeline execution of a request. *)
Definition execute (request : EvaluateAnswerRequest) : M EvaluationResponse :=
  try_except (run_workflow request) (fun e => fallback_response).

(** ** app/services/ranking.py *)

(** [RankingService._evaluate_candidate]; the evaluation service is an
    argument, as in the source. The rank is the placeholder 0. *)
Definition _evaluate_candidate
    (evaluation_service : EvaluateAnswerRequest -> M EvaluationResponse)
    (candidate_id : string) (eval_request : EvaluateAnswerRequest)
    : M RankedCandidate :=
  try_except
    (result <- evaluation_service eval_request ;;
     lift (RankedCandidate_init (kw
       [("candidate_id", PyStr candidate_id);
        ("score", PyInt (er_score result));
        ("summary", PyStr (er_summary result));
        ("improvement", PyStr (er_improvement result));
        ("rank", PyInt 0)])))
    (fun e =>
       lift (RankedCandidate_init (kw
         [("candidate_id", PyStr candidate_id);
          ("score", PyInt 3);
          ("summary", PyStr "Evaluation failed");
          ("improvement", PyStr "Unable to provide feedback");
          ("rank", PyInt 0)]))).

(** [await asyncio.gather( *tasks )]: every task is started and runs to its
    end, also when another task raised; the results come in the order of
    the tasks, and the first exception is raised to the caller. The tasks
    run here one after the other, in their order: how the event loop
    interleaves their Redis commands is not modelled. *)
Fixpoint gather {A} (tasks : list (M A)) : M (list A) :=
  match tasks with
  | [] => ret []
  | task :: tasks' =>
      fun w =>
        let '(r, w1) := task w in
        let '(rest, w2) := gather tasks' w1 in
        (match r, rest with
         | Raise e, _ => Raise e
         | Ok _, Raise e => Raise e
         | Ok a, Ok l => Ok (a :: l)
         end, w2)
  end.

(** [list.sort(key=lambda x: x.score, reverse=True)]: Python's sort is
    stable, also with [reverse=True]; a stable insertion sort on the
    descending score gives the same list. *)
Fixpoint insert_by_score (x : RankedCandidate) (l : list RankedCandidate)
    : list RankedCandidate :=
  match l with
  | [] => [x]
  | y :: l' =>
      if rc_score x <? rc_score y then y :: insert_by_score x l'
      else x :: y :: l'
  end.

Definition sort_by_score_desc (l : list RankedCandidate) : list RankedCandidate :=
  foldr insert_by_score [] l.

(** The loop that assigns the ranks: [current_rank] starts at 1 and grows by
    one per candidate. *)
Fixpoint assign_ranks (current_rank : Z) (evaluated : list RankedCandidate)
    : result (list RankedCandidate) :=
  match evaluated with
  | [] => Ok []
  | candidate :: rest =>
      rbind (RankedCandidate_init (kw
        [("candidate_id", PyStr (rc_candidate_id candidate));
         ("score", PyInt (rc_score candidate));
         ("summary", PyStr (rc_summary candidate));
         ("improvement", PyStr (rc_improvement candidate));
         ("rank", PyInt current_rank)])) (fun ranked =>
      rbind (assign_ranks (current_rank + 1) rest) (fun ranked_rest =>
      Ok (ranked :: ranked_rest)))
  end.

(** The second half of [rank_candidates]: sort, assign the ranks, build the
    response. *)
Definition sort_and_rank (evaluated_candidates : list RankedCandidate)
    : result RankingResponse :=
  let evaluated_candidates := sort_by_score_desc evaluated_candidates in
  rbind (assign_ranks 1 evaluated_candidates) (fun ranked_candidates =>
  RankingResponse_init ranked_candidates (Z.of_nat (length ranked_candidates))).

(** [RankingService.rank_candidates] over a given evaluation service. *)
Definition rank_candidates_with
    (evaluation_service : EvaluateAnswerRequest -> M EvaluationResponse)
    (request : RankCandidatesRequest) : M RankingResponse :=
  let eval_tasks :=
    map (fun candidate =>
           let eval_request :=
             {| candidate_answer := answer candidate;
                question_context := rank_question_context request |} in
           _evaluate_candidate evaluation_service (candidate_id candidate)
             eval_request)
        (candidates request) in
  evaluated_candidates <- gather eval_tasks ;;
  lift (sort_and_rank evaluated_candidates).

(** [rank_candidates] with the service of [get_evaluation_service()]. *)
Definition rank_candidates (request : RankCandidatesRequest) : M RankingResponse :=
  rank_candidates_with evaluate request.

End Model.

(** * Vocabulary of the properties *)

(** ** Strings *)

(** A text of [n] characters, for the examples. *)
Fixpoint text_of_length (n : nat) : string :=
  match n with
  | O => EmptyString
  | S n' => String "a"%char (text_of_length n')
  end.

(** ** The Synthesize stage *)

(** The updates of the [except] clause of [synthesizer_node]. *)
Definition synthesis_error (e : exn) : gmap string pyval :=
  dict
    [("final_score", PyInt 3);
     ("final_summary", PyStr "Synthesis error");
     ("final_improvement", PyStr "Unable to provide feedback");
     ("error", PyStr e);
     ("current_agent", PyStr "synthesizer")].

(** What the two [if len(...) > limit] statements compute. *)
Definition truncated (limit : Z) (keep : nat) (s : string) : string :=
  if limit <? len s then slice_to keep s +:+ "..." else s.

(** The example of the specification: a summary of 250 characters and an
    improvement of 400 characters. *)
Definition long_texts_state : gmap string pyval :=
  dict
    [("evaluator_score", PyInt 4);
     ("final_summary", PyStr (text_of_length 250));
     ("final_improvement", PyStr (text_of_length 400))].

(** ** Example environments *)

(** An environment for the examples: the language model always fails, there
    is no Redis client, and the digest is the identity. *)
Definition offline_env : Env := {|
  get_langchain_llm_raises := None;
  llm_invoke := fun _ _ _ => Raise "connection error";
  parser_parse := fun _ => Raise "OutputParserException";
  lax_int := fun _ => None;
  redis_client := false;
  enable_caching := true;
  redis_ttl := 86400;
  redis_raises := fun _ => None;
  md5_hexdigest := fun content => content;
  json_dumps := fun _ => "{}";
  json_loads := fun _ => Raise "JSONDecodeError"
|}.

(** ** Validated responses *)

(** The constraints of [EvaluationResponse]. *)
Definition valid_response (r : EvaluationResponse) : Prop :=
  1 <= er_score r <= 5 /\
  10 <= len (er_summary r) <= 200 /\
  10 <= len (er_improvement r) <= 300.

(** The response of the [except] clause of [evaluate]. *)
Definition neutral_response : EvaluationResponse := {|
  er_score := 3;
  er_summary := "Evaluation encountered an error";
  er_improvement := "Please try again or contact support"
|}.

(** ** Fallback completeness *)

(** The environment [E] with a language model that raises at every call. *)
Definition llm_raising (E : Env) (e : exn) : Env := {|
  get_langchain_llm_raises := None;
  llm_invoke := fun _ _ _ => Raise e;
  parser_parse := parser_parse E;
  lax_int := lax_int E;
  redis_client := redis_client E;
  enable_caching := enable_caching E;
  redis_ttl := redis_ttl E;
  redis_raises := redis_raises E;
  md5_hexdigest := md5_hexdigest E;
  json_dumps := json_dumps E;
  json_loads := json_loads E
|}.

(** The environment [E] with a language model that answers [text] at every
    call, a text the parser rejects. *)
Definition llm_unparseable (E : Env) (text : string) (e : exn) : Env := {|
  get_langchain_llm_raises := None;
  llm_invoke := fun _ _ _ => Ok text;
  parser_parse := fun _ => Raise e;
  lax_int := lax_int E;
  redis_client := redis_client E;
  enable_caching := enable_caching E;
  redis_ttl := redis_ttl E;
  redis_raises := redis_raises E;
  md5_hexdigest := md5_hexdigest E;
  json_dumps := json_dumps E;
  json_loads := json_loads E
|}.

(** The environment [E] without a language-model client: the three agents
    raise before their own [try] block and the nodes fall back. *)
Definition llm_missing (E : Env) (e : exn) : Env := {|
  get_langchain_llm_raises := Some e;
  llm_invoke := llm_invoke E;
  parser_parse := parser_parse E;
  lax_int := lax_int E;
  redis_client := redis_client E;
  enable_caching := enable_caching E;
  redis_ttl := redis_ttl E;
  redis_raises := redis_raises E;
  md5_hexdigest := md5_hexdigest E;
  json_dumps := json_dumps E;
  json_loads := json_loads E
|}.

(** The response when the three agents take their fallback. *)
Definition agents_fallback_response : EvaluationResponse := {|
  er_score := 3;
  er_summary := "Analysis unavailable due to error";
  er_improvement :=
    "Review the question requirements and ensure your answer addresses all key points with specific examples."
|}.

(** The response when the three nodes take their fallback. *)
Definition nodes_fallback_response : EvaluationResponse := {|
  er_score := 3;
  er_summary := "Unable to generate summary";
  er_improvement := "Unable to generate suggestion"
|}.

(** ** The workflow does not look at the cache *)

(** A computation is blind to the cache when its outcome and the number of
    language-model calls it makes depend on the call counter only, not on
    the Redis part of the world. *)
Definition cache_blind {A} (m : M A) : Prop :=
  forall w1 w2, llm_calls w1 = llm_calls w2 ->
    fst (m w1) = fst (m w2) /\ llm_calls (snd (m w1)) = llm_calls (snd (m w2)).

(** ** Cache failures *)

(** [EvaluationResponse( ** json.loads(text) )]. *)
Definition deserialize (E : Env) (text : string) : result EvaluationResponse :=
  rbind (json_loads E text) (kwargs (EvaluationResponse_init E)).

(** The world after one Redis command that left the store as it was. *)
Definition after_command (w : world) : world :=
  {| llm_calls := llm_calls w; redis_ops := S (redis_ops w); store := store w |}.

(** What a read of the cache answers when the command does not fail. *)
Definition cache_lookup (E : Env) (st : gmap string string) (key : string)
    : option EvaluationResponse :=
  match st !! key with
  | Some text =>
      if truthy (PyStr text) then
        match deserialize E text with
        | Ok r => Some r
        | Raise _ => None
        end
      else None
  | None => None
  end.

Definition demo_request : EvaluateAnswerRequest := {|
  candidate_answer := "I would use a hash map for constant-time lookups";
  question_context := Some "How would you find two numbers that sum to a target?"
|}.

(** The replies of a language model that does its job, and the documents the
    parser reads from them. *)
Definition demo_reply (p : system_prompt) : string :=
  match p with
  | EVALUATOR_SYSTEM_PROMPT => "score-reply"
  | ANALYZER_SYSTEM_PROMPT => "analysis-reply"
  | IMPROVEMENT_SYSTEM_PROMPT => "improvement-reply"
  end.

Definition demo_parse (text : string) : result pyobj :=
  if String.eqb text "score-reply" then
    Ok (PyDict (dict [("score", PyInt 4);
                      ("justification", PyStr "Correct approach, minor gaps")]))
  else if String.eqb text "analysis-reply" then
    Ok (PyDict (dict [("strengths", PyStr "Knows hash maps");
                      ("weaknesses", PyStr "No edge cases");
                      ("summary", PyStr "Solid understanding of hash maps")]))
  else if String.eqb text "terse-analysis-reply" then
    Ok (PyDict (dict [("strengths", PyStr "Knows hash maps");
                      ("weaknesses", PyStr "No edge cases");
                      ("summary", PyStr "Too short")]))
  else if String.eqb text "improvement-reply" then
    Ok (PyDict (dict [("suggestion", PyStr "Mention the space complexity")]))
  else Raise "OutputParserException".

Definition demo_response : EvaluationResponse := {|
  er_score := 4;
  er_summary := "Solid understanding of hash maps";
  er_improvement := "Mention the space complexity"
|}.

(** A serialization that is inverted on the document of [demo_response]. *)
Definition demo_dumps (d : gmap string pyval) : string :=
  to_str (get d "score") +:+ "|" +:+ to_str (get d "summary") +:+ "|"
  +:+ to_str (get d "improvement").

Definition demo_loads (text : string) : result pyobj :=
  if String.eqb text (demo_dumps (model_dump demo_response))
  then Ok (PyDict (model_dump demo_response))
  else Raise "JSONDecodeError".

(** A healthy store and a language model that does its job. *)
Definition healthy_env : Env := {|
  get_langchain_llm_raises := None;
  llm_invoke := fun _ p _ => Ok (demo_reply p);
  parser_parse := demo_parse;
  lax_int := fun _ => None;
  redis_client := true;
  enable_caching := true;
  redis_ttl := 86400;
  redis_raises := fun _ => None;
  md5_hexdigest := fun content => content;
  json_dumps := demo_dumps;
  json_loads := demo_loads
|}.

(** A healthy store and a language model whose first analysis has a summary
    of nine characters. *)
Definition terse_env : Env := {|
  get_langchain_llm_raises := None;
  llm_invoke := fun n p _ =>
    match p with
    | ANALYZER_SYSTEM_PROMPT =>
        if (n <? 3)%nat then Ok "terse-analysis-reply" else Ok (demo_reply p)
    | _ => Ok (demo_reply p)
    end;
  parser_parse := demo_parse;
  lax_int := fun _ => None;
  redis_client := true;
  enable_caching := true;
  redis_ttl := 86400;
  redis_raises := fun _ => None;
  md5_hexdigest := fun content => content;
  json_dumps := demo_dumps;
  json_loads := demo_loads
|}.

(** A Redis client whose every command raises. *)
Definition broken_redis_env : Env := {|
  get_langchain_llm_raises := None;
  llm_invoke := fun _ p _ => Ok (demo_reply p);
  parser_parse := demo_parse;
  lax_int := fun _ => None;
  redis_client := true;
  enable_caching := true;
  redis_ttl := 86400;
  redis_raises := fun _ => Some "ConnectionError";
  md5_hexdigest := fun content => content;
  json_dumps := demo_dumps;
  json_loads := demo_loads
|}.

Definition empty_world : world := World 0 0 ∅.

(** ** Outcomes of example runs *)

(** The value of an outcome that is not an exception. *)
Definition is_ok {A} (r : result A) : bool :=
  match r with
  | Ok _ => true
  | Raise _ => false
  end.

Definition ok_or {A} (d : A) (r : result A) : A :=
  match r with
  | Ok a => a
  | Raise _ => d
  end.

(** The final state of the workflow on [demo_request] in [terse_env]. *)
Definition terse_final_state : gmap string pyval :=
  ok_or ∅ (invoke (evaluation_graph terse_env) (initial_state demo_request)
             (after_command empty_world)).1.

(** ** The trace of a run *)

(** A key of the state holds a value that is not [None]. *)
Definition is_set (state : gmap string pyval) (k : string) : Prop :=
  exists v, state !! k = Some v /\ v <> PyNone.

(** No value of the dictionary is [None]. *)
Definition no_none (d : gmap string pyval) : Prop :=
  map_Forall (fun _ v => v <> PyNone) d.

(** The marker of the stage that ran last. *)
Definition current_agent (state : gmap string pyval) : pyval :=
  get state "current_agent".

(** The fixed order of the stages and the output fields of each. *)
Definition stage_order : list string :=
  ["evaluator"; "analyzer"; "improvement"; "synthesizer"].

Definition stage_outputs (stage : string) : list string :=
  if String.eqb stage "evaluator" then
    ["evaluator_score"; "evaluator_justification"]
  else if String.eqb stage "analyzer" then
    ["analyzer_strengths"; "analyzer_weaknesses"; "final_summary"]
  else if String.eqb stage "improvement" then
    ["improvement_suggestion"; "final_improvement"]
  else if String.eqb stage "synthesizer" then
    ["final_score"; "final_summary"; "final_improvement"]
  else [].

(** What the updates of a node look like: the marker of the node, the
    output fields of the node set, and no [None] among the values. *)
Definition node_updates (stage : string) (update : gmap string pyval) : Prop :=
  update !! "current_agent" = Some (PyStr stage) /\
  Forall (is_set update) (stage_outputs stage) /\
  no_none update.

(** ** Ranking *)

(** A batch of three candidates; the evaluation of the second one raises. *)
Definition demo_batch : RankCandidatesRequest := {|
  candidates :=
    [{| candidate_id := "c1"; answer := "I would use a hash map" |};
     {| candidate_id := "c2"; answer := "A nested loop would work" |};
     {| candidate_id := "c3"; answer := "Sort, then two pointers" |}];
  rank_question_context := None
|}.

Definition failing_service (request : EvaluateAnswerRequest) : M EvaluationResponse :=
  if String.eqb (candidate_answer request) "A nested loop would work"
  then raise "RuntimeError"
  else ret demo_response.

(** ** The sort and the ranks, on drafts that are given *)

Definition by_score_desc (a b : RankedCandidate) : Prop := rc_score b <= rc_score a.

(** The candidates with a given score, in the order of the list. *)
Definition with_score_of (z : Z) (l : list RankedCandidate) : list RankedCandidate :=
  filter (fun c => rc_score c = z) l.

Definition with_rank (rank : Z) (c : RankedCandidate) : RankedCandidate := {|
  rc_candidate_id := rc_candidate_id c;
  rc_score := rc_score c;
  rc_summary := rc_summary c;
  rc_improvement := rc_improvement c;
  rc_rank := rank
|}.

(** The ranks [k], [k+1], ... given to the candidates of a list in order. *)
Fixpoint ranked_from (k : Z) (l : list RankedCandidate) : list RankedCandidate :=
  match l with
  | [] => []
  | c :: l' => with_rank k c :: ranked_from (k + 1) l'
  end.

Definition draft (cid : string) (score : Z) : RankedCandidate := {|
  rc_candidate_id := cid; rc_score := score;
  rc_summary := "summary"; rc_improvement := "improvement"; rc_rank := 0
|}.

(** * Requests, decision function and routes *)

(** ** app/schemas/request.py: validation *)

(** The characters that [str.strip()] removes, among the code points below
    256: the ASCII white space, the four separators 28 to 31, the next-line
    character and the no-break space. *)
Definition is_space (c : ascii) : bool :=
  let n := nat_of_ascii c in
  ((9 <=? n)%nat && (n <=? 13)%nat) || ((28 <=? n)%nat && (n <=? 32)%nat)
  || (n =? 133)%nat || (n =? 160)%nat.

Fixpoint lstrip (s : string) : string :=
  match s with
  | EmptyString => EmptyString
  | String c s' => if is_space c then lstrip s' else s
  end.

Fixpoint rstrip (s : string) : string :=
  match s with
  | EmptyString => EmptyString
  | String c s' =>
      match rstrip s' with
      | EmptyString => if is_space c then EmptyString else String c EmptyString
      | r => String c r
      end
  end.

(** [v.strip()]. *)
Definition strip (s : string) : string := rstrip (lstrip s).

(** The validator [validate_answer] of [EvaluateAnswerRequest] and of
    [CandidateAnswer]. *)
Definition validate_answer (v : string) : result string :=
  if len (strip v) <? 10 then Raise "ValueError" else Ok (strip v).

(** A field declared [str | None] with a [max_length]. *)
Definition optional_str_field (max_length : option Z) (v : pyval)
    : result (option string) :=
  match v with
  | PyNone => Ok None
  | _ => rbind (str_field None max_length (Some v)) (fun s => Ok (Some s))
  end.

(** [EvaluateAnswerRequest(candidate_answer=..., question_context=...)]: the
    constraints of the field, then the validator. *)
Definition EvaluateAnswerRequest_init (candidate_answer question_context : pyval)
    : result EvaluateAnswerRequest :=
  rbind (str_field (Some 10) (Some 5000) (Some candidate_answer)) (fun v =>
  rbind (validate_answer v) (fun answer =>
  rbind (optional_str_field (Some 1000) question_context) (fun question =>
  Ok {| candidate_answer := answer; question_context := question |}))).

(** [CandidateAnswer(candidate_id=..., answer=...)]. *)
Definition CandidateAnswer_init (candidate_id answer : pyval) : result CandidateAnswer :=
  rbind (str_field (Some 1) (Some 100) (Some candidate_id)) (fun cid =>
  rbind (str_field (Some 10) (Some 5000) (Some answer)) (fun v =>
  rbind (validate_answer v) (fun a =>
  Ok {| candidate_id := cid; answer := a |}))).

(** The validator [validate_candidates]: the identifiers are compared with
    the set of the identifiers. *)
Definition validate_candidates (v : list CandidateAnswer)
    : result (list CandidateAnswer) :=
  let candidate_ids := map candidate_id v in
  if bool_decide (length candidate_ids
                  = size (list_to_set candidate_ids : gset string))
  then Ok v else Raise "ValueError".

(** [RankCandidatesRequest(candidates=..., question_context=...)] over
    candidates that are validated: between 1 and 100 of them, then the
    validator. *)
Definition RankCandidatesRequest_init (candidates : list CandidateAnswer)
    (question_context : pyval) : result RankCandidatesRequest :=
  rbind (if (1 <=? Z.of_nat (length candidates))
            && (Z.of_nat (length candidates) <=? 100)
         then Ok candidates else Raise ValidationError) (fun v =>
  rbind (validate_candidates v) (fun cs =>
  rbind (optional_str_field (Some 1000) question_context) (fun question =>
  Ok {| candidates := cs; rank_question_context := question |}))).

(** A text that does not begin with a character that [strip] removes. *)
Definition starts_clean (s : string) : Prop :=
  match s with
  | EmptyString => True
  | String c _ => is_space c = false
  end.

(** ** app/agents/nodes.py: the updates of the nodes and [should_continue] *)

(** The dictionary that [evaluator_node] returns: from its [try] block when
    the agent returned, from its [except] clause when the agent raised. *)
Definition evaluator_updates (r : result EvaluatorOutput) : gmap string pyval :=
  match r with
  | Ok result =>
      dict
        [("evaluator_score", PyInt (eo_score result));
         ("evaluator_justification", PyStr (eo_justification result));
         ("current_agent", PyStr "evaluator");
         ("messages",
          PyMsgs ["Score: " +:+ pretty (eo_score result) +:+ ", Justification: "
                  +:+ eo_justification result])]
  | Raise e =>
      dict
        [("evaluator_score", PyInt 3);
         ("evaluator_justification", PyStr "Evaluation error");
         ("error", PyStr e);
         ("current_agent", PyStr "evaluator")]
  end.

Definition analyzer_updates (r : result AnalyzerOutput) : gmap string pyval :=
  match r with
  | Ok result =>
      dict
        [("analyzer_strengths", PyStr (ao_strengths result));
         ("analyzer_weaknesses", PyStr (ao_weaknesses result));
         ("final_summary", PyStr (ao_summary result));
         ("current_agent", PyStr "analyzer");
         ("messages", PyMsgs ["Summary: " +:+ ao_summary result])]
  | Raise e =>
      dict
        [("analyzer_strengths", PyStr "Analysis unavailable");
         ("analyzer_weaknesses", PyStr "Analysis unavailable");
         ("final_summary", PyStr "Unable to generate summary");
         ("error", PyStr e);
         ("current_agent", PyStr "analyzer")]
  end.

Definition improvement_updates (r : result ImprovementOutput) : gmap string pyval :=
  match r with
  | Ok result =>
      dict
        [("improvement_suggestion", PyStr (io_suggestion result));
         ("final_improvement", PyStr (io_suggestion result));
         ("current_agent", PyStr "improvement");
         ("messages", PyMsgs ["Improvement: " +:+ io_suggestion result])]
  | Raise e =>
      dict
        [("improvement_suggestion", PyStr "Unable to generate suggestion");
         ("final_improvement", PyStr "Unable to generate suggestion");
         ("error", PyStr e);
         ("current_agent", PyStr "improvement")]
  end.

Definition synthesizer_updates (state : gmap string pyval) : gmap string pyval :=
  match synthesizer_try state with
  | Ok update => update
  | Raise e => synthesis_error e
  end.

(** [should_continue]: the decision function of nodes.py. A marker that is
    not one of the four names, also one that is not a string, ends the
    workflow. *)
Definition should_continue (state : gmap string pyval) : string :=
  match get state "current_agent" with
  | PyNone => "evaluator"
  | PyStr current =>
      if String.eqb current "evaluator" then "analyzer"
      else if String.eqb current "analyzer" then "improvement"
      else if String.eqb current "improvement" then "synthesizer"
      else if String.eqb current "synthesizer" then "end"
      else "end"
  | _ => "end"
  end.

(** The world after [n] more invocations of the language model. *)
Definition bump (n : nat) (w : world) : world :=
  {| llm_calls := n + llm_calls w; redis_ops := redis_ops w; store := store w |}.

(** The fallbacks of the three agents. *)
Definition evaluator_fallback (e : exn) : EvaluatorOutput := {|
  eo_score := 3;
  eo_justification := "Evaluation error occurred: " +:+ slice_to 100 e
|}.

Definition analyzer_fallback : AnalyzerOutput := {|
  ao_strengths := "Unable to analyze strengths";
  ao_weaknesses := "Unable to analyze weaknesses";
  ao_summary := "Analysis unavailable due to error"
|}.

Definition improvement_fallback : ImprovementOutput := {|
  io_suggestion :=
    "Review the question requirements and ensure your answer addresses all key points with specific examples."
|}.

(** The [try] block of an agent, without the world: the invocation at the
    call number [n], the parser, the model. *)
Definition agent_try {A} (E : Env) (n : nat) (p : system_prompt) (user_content : string)
    (init : (string -> option pyval) -> result A) : result A :=
  rbind (llm_invoke E n p user_content) (fun response =>
  rbind (parser_parse E response) (kwargs init)).

(** The states of a run of the evaluation graph on a request, given what
    the three agents returned or raised. *)
Definition run_states (request : EvaluateAnswerRequest)
    (r1 : result EvaluatorOutput) (r2 : result AnalyzerOutput)
    (r3 : result ImprovementOutput) : list (gmap string pyval) :=
  let s0 := initial_state request in
  let s1 := apply_updates s0 (evaluator_updates r1) in
  let s2 := apply_updates s1 (analyzer_updates r2) in
  let s3 := apply_updates s2 (improvement_updates r3) in
  let s4 := apply_updates s3 (synthesizer_updates s3) in
  [s0; s1; s2; s3; s4].

(** The texts of the [messages] channel of a state. *)
Definition messages_of (state : gmap string pyval) : list string :=
  match get state "messages" with
  | PyMsgs l => l
  | _ => []
  end.

(** The number of invocations of a direct execution: one per agent with a
    client, none without. *)
Definition invocations (E : Env) : nat :=
  match get_langchain_llm_raises E with
  | None => 3
  | Some _ => 0
  end.

(** The score, the summary and the improvement that the final state of a
    run holds, given what the agents returned or raised. *)
Definition final_score_of (r1 : result EvaluatorOutput) : Z :=
  match r1 with
  | Ok out => eo_score out
  | Raise _ => 3
  end.

Definition final_summary_of (r2 : result AnalyzerOutput) : string :=
  truncated 200 197
    match r2 with
    | Ok out => ao_summary out
    | Raise _ => "Unable to generate summary"
    end.

Definition final_improvement_of (r3 : result ImprovementOutput) : string :=
  truncated 300 297
    match r3 with
    | Ok out => io_suggestion out
    | Raise _ => "Unable to generate suggestion"
    end.

(** The message that each node appends; a node that took its [except]
    clause appends none. *)
Definition evaluator_messages (r : result EvaluatorOutput) : list string :=
  match r with
  | Ok result =>
      ["Score: " +:+ pretty (eo_score result) +:+ ", Justification: "
       +:+ eo_justification result]
  | Raise _ => []
  end.

Definition analyzer_messages (r : result AnalyzerOutput) : list string :=
  match r with
  | Ok result => ["Summary: " +:+ ao_summary result]
  | Raise _ => []
  end.

Definition improvement_messages (r : result ImprovementOutput) : list string :=
  match r with
  | Ok result => ["Improvement: " +:+ io_suggestion result]
  | Raise _ => []
  end.

(** Two states that the nodes cannot tell apart: they agree on every key but
    the question, and their questions give the same user message. *)
Definition same_prompts (s s' : gmap string pyval) : Prop :=
  (forall k, k <> "question_context" -> s !! k = s' !! k) /\
  (forall a,
     answer_and_question a (get s "question_context")
     = answer_and_question a (get s' "question_context")).

(** ** Example worlds *)

(** The serialization of [demo_response], as [healthy_env] writes it. *)
Definition demo_entry : string := json_dumps healthy_env (model_dump demo_response).

(** An environment like [healthy_env] but with a language model that always
    fails: only the cache can answer [demo_response]. *)
Definition cache_only_env : Env := {|
  get_langchain_llm_raises := None;
  llm_invoke := fun _ _ _ => Raise "connection error";
  parser_parse := demo_parse;
  lax_int := fun _ => None;
  redis_client := true;
  enable_caching := true;
  redis_ttl := 86400;
  redis_raises := fun _ => None;
  md5_hexdigest := fun content => content;
  json_dumps := demo_dumps;
  json_loads := demo_loads
|}.

(** A world whose store holds [demo_entry] under the key of
    [demo_request]. *)
Definition warm_world : world :=
  World 0 0
    {[ _generate_cache_key cache_only_env (candidate_answer demo_request)
         (question_context demo_request) := demo_entry ]}.

(** Two requests with the same content: the separator is in the answer of
    the first and in the question of the second. *)
Definition colon_in_answer : EvaluateAnswerRequest := {|
  candidate_answer := "I would use a hash map: it is fast";
  question_context := Some "why"
|}.

Definition colon_in_question : EvaluateAnswerRequest := {|
  candidate_answer := "I would use a hash map";
  question_context := Some " it is fast:why"
|}.

(** ** app/api/routes.py *)

(** What a route hands to FastAPI: the model it returns, or the
    [HTTPException] it raises, with the status code and the [error],
    [message] and [details.error] entries of its detail. *)
Inductive endpoint (A : Type) : Type :=
  | Returned (result : A)
  | HTTPException (status_code : Z) (error message details : string).

Arguments Returned {A} result.
Arguments HTTPException {A} status_code error message details.

Definition HTTP_500_INTERNAL_SERVER_ERROR : Z := 500.

Module routes.

(** [evaluate_answer]: the route of [POST /evaluate-answer]. *)
Definition evaluate_answer (E : Env) (request : EvaluateAnswerRequest)
    : world -> endpoint EvaluationResponse * world :=
  fun w =>
    match evaluate E request w with
    | (Ok result, w') => (Returned result, w')
    | (Raise e, w') =>
        (HTTPException HTTP_500_INTERNAL_SERVER_ERROR
           "EvaluationError" "Failed to evaluate answer" e, w')
    end.

(** [rank_candidates]: the route of [POST /rank-candidates]. *)
Definition rank_candidates (E : Env) (request : RankCandidatesRequest)
    : world -> endpoint RankingResponse * world :=
  fun w =>
    match rank_candidates E request w with
    | (Ok result, w') => (Returned result, w')
    | (Raise e, w') =>
        (HTTPException HTTP_500_INTERNAL_SERVER_ERROR
           "RankingError" "Failed to rank candidates" e, w')
    end.

End routes.

(** ** The ranking *)

(** The candidate identifiers of a ranking, in order. *)
Definition ids_of (l : list RankedCandidate) : list string :=
  map rc_candidate_id l.

(** * Properties *)

(** ** Strings *)

Lemma str_app_cons (c : ascii) (s t : string) : String c s +:+ t = String c (s +:+ t).
Proof. reflexivity. Qed.

Lemma str_app_assoc (s1 s2 s3 : string) : (s1 +:+ s2) +:+ s3 = s1 +:+ s2 +:+ s3.
Proof.
  induction s1 as [|c s1 IH]; [reflexivity|].
  by rewrite !str_app_cons, IH.
Qed.

Lemma str_length_app (s1 s2 : string) :
  String.length (s1 +:+ s2) = (String.length s1 + String.length s2)%nat.
Proof.
  induction s1 as [|c s1 IH]; [reflexivity|].
  change (String c s1 +:+ s2) with (String c (s1 +:+ s2)).
  simpl. by rewrite IH.
Qed.

Lemma length_slice_to (n : nat) (s : string) :
  String.length (slice_to n s) = Nat.min n (String.length s).
Proof.
  unfold slice_to. revert s.
  induction n as [|n IH]; intros [|c s]; simpl; try reflexivity.
  by rewrite IH.
Qed.

Lemma len_app (s1 s2 : string) : len (s1 +:+ s2) = len s1 + len s2.
Proof. unfold len. rewrite str_length_app. lia. Qed.

Lemma len_slice_to (n : nat) (s : string) :
  Z.of_nat n <= len s -> len (slice_to n s) = Z.of_nat n.
Proof. unfold len. rewrite length_slice_to. lia. Qed.

(** A cut text has the length of the limit when the text was longer. *)
Lemma len_cut (n : nat) (s : string) :
  Z.of_nat n <= len s -> len (slice_to n s +:+ "...") = Z.of_nat n + 3.
Proof. intros H. rewrite len_app, len_slice_to by done. reflexivity. Qed.

(** ** The monad *)

Lemma bind_ok {A B} (m : M A) (k : A -> M B) (w w' : world) (a : A) :
  m w = (Ok a, w') -> bind m k w = k a w'.
Proof. unfold bind. by intros ->. Qed.

Lemma bind_raise {A B} (m : M A) (k : A -> M B) (w w' : world) (e : exn) :
  m w = (Raise e, w') -> bind m k w = (Raise e, w').
Proof. unfold bind. by intros ->. Qed.

Lemma try_except_ok {A} (m : M A) (h : exn -> M A) (w w' : world) (a : A) :
  m w = (Ok a, w') -> try_except m h w = (Ok a, w').
Proof. unfold try_except. by intros ->. Qed.

Lemma try_except_raise {A} (m : M A) (h : exn -> M A) (w w' : world) (e : exn) :
  m w = (Raise e, w') -> try_except m h w = h e w'.
Proof. unfold try_except. by intros ->. Qed.

(** ** The Synthesize stage *)

Lemma synthesizer_try_texts (state : gmap string pyval) (summary improvement : string) :
  get_default state "final_summary" (PyStr "No summary available") = PyStr summary ->
  get_default state "final_improvement" (PyStr "No improvement suggestion available")
    = PyStr improvement ->
  synthesizer_try state =
    Ok (dict
      [("final_score", get_default state "evaluator_score" (PyInt 3));
       ("final_summary", PyStr (truncated 200 197 summary));
       ("final_improvement", PyStr (truncated 300 297 improvement));
       ("current_agent", PyStr "synthesizer");
       ("messages", PyMsgs ["Synthesis complete"])]).
Proof.
  intros Hs Hi. unfold synthesizer_try, truncated. rewrite Hs, Hi. simpl.
  by destruct (200 <? len summary), (300 <? len improvement).
Qed.

Lemma truncated_over (limit : Z) (keep : nat) (s : string) :
  Z.of_nat keep + 3 = limit -> limit < len s ->
  truncated limit keep s = slice_to keep s +:+ "..." /\
  len (truncated limit keep s) = limit.
Proof.
  intros Hk Hlt. unfold truncated.
  destruct (Z.ltb_spec limit (len s)); [|lia].
  split; [reflexivity|]. rewrite len_cut; lia.
Qed.

Lemma truncated_within (limit : Z) (keep : nat) (s : string) :
  len s <= limit -> truncated limit keep s = s.
Proof. intros H. unfold truncated. destruct (Z.ltb_spec limit (len s)); [lia|done]. Qed.

(** C4. The Synthesize stage truncates deterministically. On a state whose
    summary and improvement are texts, [synthesizer_node] returns a summary
    and an improvement such that: a summary longer than 200 characters is
    cut to its first 197 characters followed by the three-dot ellipsis and
    has length exactly 200; an improvement longer than 300 characters is cut
    to its first 297 characters followed by the ellipsis and has length
    exactly 300; a text at or under its limit is returned unchanged. *)
Theorem synthesizer_node_truncates
    (state : gmap string pyval) (summary improvement : string) (w : world) :
  state !! "final_summary" = Some (PyStr summary) ->
  state !! "final_improvement" = Some (PyStr improvement) ->
  exists update s' i',
    synthesizer_node state w = (Ok update, w) /\
    update !! "final_summary" = Some (PyStr s') /\
    update !! "final_improvement" = Some (PyStr i') /\
    (200 < len summary -> len s' = 200 /\ s' = slice_to 197 summary +:+ "...") /\
    (len summary <= 200 -> s' = summary) /\
    (300 < len improvement ->
       len i' = 300 /\ i' = slice_to 297 improvement +:+ "...") /\
    (len improvement <= 300 -> i' = improvement).
Proof.
  intros Hs Hi.
  exists (dict
    [("final_score", get_default state "evaluator_score" (PyInt 3));
     ("final_summary", PyStr (truncated 200 197 summary));
     ("final_improvement", PyStr (truncated 300 297 improvement));
     ("current_agent", PyStr "synthesizer");
     ("messages", PyMsgs ["Synthesis complete"])]),
    (truncated 200 197 summary), (truncated 300 297 improvement).
  split.
  { unfold synthesizer_node, try_except, lift.
    rewrite (synthesizer_try_texts state summary improvement);
      [reflexivity | unfold get_default; by rewrite Hs
                   | unfold get_default; by rewrite Hi]. }
  split; [reflexivity|]. split; [reflexivity|].
  split; [intros H; destruct (truncated_over 200 197 summary) as [-> ->]; done|].
  split; [apply truncated_within|].
  split; [intros H; destruct (truncated_over 300 297 improvement) as [-> ->]; done|].
  apply truncated_within.
Qed.

Lemma synthesizer_node_truncates_witness :
  exists update s' i',
    synthesizer_node long_texts_state (World 0 0 ∅) = (Ok update, World 0 0 ∅) /\
    update !! "final_summary" = Some (PyStr s') /\
    update !! "final_improvement" = Some (PyStr i') /\
    len s' = 200 /\ s' = slice_to 197 (text_of_length 250) +:+ "..." /\
    len i' = 300 /\ i' = slice_to 297 (text_of_length 400) +:+ "...".
Proof.
  destruct (synthesizer_node_truncates long_texts_state
              (text_of_length 250) (text_of_length 400) (World 0 0 ∅))
    as (update & s' & i' & Hrun & Hs & Hi & Hs_over & _ & Hi_over & _);
    [reflexivity | reflexivity |].
  exists update, s', i'.
  destruct Hs_over as [? ?]; [vm_compute; reflexivity|].
  destruct Hi_over as [? ?]; [vm_compute; reflexivity|].
  repeat split; assumption.
Defined.

(** The defaults of the three reads apply to a state from which the keys are
    absent. *)
Lemma synthesizer_node_absent_keys (w : world) :
  synthesizer_node ∅ w =
    (Ok (dict
      [("final_score", PyInt 3);
       ("final_summary", PyStr "No summary available");
       ("final_improvement", PyStr "No improvement suggestion available");
       ("current_agent", PyStr "synthesizer");
       ("messages", PyMsgs ["Synthesis complete"])]), w).
Proof. reflexivity. Qed.



(** ** The cache key *)

(** The key is the prefix and the digest of the content. *)
Lemma generate_cache_key_eq (E : Env) (a a' : string) (q q' : option string) :
  _generate_cache_key E a q = _generate_cache_key E a' q' <->
  md5_hexdigest E (cache_content a q) = md5_hexdigest E (cache_content a' q').
Proof.
  unfold _generate_cache_key. split; [|by intros ->].
  intros H. by apply (inj (String.app "eval:")) in H.
Qed.

(** Two pairs with the same content have the same key, whatever the digest:
    the separator may belong to the answer or to the question. *)
Lemma generate_cache_key_separator (E : Env) (a b c : string) :
  _generate_cache_key E (a +:+ ":" +:+ b) (Some c)
  = _generate_cache_key E a (Some (b +:+ ":" +:+ c)).
Proof.
  apply generate_cache_key_eq. f_equal. unfold cache_content. simpl.
  by rewrite !str_app_assoc.
Qed.

(** A missing question and an empty question have the same key. *)
Lemma generate_cache_key_no_question (E : Env) (a : string) :
  _generate_cache_key E a None = _generate_cache_key E a (Some EmptyString).
Proof. reflexivity. Qed.

Lemma str_app_inv_head (s t1 t2 : string) : s +:+ t1 = s +:+ t2 -> t1 = t2.
Proof. apply (inj (String.app s)). Qed.

Lemma str_app_neq_self (s t : string) : t <> EmptyString -> s +:+ t <> s.
Proof.
  intros Ht H. apply (f_equal String.length) in H.
  rewrite str_length_app in H. destruct t; [done|]. simpl in H. lia.
Qed.

(** The content with a blank appended to the question differs from the
    content without it. *)
Lemma cache_content_blank (a : string) (q : option string) :
  cache_content a (Some (or_empty q +:+ " ")) <> cache_content a q.
Proof.
  unfold cache_content. intros H.
  apply str_app_inv_head, str_app_inv_head in H. simpl in H.
  by apply str_app_neq_self in H.
Qed.

(** C8, as amended. The key is [eval:] followed by the digest of
    [answer + ":" + (question or "")], so it is a function of the pair; two
    pairs have the same key exactly when the digests of their contents are
    equal; and the content of a pair differs from the content of the same
    pair with a blank appended to the question, so these two keys differ
    exactly when the digest does not collide on the two contents. *)
Theorem generate_cache_key_spec (E : Env) (a : string) (q : option string) :
  _generate_cache_key E a q
    = "eval:" +:+ md5_hexdigest E (a +:+ ":" +:+ or_empty q) /\
  (forall a' q',
     _generate_cache_key E a q = _generate_cache_key E a' q' <->
     md5_hexdigest E (cache_content a q) = md5_hexdigest E (cache_content a' q')) /\
  cache_content a (Some (or_empty q +:+ " ")) <> cache_content a q.
Proof.
  split; [reflexivity|]. split; [intros; apply generate_cache_key_eq|].
  apply cache_content_blank.
Qed.

(** C8 as stated fails: two different pairs, both valid requests, with the
    same key. The digest plays no part: the two contents are the same
    string. *)
Lemma generate_cache_key_collision :
  ("I would use a hash map: it is fast", Some "why")
    <> ("I would use a hash map", Some " it is fast:why") /\
  _generate_cache_key offline_env "I would use a hash map: it is fast" (Some "why")
  = _generate_cache_key offline_env "I would use a hash map" (Some " it is fast:why").
Proof. split; [discriminate | reflexivity]. Qed.

(** ** Validated responses *)

Lemma int_field_ok (E : Env) (ge le : option Z) (v : option pyval) (z : Z) :
  int_field E ge le v = Ok z -> at_least ge z = true /\ at_most le z = true.
Proof.
  unfold int_field. destruct (v ≫= validate_int E) as [z'|]; [|done].
  destruct (at_least ge z') eqn:Hge, (at_most le z') eqn:Hle; simpl; try done.
  by intros [= <-].
Qed.

Lemma str_field_ok (lo hi : option Z) (v : option pyval) (s : string) :
  str_field lo hi v = Ok s ->
  v = Some (PyStr s) /\ at_least lo (len s) = true /\ at_most hi (len s) = true.
Proof.
  unfold str_field. destruct v as [[]|]; simpl; try done.
  destruct (at_least lo (len s0)) eqn:Hlo, (at_most hi (len s0)) eqn:Hhi;
    simpl; try done.
  by intros [= <-].
Qed.

Lemma rbind_ok {A B} (r : result A) (k : A -> result B) (b : B) :
  rbind r k = Ok b -> exists a, r = Ok a /\ k a = Ok b.
Proof. destruct r as [a|e]; simpl; [eauto | done]. Qed.

(** A response that was constructed satisfies the constraints of the model. *)
Lemma EvaluationResponse_init_valid (E : Env) (f : string -> option pyval)
    (r : EvaluationResponse) :
  EvaluationResponse_init E f = Ok r -> valid_response r.
Proof.
  unfold EvaluationResponse_init. intros H.
  apply rbind_ok in H as (score & Hscore & H).
  apply rbind_ok in H as (summary & Hsummary & H).
  apply rbind_ok in H as (improvement & Himprovement & H).
  injection H as <-. unfold valid_response. simpl.
  apply int_field_ok in Hscore as [? ?].
  apply str_field_ok in Hsummary as (_ & ? & ?).
  apply str_field_ok in Himprovement as (_ & ? & ?).
  simpl in *. lia.
Qed.

Lemma fallback_response_eq (E : Env) (w : world) :
  fallback_response E w = (Ok neutral_response, w).
Proof. reflexivity. Qed.

Lemma neutral_response_valid : valid_response neutral_response.
Proof. unfold valid_response. simpl. vm_compute. intuition discriminate. Qed.

(** ** The cache never raises *)

Lemma get_cached_result_total (E : Env) (key : string) (w : world) :
  exists o w',
    _get_cached_result E key w = (Ok o, w') /\
    llm_calls w' = llm_calls w /\
    (forall r, o = Some r -> valid_response r).
Proof.
  unfold _get_cached_result.
  destruct (caching_off E); [by exists None, w|].
  unfold try_except, bind, redis_get, redis_command, lift, ret.
  destruct (redis_raises E (redis_ops w)) as [e|]; [by eexists None, _|].
  simpl. destruct (store w !! key) as [text|]; [|by eexists None, _].
  destruct (negb (String.eqb text EmptyString)); [|by eexists None, _].
  destruct (json_loads E text) as [data|e]; [|by eexists None, _].
  destruct (kwargs (EvaluationResponse_init E) data) as [r|e] eqn:Hr;
    [|by eexists None, _].
  eexists (Some r), _. split; [reflexivity|]. split; [reflexivity|].
  intros ? [= <-]. destruct data as [d|]; [|done].
  by apply EvaluationResponse_init_valid in Hr.
Qed.

Lemma cache_result_total (E : Env) (key : string) (r : EvaluationResponse) (w : world) :
  exists w', _cache_result E key r w = (Ok tt, w') /\ llm_calls w' = llm_calls w.
Proof.
  unfold _cache_result.
  destruct (caching_off E); [by exists w|].
  unfold try_except, redis_setex, redis_command, ret.
  destruct (redis_raises E (redis_ops w)) as [e|]; [by eexists|].
  destruct (0 <? redis_ttl E); by eexists.
Qed.

(** ** [execute] and [evaluate] always return a valid response *)

Lemma execute_total (E : Env) (request : EvaluateAnswerRequest) (w : world) :
  exists r w', execute E request w = (Ok r, w') /\ valid_response r.
Proof.
  unfold execute, try_except.
  destruct (run_workflow E request w) as [[r|e] w'] eqn:Hrun.
  - exists r, w'. split; [reflexivity|].
    unfold run_workflow, bind in Hrun.
    destruct (invoke _ _ w) as [[st|?] w1]; [|done].
    destruct (subscript st "final_score" w1) as [[v1|?] w2]; [|done].
    destruct (subscript st "final_summary" w2) as [[v2|?] w3]; [|done].
    destruct (subscript st "final_improvement" w3) as [[v3|?] w4]; [|done].
    unfold lift in Hrun. injection Hrun as Hr _.
    by apply EvaluationResponse_init_valid in Hr.
  - exists neutral_response, w'. split; [apply fallback_response_eq|].
    apply neutral_response_valid.
Qed.

(** After a miss, [evaluate] answers what the direct execution answers: the
    write to the cache changes neither the response nor the number of
    language-model calls. *)
Lemma evaluate_miss (E : Env) (request : EvaluateAnswerRequest) (w w1 : world) :
  _get_cached_result E
    (_generate_cache_key E (candidate_answer request) (question_context request)) w
    = (Ok None, w1) ->
  exists w2,
    fst (evaluate E request w) = fst (execute E request w1) /\
    snd (evaluate E request w) = w2 /\
    llm_calls w2 = llm_calls (snd (execute E request w1)).
Proof.
  intros Hmiss. unfold evaluate. rewrite (bind_ok _ _ _ _ _ Hmiss).
  unfold execute, try_except, bind.
  destruct (run_workflow E request w1) as [[r|e] w'] eqn:Hrun.
  - destruct (cache_result_total E
      (_generate_cache_key E (candidate_answer request) (question_context request))
      r w') as (w'' & -> & Hcalls).
    by eexists.
  - rewrite fallback_response_eq. by eexists.
Qed.

Lemma evaluate_total (E : Env) (request : EvaluateAnswerRequest) (w : world) :
  exists r w', evaluate E request w = (Ok r, w') /\ valid_response r.
Proof.
  destruct (get_cached_result_total E
    (_generate_cache_key E (candidate_answer request) (question_context request)) w)
    as (o & w1 & Hget & _ & Hvalid).
  destruct o as [r|].
  - exists r, w1. split; [|by apply Hvalid].
    unfold evaluate. by rewrite (bind_ok _ _ _ _ _ Hget).
  - destruct (evaluate_miss E request w w1 Hget) as (w2 & Hfst & Hsnd & _).
    destruct (execute_total E request w1) as (r & w' & Hexec & Hr).
    exists r, w2. split; [|done].
    rewrite Hexec in Hfst. simpl in Hfst.
    destruct (evaluate E request w) as [r' w'']. simpl in *. by subst.
Qed.

(** ** Fallback completeness *)

Lemma execute_llm_raising (E : Env) (e : exn) (request : EvaluateAnswerRequest)
    (w : world) :
  fst (execute (llm_raising E e) request w) = Ok agents_fallback_response.
Proof. destruct request as [a [q|]]; vm_compute; reflexivity. Qed.

Lemma execute_llm_unparseable (E : Env) (text : string) (e : exn)
    (request : EvaluateAnswerRequest) (w : world) :
  fst (execute (llm_unparseable E text e) request w) = Ok agents_fallback_response.
Proof. destruct request as [a [q|]]; vm_compute; reflexivity. Qed.

Lemma execute_llm_missing (E : Env) (e : exn) (request : EvaluateAnswerRequest)
    (w : world) :
  fst (execute (llm_missing E e) request w) = Ok nodes_fallback_response.
Proof. destruct request as [a [q|]]; vm_compute; reflexivity. Qed.

(** C1. For every request, every behaviour of the language model and every
    world, [execute] returns a response with a score between 1 and 5, a
    summary of at most 200 characters and an improvement of at most 300
    characters, and so does [evaluate], with or without the cache. This
    covers a language model that fails at every stage: when every call
    raises, or every answer is rejected by the parser, the response is the
    one made of the fallbacks of the agents; when the client cannot be
    built, it is the one made of the fallbacks of the nodes. *)
Theorem execute_in_bounds :
  (forall (E : Env) (request : EvaluateAnswerRequest) (w : world),
     exists r w',
       execute E request w = (Ok r, w') /\
       1 <= er_score r <= 5 /\
       len (er_summary r) <= 200 /\
       len (er_improvement r) <= 300) /\
  (forall (E : Env) (request : EvaluateAnswerRequest) (w : world),
     exists r w',
       evaluate E request w = (Ok r, w') /\
       1 <= er_score r <= 5 /\
       len (er_summary r) <= 200 /\
       len (er_improvement r) <= 300) /\
  (forall E e request w,
     fst (execute (llm_raising E e) request w) = Ok agents_fallback_response) /\
  (forall E text e request w,
     fst (execute (llm_unparseable E text e) request w)
       = Ok agents_fallback_response) /\
  (forall E e request w,
     fst (execute (llm_missing E e) request w) = Ok nodes_fallback_response).
Proof.
  split; [|split; [|split; [|split]]].
  - intros E request w.
    destruct (execute_total E request w) as (r & w' & Hexec & Hscore & Hs & Hi).
    exists r, w'. repeat split; try done; lia.
  - intros E request w.
    destruct (evaluate_total E request w) as (r & w' & Hexec & Hscore & Hs & Hi).
    exists r, w'. repeat split; try done; lia.
  - apply execute_llm_raising.
  - apply execute_llm_unparseable.
  - apply execute_llm_missing.
Qed.

(** ** The workflow does not look at the cache *)

Lemma cache_blind_ret {A} (a : A) : cache_blind (ret a).
Proof. by intros w1 w2 H. Qed.

Lemma cache_blind_raise {A} (e : exn) : cache_blind (@raise A e).
Proof. by intros w1 w2 H. Qed.

Lemma cache_blind_lift {A} (r : result A) : cache_blind (lift r).
Proof. by intros w1 w2 H. Qed.

Lemma cache_blind_bind {A B} (m : M A) (k : A -> M B) :
  cache_blind m -> (forall a, cache_blind (k a)) -> cache_blind (bind m k).
Proof.
  intros Hm Hk w1 w2 H. unfold bind.
  destruct (Hm w1 w2 H) as [Hr Hc].
  destruct (m w1) as [[a1|e1] w1'], (m w2) as [[a2|e2] w2']; simpl in *;
    try discriminate.
  - injection Hr as ->. by apply Hk.
  - by injection Hr as ->.
Qed.

Lemma cache_blind_try_except {A} (m : M A) (h : exn -> M A) :
  cache_blind m -> (forall e, cache_blind (h e)) -> cache_blind (try_except m h).
Proof.
  intros Hm Hh w1 w2 H. unfold try_except.
  destruct (Hm w1 w2 H) as [Hr Hc].
  destruct (m w1) as [[a1|e1] w1'], (m w2) as [[a2|e2] w2']; simpl in *;
    try discriminate.
  - by injection Hr as ->.
  - injection Hr as ->. by apply Hh.
Qed.

Lemma cache_blind_get_langchain_llm (E : Env) : cache_blind (get_langchain_llm E).
Proof.
  unfold get_langchain_llm.
  destruct (get_langchain_llm_raises E);
    [apply cache_blind_raise | apply cache_blind_ret].
Qed.

Lemma cache_blind_llm_invoke (E : Env) (p : system_prompt) (u : string) :
  cache_blind (llm_invoke_counted E p u).
Proof. intros w1 w2 H. unfold llm_invoke_counted. simpl. by rewrite H. Qed.

Lemma cache_blind_subscript (state : gmap string pyval) (k : string) :
  cache_blind (subscript state k).
Proof.
  unfold subscript.
  destruct (getitem state k); [apply cache_blind_ret | apply cache_blind_raise].
Qed.

Create HintDb blind.
#[local] Hint Resolve cache_blind_ret cache_blind_raise cache_blind_lift
  cache_blind_get_langchain_llm cache_blind_llm_invoke cache_blind_subscript : blind.

(** The closure rules, applied down to the leaves. *)
Ltac blind :=
  repeat match goal with
    | |- cache_blind (bind _ _) => apply cache_blind_bind; [|intros ?]
    | |- cache_blind (try_except _ _) => apply cache_blind_try_except; [|intros ?]
    | |- cache_blind _ => solve [auto with blind]
    end.

Lemma cache_blind_evaluate_answer_sync (E : Env) (a q : pyval) :
  cache_blind (evaluate_answer_sync E a q).
Proof. unfold evaluate_answer_sync. blind. Qed.

Lemma cache_blind_analyze_answer_sync (E : Env) (a q s : pyval) :
  cache_blind (analyze_answer_sync E a q s).
Proof. unfold analyze_answer_sync. blind. Qed.

Lemma cache_blind_suggest_improvement_sync (E : Env) (a q s k : pyval) :
  cache_blind (suggest_improvement_sync E a q s k).
Proof. unfold suggest_improvement_sync. blind. Qed.

#[local] Hint Resolve cache_blind_evaluate_answer_sync
  cache_blind_analyze_answer_sync cache_blind_suggest_improvement_sync : blind.

Lemma cache_blind_evaluator_node (E : Env) (state : gmap string pyval) :
  cache_blind (evaluator_node E state).
Proof. unfold evaluator_node. blind. Qed.

Lemma cache_blind_analyzer_node (E : Env) (state : gmap string pyval) :
  cache_blind (analyzer_node E state).
Proof. unfold analyzer_node. blind. Qed.

Lemma cache_blind_improvement_node (E : Env) (state : gmap string pyval) :
  cache_blind (improvement_node E state).
Proof. unfold improvement_node. blind. Qed.

Lemma cache_blind_synthesizer_node (state : gmap string pyval) :
  cache_blind (synthesizer_node state).
Proof. unfold synthesizer_node. blind. Qed.

(** The nodes of the evaluation graph are the four nodes. *)
Lemma evaluation_graph_nodes (E : Env) (name : string)
    (fn : gmap string pyval -> M (gmap string pyval)) :
  nodes (evaluation_graph E) !! name = Some fn ->
  fn = evaluator_node E \/ fn = analyzer_node E \/
  fn = improvement_node E \/ fn = synthesizer_node.
Proof.
  intros H. apply elem_of_list_to_map_2 in H.
  repeat (apply elem_of_cons in H as [[= _ <-]|H]; [tauto|]).
  by apply elem_of_nil in H.
Qed.

Lemma run_S (g : StateGraph) (fuel : nat) (node : string)
    (state : gmap string pyval) :
  run g (S fuel) node state =
    match nodes g !! node with
    | None => raise "ValueError"
    | Some fn =>
        update <- fn state ;;
        let state' := apply_updates state update in
        match edges g !! node with
        | Some next =>
            if String.eqb next END then ret [state']
            else (rest <- run g fuel next state' ;; ret (state' :: rest))
        | None => ret [state']
        end
    end.
Proof. reflexivity. Qed.

Lemma cache_blind_run (E : Env) (fuel : nat) (node : string)
    (state : gmap string pyval) :
  cache_blind (run (evaluation_graph E) fuel node state).
Proof.
  revert node state. induction fuel as [|fuel IH]; intros node state.
  { apply cache_blind_raise. }
  rewrite run_S.
  destruct (nodes (evaluation_graph E) !! node) as [fn|] eqn:Hfn;
    [|apply cache_blind_raise].
  apply cache_blind_bind.
  - apply evaluation_graph_nodes in Hfn as [-> | [-> | [-> | ->]]];
      auto using cache_blind_evaluator_node, cache_blind_analyzer_node,
        cache_blind_improvement_node, cache_blind_synthesizer_node.
  - intros update. destruct (edges (evaluation_graph E) !! node) as [next|];
      [|apply cache_blind_ret].
    destruct (String.eqb next END); [apply cache_blind_ret|].
    apply cache_blind_bind; [apply IH | intros; apply cache_blind_ret].
Qed.

Lemma cache_blind_run_workflow (E : Env) (request : EvaluateAnswerRequest) :
  cache_blind (run_workflow E request).
Proof.
  unfold run_workflow, invoke, invoke_trace.
  pose proof (cache_blind_run E). blind.
Qed.

Lemma cache_blind_execute (E : Env) (request : EvaluateAnswerRequest) :
  cache_blind (execute E request).
Proof.
  unfold execute, fallback_response.
  pose proof (cache_blind_run_workflow E request). blind.
Qed.

(** ** Cache failures *)

Lemma get_cached_result_off (E : Env) (key : string) (w : world) :
  caching_off E = true -> _get_cached_result E key w = (Ok None, w).
Proof. unfold _get_cached_result. by intros ->. Qed.

Lemma get_cached_result_read_raises (E : Env) (key : string) (w : world) (e : exn) :
  caching_off E = false -> redis_raises E (redis_ops w) = Some e ->
  _get_cached_result E key w = (Ok None, after_command w).
Proof.
  intros Hon He. unfold _get_cached_result. rewrite Hon.
  unfold try_except, bind, redis_get, redis_command. by rewrite He.
Qed.

Lemma get_cached_result_read (E : Env) (key : string) (w : world) :
  caching_off E = false -> redis_raises E (redis_ops w) = None ->
  _get_cached_result E key w = (Ok (cache_lookup E (store w) key), after_command w).
Proof.
  intros Hon He. unfold _get_cached_result, cache_lookup, deserialize.
  rewrite Hon. unfold try_except, bind, redis_get, redis_command, lift, ret.
  rewrite He. simpl. destruct (store w !! key) as [text|]; [|done].
  destruct (negb (String.eqb text EmptyString)); [|done].
  destruct (json_loads E text) as [data|]; [|done]. simpl.
  by destruct (kwargs (EvaluationResponse_init E) data).
Qed.

(** The three ways a read can fail all end in a miss. *)
Lemma cache_failure_is_miss (E : Env) (key : string) (w : world) :
  caching_off E = true \/
  (exists e, redis_raises E (redis_ops w) = Some e) \/
  (exists text e, store w !! key = Some text /\ deserialize E text = Raise e) ->
  exists w1, _get_cached_result E key w = (Ok None, w1).
Proof.
  destruct (caching_off E) eqn:Hoff.
  { intros _. exists w. by apply get_cached_result_off. }
  intros [?|[[e He]|(text & e & Htext & Hde)]]; [done| |].
  - eexists. by eapply get_cached_result_read_raises.
  - destruct (redis_raises E (redis_ops w)) as [e'|] eqn:He.
    + eexists. by eapply get_cached_result_read_raises.
    + eexists. rewrite get_cached_result_read by done.
      unfold cache_lookup. rewrite Htext, Hde. by destruct (truthy _).
Qed.

(** A miss is answered by the direct execution of the workflow, whatever
    happens to the write that follows. *)
Lemma evaluate_miss_is_execute (E : Env) (request : EvaluateAnswerRequest)
    (w w1 : world) :
  _get_cached_result E
    (_generate_cache_key E (candidate_answer request) (question_context request)) w
    = (Ok None, w1) ->
  fst (evaluate E request w) = fst (execute E request w) /\
  llm_calls (snd (evaluate E request w)) = llm_calls (snd (execute E request w)).
Proof.
  intros Hmiss.
  destruct (evaluate_miss E request w w1 Hmiss) as (w2 & Hfst & Hsnd & Hcalls).
  destruct (get_cached_result_total E
    (_generate_cache_key E (candidate_answer request) (question_context request)) w)
    as (o & w' & Hget & Hllm & _).
  rewrite Hmiss in Hget. injection Hget as <- <-.
  destruct (cache_blind_execute E request w1 w Hllm) as [Hr Hc].
  rewrite Hfst, Hsnd, Hcalls. done.
Qed.

(** C7. Cache failures never surface to the caller of [evaluate]. For every
    environment, request and world: [evaluate] returns a response that
    satisfies the constraints of the model, it never raises; when the store
    is unavailable, the read raises, or the stored entry cannot be
    deserialized, the read is a miss; after a miss the response is the one
    of the direct execution of the workflow, with the same number of
    language-model calls, whether the write succeeds or fails; and the write
    itself never raises. *)
Theorem cache_failures_never_surface (E : Env) (request : EvaluateAnswerRequest)
    (w : world) :
  let key :=
    _generate_cache_key E (candidate_answer request) (question_context request) in
  (exists r w', evaluate E request w = (Ok r, w') /\ valid_response r) /\
  (caching_off E = true \/
   (exists e, redis_raises E (redis_ops w) = Some e) \/
   (exists text e, store w !! key = Some text /\ deserialize E text = Raise e) ->
   exists w1, _get_cached_result E key w = (Ok None, w1)) /\
  (forall w1, _get_cached_result E key w = (Ok None, w1) ->
     fst (evaluate E request w) = fst (execute E request w) /\
     llm_calls (snd (evaluate E request w))
       = llm_calls (snd (execute E request w))) /\
  (forall r w0, exists w', _cache_result E key r w0 = (Ok tt, w')).
Proof.
  intros key. split; [apply evaluate_total|].
  split; [apply cache_failure_is_miss|].
  split; [apply evaluate_miss_is_execute|].
  intros r w0. destruct (cache_result_total E key r w0) as (w' & H & _). eauto.
Qed.

Lemma cache_failures_never_surface_witness :
  (exists e, redis_raises broken_redis_env (redis_ops empty_world) = Some e) /\
  fst (evaluate broken_redis_env demo_request empty_world)
    = fst (execute broken_redis_env demo_request empty_world) /\
  fst (evaluate broken_redis_env demo_request empty_world) = Ok demo_response.
Proof.
  split; [by eexists|].
  destruct (cache_failures_never_surface broken_redis_env demo_request empty_world)
    as (_ & Hmiss & Hexec & _).
  destruct Hmiss as [w1 Hw1]; [right; left; by eexists|].
  split; [apply (Hexec w1 Hw1)|].
  vm_compute. reflexivity.
Defined.

(** ** The lower bounds of the response model *)

Lemma EvaluationResponse_init_short (E : Env) (v : pyval) (s i : string) :
  len s < 10 \/ len i < 10 ->
  exists e,
    EvaluationResponse_init E
      (kw [("score", v); ("summary", PyStr s); ("improvement", PyStr i)]) = Raise e.
Proof.
  intros Hshort. unfold EvaluationResponse_init.
  change (kw _ "score") with (Some v).
  change (kw _ "summary") with (Some (PyStr s)).
  change (kw _ "improvement") with (Some (PyStr i)).
  destruct (int_field E (Some 1) (Some 5) (Some v)) as [z|e]; simpl; [|eauto].
  unfold str_field. simpl.
  destruct (Z.leb_spec 10 (len s)); simpl; [|eauto].
  destruct (len s <=? 200); simpl; [|eauto].
  destruct (Z.leb_spec 10 (len i)); simpl; [lia|eauto].
Qed.

Lemma run_workflow_short (E : Env) (request : EvaluateAnswerRequest)
    (w1 w2 : world) (final : gmap string pyval) (summary improvement : string) :
  invoke (evaluation_graph E) (initial_state request) w1 = (Ok final, w2) ->
  final !! "final_summary" = Some (PyStr summary) ->
  final !! "final_improvement" = Some (PyStr improvement) ->
  len summary < 10 \/ len improvement < 10 ->
  exists e, run_workflow E request w1 = (Raise e, w2).
Proof.
  intros Hinvoke Hs Hi Hshort. unfold run_workflow.
  rewrite (bind_ok _ _ _ _ _ Hinvoke).
  unfold subscript, getitem. rewrite Hs, Hi.
  destruct (final !! "final_score") as [v|]; [|by eexists].
  unfold bind, ret, lift.
  destruct (EvaluationResponse_init_short E v summary improvement Hshort) as [e ->].
  by eexists.
Qed.

(** C10. Every response that [evaluate] returns has a summary and an
    improvement of at least 10 characters, and [evaluate] returns a
    response for every request. When, after a miss, the final state of the
    workflow holds a summary or an improvement of fewer than 10 characters,
    the construction of the response fails inside the [try] block and the
    caller receives the neutral fallback response. *)
Theorem evaluate_min_lengths (E : Env) (request : EvaluateAnswerRequest) (w : world) :
  let key :=
    _generate_cache_key E (candidate_answer request) (question_context request) in
  (exists r w',
     evaluate E request w = (Ok r, w') /\
     10 <= len (er_summary r) /\ 10 <= len (er_improvement r)) /\
  (forall w1 final w2 summary improvement,
     _get_cached_result E key w = (Ok None, w1) ->
     invoke (evaluation_graph E) (initial_state request) w1 = (Ok final, w2) ->
     final !! "final_summary" = Some (PyStr summary) ->
     final !! "final_improvement" = Some (PyStr improvement) ->
     len summary < 10 \/ len improvement < 10 ->
     evaluate E request w = (Ok neutral_response, w2)).
Proof.
  intros key. split.
  - destruct (evaluate_total E request w) as (r & w' & Hev & _ & Hs & Hi).
    exists r, w'. repeat split; [done|lia|lia].
  - intros w1 final w2 summary improvement Hmiss Hinvoke Hs Hi Hshort.
    destruct (run_workflow_short E request w1 w2 final summary improvement)
      as [e Hrun]; try done.
    unfold evaluate. fold key. rewrite (bind_ok _ _ _ _ _ Hmiss).
    unfold try_except. rewrite (bind_raise _ _ _ _ _ Hrun).
    apply fallback_response_eq.
Qed.

Lemma outcome_eq {A} (x : result A * world) (d : A) (w : world) :
  is_ok x.1 = true -> x.2 = w -> x = (Ok (ok_or d x.1), w).
Proof. destruct x as [[a|e] w']; simpl; intros; subst; done. Qed.

Lemma evaluate_min_lengths_witness :
  terse_final_state !! "final_summary" = Some (PyStr "Too short") /\
  len "Too short" < 10 /\
  evaluate terse_env demo_request empty_world = (Ok neutral_response, World 3 1 ∅).
Proof.
  split; [vm_compute; reflexivity|].
  split; [vm_compute; reflexivity|].
  apply (proj2 (evaluate_min_lengths terse_env demo_request empty_world)
           (after_command empty_world) terse_final_state (World 3 1 ∅) "Too short"
           "Mention the space complexity").
  - vm_compute; reflexivity.
  - apply outcome_eq; vm_compute; reflexivity.
  - vm_compute; reflexivity.
  - vm_compute; reflexivity.
  - left. vm_compute; reflexivity.
Defined.

(** ** Two successive calls *)

Lemma run_workflow_valid (E : Env) (request : EvaluateAnswerRequest)
    (w w' : world) (r : EvaluationResponse) :
  run_workflow E request w = (Ok r, w') -> valid_response r.
Proof.
  unfold run_workflow, bind. intros Hrun.
  destruct (invoke _ _ w) as [[st|?] w1]; [|done].
  destruct (subscript st "final_score" w1) as [[v1|?] w2]; [|done].
  destruct (subscript st "final_summary" w2) as [[v2|?] w3]; [|done].
  destruct (subscript st "final_improvement" w3) as [[v3|?] w4]; [|done].
  unfold lift in Hrun. injection Hrun as Hr _.
  by apply EvaluationResponse_init_valid in Hr.
Qed.

(** A valid response is rebuilt from its own dump. *)
Lemma EvaluationResponse_init_model_dump (E : Env) (r : EvaluationResponse) :
  valid_response r ->
  EvaluationResponse_init E (fun k => model_dump r !! k) = Ok r.
Proof.
  destruct r as [score summary improvement].
  intros (Hscore & Hsummary & Himprovement). simpl in *.
  unfold EvaluationResponse_init.
  change (model_dump _ !! "score") with (Some (PyInt score)).
  change (model_dump _ !! "summary") with (Some (PyStr summary)).
  change (model_dump _ !! "improvement") with (Some (PyStr improvement)).
  unfold int_field, str_field. simpl.
  destruct (Z.leb_spec 1 score); [|lia].
  destruct (Z.leb_spec score 5); [|lia].
  destruct (Z.leb_spec 10 (len summary)); [|lia].
  destruct (Z.leb_spec (len summary) 200); [|lia].
  destruct (Z.leb_spec 10 (len improvement)); [|lia].
  destruct (Z.leb_spec (len improvement) 300); [|lia].
  reflexivity.
Qed.

(** A successful write leaves the serialized response under the key. *)
Lemma cache_result_write (E : Env) (key : string) (r : EvaluationResponse)
    (w : world) :
  caching_off E = false -> redis_raises E (redis_ops w) = None ->
  0 < redis_ttl E ->
  _cache_result E key r w =
    (Ok tt, {| llm_calls := llm_calls w; redis_ops := S (redis_ops w);
               store := <[key := json_dumps E (model_dump r)]> (store w) |}).
Proof.
  intros Hon He Httl. unfold _cache_result. rewrite Hon.
  unfold try_except, redis_setex, redis_command. rewrite He.
  by destruct (Z.ltb_spec 0 (redis_ttl E)); [|lia].
Qed.

(** C3, as amended. With a healthy store (caching is on, no Redis command
    fails, the expiry is positive) and a serialization that reads back what
    it wrote, if the first of two successive calls with the same request is
    answered from the cache, or its workflow returns a response that passes
    the validation of the response model, then the second call returns the
    same response and makes no call to the language model. The neutral
    response of the [except] clause is not written to the cache and is not
    covered. *)
Theorem evaluate_twice_cached (E : Env) (request : EvaluateAnswerRequest)
    (w : world) (r : EvaluationResponse) :
  let key :=
    _generate_cache_key E (candidate_answer request) (question_context request) in
  let text := json_dumps E (model_dump r) in
  caching_off E = false ->
  (forall n, redis_raises E n = None) ->
  0 < redis_ttl E ->
  text <> EmptyString ->
  json_loads E text = Ok (PyDict (model_dump r)) ->
  (exists w1, _get_cached_result E key w = (Ok (Some r), w1)) \/
  (exists w1 w2,
     _get_cached_result E key w = (Ok None, w1) /\
     run_workflow E request w1 = (Ok r, w2)) ->
  exists w1 w2,
    evaluate E request w = (Ok r, w1) /\
    evaluate E request w1 = (Ok r, w2) /\
    llm_calls w2 = llm_calls w1.
Proof.
  intros key text Hon Hup Httl Htext Hloads [[w1 Hhit]|(w1 & w2 & Hmiss & Hrun)].
  - pose proof Hhit as Hhit'.
    rewrite get_cached_result_read in Hhit' by done.
    injection Hhit' as Hlookup <-.
    exists (after_command w), (after_command (after_command w)).
    split; [unfold evaluate; fold key; by rewrite (bind_ok _ _ _ _ _ Hhit)|].
    split; [|done].
    assert (_get_cached_result E key (after_command w)
            = (Ok (Some r), after_command (after_command w))) as Hagain.
    { rewrite get_cached_result_read by done. simpl. by rewrite Hlookup. }
    unfold evaluate. fold key. by rewrite (bind_ok _ _ _ _ _ Hagain).
  - pose proof (run_workflow_valid E request w1 w2 r Hrun) as Hvalid.
    pose proof (cache_result_write E key r w2 Hon (Hup _) Httl) as Hwrite.
    set (w3 := {| llm_calls := llm_calls w2; redis_ops := S (redis_ops w2);
                  store := <[key := json_dumps E (model_dump r)]> (store w2) |})
      in Hwrite.
    assert (_get_cached_result E key w3 = (Ok (Some r), after_command w3)) as Hagain.
    { rewrite get_cached_result_read by done. simpl.
      unfold cache_lookup. rewrite lookup_insert_eq. fold text.
      unfold truthy. destruct (String.eqb_spec text EmptyString); [done|]. simpl.
      unfold deserialize. rewrite Hloads. simpl.
      by rewrite EvaluationResponse_init_model_dump. }
    exists w3, (after_command w3). split; [|split; [|done]].
    + unfold evaluate. fold key. rewrite (bind_ok _ _ _ _ _ Hmiss).
      unfold try_except. rewrite (bind_ok _ _ _ _ _ Hrun).
      by rewrite (bind_ok _ _ _ _ _ Hwrite).
    + unfold evaluate. fold key. by rewrite (bind_ok _ _ _ _ _ Hagain).
Qed.

Lemma evaluate_twice_cached_witness :
  caching_off healthy_env = false /\
  run_workflow healthy_env demo_request (after_command empty_world)
    = (Ok demo_response, World 3 1 ∅) /\
  exists w1 w2,
    evaluate healthy_env demo_request empty_world = (Ok demo_response, w1) /\
    evaluate healthy_env demo_request w1 = (Ok demo_response, w2) /\
    llm_calls w2 = llm_calls w1.
Proof.
  split; [reflexivity|]. split; [vm_compute; reflexivity|].
  apply (evaluate_twice_cached healthy_env demo_request empty_world demo_response).
  - reflexivity.
  - reflexivity.
  - reflexivity.
  - discriminate.
  - vm_compute; reflexivity.
  - right. exists (after_command empty_world), (World 3 1 ∅).
    split; vm_compute; reflexivity.
Defined.

(** C3 as stated fails. The store is healthy, yet the first call ends in the
    [except] clause (the summary has nine characters), nothing is written to
    the cache, and the second call runs the workflow again: three more calls
    to the language model and a different response. *)
Lemma evaluate_twice_differs :
  caching_off terse_env = false /\
  (forall n, redis_raises terse_env n = None) /\
  evaluate terse_env demo_request empty_world = (Ok neutral_response, World 3 1 ∅) /\
  fst (evaluate terse_env demo_request (World 3 1 ∅)) = Ok demo_response /\
  llm_calls (snd (evaluate terse_env demo_request (World 3 1 ∅))) = 6%nat /\
  neutral_response <> demo_response.
Proof.
  split; [reflexivity|]. split; [reflexivity|].
  split; [vm_compute; reflexivity|].
  split; [vm_compute; reflexivity|].
  split; [vm_compute; reflexivity|].
  discriminate.
Qed.

(** ** The trace of a run *)

Lemma no_none_dict (l : list (string * pyval)) :
  Forall (fun kv => kv.2 <> PyNone) l -> no_none (dict l).
Proof.
  intros Hl k v Hk. apply elem_of_list_to_map_2 in Hk.
  by apply (proj1 (Forall_forall _ _) Hl (k, v)).
Qed.

Lemma apply_updates_lookup (state update : gmap string pyval) (k : string) :
  k <> "messages" ->
  apply_updates state update !! k = (update ∪ state) !! k.
Proof.
  intros Hk. unfold apply_updates.
  destruct (update !! "messages") as [[]|]; try done.
  destruct (state !! "messages") as [[]|]; try done.
  by rewrite lookup_insert_ne.
Qed.

Lemma is_set_update (state update : gmap string pyval) (k : string) :
  k <> "messages" -> is_set update k -> is_set (apply_updates state update) k.
Proof.
  intros Hk (v & Hv & Hne). exists v. split; [|done].
  rewrite apply_updates_lookup by done. by apply lookup_union_Some_l.
Qed.

Lemma is_set_kept (state update : gmap string pyval) (k : string) :
  k <> "messages" -> no_none update -> is_set state k ->
  is_set (apply_updates state update) k.
Proof.
  intros Hk Hnn (v & Hv & Hne).
  destruct (update !! k) as [u|] eqn:Hu.
  - apply is_set_update; [done|]. exists u. split; [done|]. by apply (Hnn k).
  - exists v. split; [|done]. rewrite apply_updates_lookup by done.
    rewrite lookup_union_r; done.
Qed.

Lemma current_agent_update (state update : gmap string pyval) (v : pyval) :
  update !! "current_agent" = Some v ->
  current_agent (apply_updates state update) = v.
Proof.
  intros Hv. unfold current_agent, get.
  rewrite apply_updates_lookup by done.
  by rewrite (lookup_union_Some_l _ _ _ _ Hv).
Qed.

(** Closes the goals about a dictionary display whose values are visibly
    not [None]. *)
Ltac dict_facts :=
  repeat split;
  first
    [ reflexivity
    | apply no_none_dict; repeat constructor; discriminate
    | repeat constructor; eexists; (split; [reflexivity | discriminate]) ].

Lemma evaluator_node_updates (E : Env) (state : gmap string pyval) (w : world) :
  exists update w',
    evaluator_node E state w = (Ok update, w') /\ node_updates "evaluator" update.
Proof.
  unfold evaluator_node, try_except, bind.
  destruct (subscript state "candidate_answer" w) as [[a|e] w1];
    [|eexists _, _; split; [reflexivity | dict_facts]].
  destruct (evaluate_answer_sync E a (get state "question_context") w1)
    as [[r|e] w2];
    eexists _, _; (split; [reflexivity | dict_facts]).
Qed.

Lemma analyzer_node_updates (E : Env) (state : gmap string pyval) (w : world) :
  exists update w',
    analyzer_node E state w = (Ok update, w') /\ node_updates "analyzer" update.
Proof.
  unfold analyzer_node, try_except, bind.
  destruct (subscript state "candidate_answer" w) as [[a|e] w1];
    [|eexists _, _; split; [reflexivity | dict_facts]].
  destruct (analyze_answer_sync E a (get state "question_context")
              (get state "evaluator_score") w1) as [[r|e] w2];
    eexists _, _; (split; [reflexivity | dict_facts]).
Qed.

Lemma improvement_node_updates (E : Env) (state : gmap string pyval) (w : world) :
  exists update w',
    improvement_node E state w = (Ok update, w') /\
    node_updates "improvement" update.
Proof.
  unfold improvement_node, try_except, bind.
  destruct (subscript state "candidate_answer" w) as [[a|e] w1];
    [|eexists _, _; split; [reflexivity | dict_facts]].
  destruct (suggest_improvement_sync E a (get state "question_context")
              (get state "evaluator_score") (get state "analyzer_weaknesses") w1)
    as [[r|e] w2];
    eexists _, _; (split; [reflexivity | dict_facts]).
Qed.

Lemma synthesizer_node_updates (state : gmap string pyval) (w : world) :
  is_set state "evaluator_score" ->
  exists update,
    synthesizer_node state w = (Ok update, w) /\ node_updates "synthesizer" update.
Proof.
  intros (score & Hscore & Hne).
  assert (get_default state "evaluator_score" (PyInt 3) = score) as Hget.
  { unfold get_default. by rewrite Hscore. }
  unfold synthesizer_node, try_except, lift, synthesizer_try. cbv zeta.
  rewrite Hget.
  generalize (get_default state "final_summary" (PyStr "No summary available")).
  generalize (get_default state "final_improvement"
                (PyStr "No improvement suggestion available")).
  intros fi fs.
  destruct fs as [| | |s|l|]; cbn [py_len rbind];
    try (destruct (200 <? _); cbn [cut rbind]);
    try (eexists; split; [reflexivity | dict_facts]).
  all: destruct fi as [| | |i|l'|]; cbn [py_len rbind];
    try (destruct (300 <? _); cbn [cut rbind]);
    try (eexists; split; [reflexivity | dict_facts]).
  all: eexists; (split; [reflexivity|]);
    (split; [reflexivity|]);
    (split; [repeat constructor; eexists; (split; [reflexivity|]); done|]);
    apply no_none_dict; repeat constructor; done.
Qed.

Lemma run_step (g : StateGraph) (fuel : nat) (node next : string)
    (fn : gmap string pyval -> M (gmap string pyval))
    (state update : gmap string pyval) (rest : list (gmap string pyval))
    (w w' w'' : world) :
  nodes g !! node = Some fn ->
  edges g !! node = Some next ->
  String.eqb next END = false ->
  fn state w = (Ok update, w') ->
  run g fuel next (apply_updates state update) w' = (Ok rest, w'') ->
  run g (S fuel) node state w = (Ok (apply_updates state update :: rest), w'').
Proof.
  intros Hfn Hnext Hend Hrun Hrest. rewrite run_S, Hfn.
  rewrite (bind_ok _ _ _ _ _ Hrun). simpl. rewrite Hnext, Hend.
  by rewrite (bind_ok _ _ _ _ _ Hrest).
Qed.

Lemma run_last (g : StateGraph) (fuel : nat) (node : string)
    (fn : gmap string pyval -> M (gmap string pyval))
    (state update : gmap string pyval) (w w' : world) :
  nodes g !! node = Some fn ->
  edges g !! node = Some END ->
  fn state w = (Ok update, w') ->
  run g (S fuel) node state w = (Ok [apply_updates state update], w').
Proof.
  intros Hfn Hnext Hrun. rewrite run_S, Hfn.
  rewrite (bind_ok _ _ _ _ _ Hrun). simpl. by rewrite Hnext.
Qed.

(** The run of the evaluation graph: four steps, one per node, in the order
    of the edges. *)
Lemma invoke_trace_evaluation_graph (E : Env) (input : gmap string pyval) (w : world) :
  exists u1 u2 u3 u4 w',
    let s1 := apply_updates input u1 in
    let s2 := apply_updates s1 u2 in
    let s3 := apply_updates s2 u3 in
    let s4 := apply_updates s3 u4 in
    invoke_trace (evaluation_graph E) input w = (Ok [input; s1; s2; s3; s4], w') /\
    node_updates "evaluator" u1 /\ node_updates "analyzer" u2 /\
    node_updates "improvement" u3 /\ node_updates "synthesizer" u4.
Proof.
  destruct (evaluator_node_updates E input w) as (u1 & w1 & H1 & P1).
  destruct (analyzer_node_updates E (apply_updates input u1) w1)
    as (u2 & w2 & H2 & P2).
  destruct (improvement_node_updates E (apply_updates (apply_updates input u1) u2) w2)
    as (u3 & w3 & H3 & P3).
  destruct (synthesizer_node_updates
              (apply_updates (apply_updates (apply_updates input u1) u2) u3) w3)
    as (u4 & H4 & P4).
  { destruct P1 as (_ & Hout & _), P2 as (_ & _ & Hnn2), P3 as (_ & _ & Hnn3).
    apply is_set_kept; [done|done|]. apply is_set_kept; [done|done|].
    apply is_set_update; [done|]. by inversion Hout. }
  exists u1, u2, u3, u4, w3. simpl. split; [|done].
  unfold invoke_trace. erewrite bind_ok; [reflexivity|].
  change recursion_limit with 25%nat.
  eapply run_step; [reflexivity..|exact H1|].
  eapply run_step; [reflexivity..|exact H2|].
  eapply run_step; [reflexivity..|exact H3|].
  eapply run_last; [reflexivity..|exact H4].
Qed.

(** C9. Over every execution of the workflow the marker [current_agent] is
    monotonic: the states of the run are the initial state followed by one
    state per stage, and their markers are [None], evaluator, analyzer,
    improvement, synthesizer, in this order, so the marker moves forward by
    one stage at each step, never backward and never past the stage that
    just completed; and in every state of the run, the output fields of
    every stage that has completed hold a value that is not [None], whether
    the stage succeeded or fell back. *)
Theorem current_agent_monotonic (E : Env) (request : EvaluateAnswerRequest)
    (w : world) :
  exists trace w',
    invoke_trace (evaluation_graph E) (initial_state request) w = (Ok trace, w') /\
    invoke (evaluation_graph E) (initial_state request) w
      = (Ok (List.last trace (initial_state request)), w') /\
    map current_agent trace
      = [PyNone; PyStr "evaluator"; PyStr "analyzer"; PyStr "improvement";
         PyStr "synthesizer"] /\
    forall (i j : nat) (state : gmap string pyval) (stage key : string),
      trace !! i = Some state ->
      stage_order !! j = Some stage ->
      (j < i)%nat ->
      key ∈ stage_outputs stage ->
      is_set state key.
Proof.
  destruct (invoke_trace_evaluation_graph E (initial_state request) w)
    as (u1 & u2 & u3 & u4 & w' & Htrace & P1 & P2 & P3 & P4).
  simpl in Htrace.
  eexists _, w'. split; [exact Htrace|].
  split; [unfold invoke; by rewrite (bind_ok _ _ _ _ _ Htrace)|].
  destruct P1 as (A1 & O1 & N1), P2 as (A2 & O2 & N2),
    P3 as (A3 & O3 & N3), P4 as (A4 & O4 & N4).
  split.
  { simpl. rewrite (current_agent_update _ _ _ A1), (current_agent_update _ _ _ A2),
      (current_agent_update _ _ _ A3), (current_agent_update _ _ _ A4).
    reflexivity. }
  pose proof (proj1 (Forall_forall _ _) O1) as S1.
  pose proof (proj1 (Forall_forall _ _) O2) as S2.
  pose proof (proj1 (Forall_forall _ _) O3) as S3.
  pose proof (proj1 (Forall_forall _ _) O4) as S4.
  assert (forall stage key, key ∈ stage_outputs stage -> key <> "messages") as Hkey.
  { intros stage key Hin ->. unfold stage_outputs in Hin.
    repeat (destruct (String.eqb stage _);
            [by repeat (apply elem_of_cons in Hin as [?|Hin]; [discriminate|]);
                apply elem_of_nil in Hin|]).
    by apply elem_of_nil in Hin. }
  intros i j state stage key Hi Hj Hlt Hin.
  pose proof (Hkey stage key Hin) as Hk.
  destruct j as [|[|[|[|j]]]]; simpl in Hj; try done;
    injection Hj as <-;
    destruct i as [|[|[|[|[|i]]]]]; simpl in Hi; try done; try lia;
    injection Hi as <-;
    repeat first
      [ apply is_set_update; [exact Hk|]; first [by apply S1 | by apply S2
                                                | by apply S3 | by apply S4]
      | apply is_set_kept; [exact Hk | assumption |] ].
Qed.

(** ** Ranking *)

(** The placeholder rank 0 violates the constraint [ge=1] of the field
    [rank]: a [RankedCandidate] with rank 0 cannot be constructed. *)
Lemma RankedCandidate_init_rank_0 (E : Env) (cid summary improvement : string)
    (score : Z) :
  RankedCandidate_init E (kw
    [("candidate_id", PyStr cid); ("score", PyInt score);
     ("summary", PyStr summary); ("improvement", PyStr improvement);
     ("rank", PyInt 0)]) = Raise ValidationError.
Proof.
  unfold RankedCandidate_init.
  change (kw _ "candidate_id") with (Some (PyStr cid)).
  change (kw _ "score") with (Some (PyInt score)).
  change (kw _ "summary") with (Some (PyStr summary)).
  change (kw _ "improvement") with (Some (PyStr improvement)).
  change (kw _ "rank") with (Some (PyInt 0)).
  unfold int_field, str_field. simpl.
  by destruct (1 <=? score), (score <=? 5).
Qed.

(** [_evaluate_candidate] raises whatever the evaluation service does: after
    a successful evaluation the draft with rank 0 is rejected, the [except]
    clause catches that and builds the fallback draft, also with rank 0,
    which is rejected outside of any [try]. *)
Lemma evaluate_candidate_raises (E : Env)
    (service : EvaluateAnswerRequest -> M EvaluationResponse)
    (cid : string) (eval_request : EvaluateAnswerRequest) (w : world) :
  _evaluate_candidate E service cid eval_request w
    = (Raise ValidationError, snd (service eval_request w)).
Proof.
  unfold _evaluate_candidate, try_except, bind, lift.
  destruct (service eval_request w) as [[r|e] w1]; simpl;
    by rewrite ?RankedCandidate_init_rank_0.
Qed.

(** The exception of the first task is the one that is raised, after the
    other tasks have run. *)
Lemma gather_raises {A} (task : M A) (tasks : list (M A)) (e : exn) (w w' : world) :
  task w = (Raise e, w') ->
  gather (task :: tasks) w = (Raise e, snd (gather tasks w')).
Proof. intros H. simpl. rewrite H. by destruct (gather tasks w'). Qed.

Lemma rank_candidates_with_raises (E : Env)
    (service : EvaluateAnswerRequest -> M EvaluationResponse)
    (request : RankCandidatesRequest) (w : world) :
  exists w', rank_candidates_with E service request w = (Raise ValidationError, w').
Proof.
  unfold rank_candidates_with.
  destruct (candidates request) as [|c cs]; simpl.
  - by eexists.
  - eexists. erewrite bind_raise; [reflexivity|].
    apply gather_raises, evaluate_candidate_raises.
Qed.

(** C2. The code at the failing input: [rank_candidates] returns no ranking.
    For every request, also the batch with scores 2, 5, 5, 1 of the
    specification, it raises the validation error of the draft with rank
    0. *)
Theorem rank_candidates_raises (E : Env) (request : RankCandidatesRequest)
    (w : world) :
  exists w', rank_candidates E request w = (Raise ValidationError, w').
Proof. apply rank_candidates_with_raises. Qed.

(** The batch of three valid candidates, with a healthy store and a
    language model that does its job: every evaluation succeeds, and the
    ranking is not returned. *)
Example rank_candidates_demo_batch :
  fst (rank_candidates healthy_env demo_batch empty_world) = Raise ValidationError.
Proof. vm_compute. reflexivity. Qed.

(** C6. The code at the failing input: when the evaluation of a candidate
    raises, [_evaluate_candidate] does not return the neutral draft: the
    draft of the [except] clause has rank 0, its construction raises, and
    the exception aborts the whole batch. *)
Theorem failed_candidate_aborts_batch (E : Env)
    (service : EvaluateAnswerRequest -> M EvaluationResponse)
    (request : RankCandidatesRequest) (cid : string)
    (eval_request : EvaluateAnswerRequest) (e : exn) (w w1 : world) :
  service eval_request w = (Raise e, w1) ->
  _evaluate_candidate E service cid eval_request w = (Raise ValidationError, w1) /\
  exists w', rank_candidates_with E service request w = (Raise ValidationError, w').
Proof.
  intros Hfail. split; [|apply rank_candidates_with_raises].
  rewrite evaluate_candidate_raises. by rewrite Hfail.
Qed.

Lemma failed_candidate_aborts_batch_witness :
  failing_service
    {| candidate_answer := "A nested loop would work"; question_context := None |}
    empty_world = (Raise "RuntimeError", empty_world) /\
  _evaluate_candidate offline_env failing_service "c2"
    {| candidate_answer := "A nested loop would work"; question_context := None |}
    empty_world = (Raise ValidationError, empty_world) /\
  exists w',
    rank_candidates_with offline_env failing_service demo_batch empty_world
      = (Raise ValidationError, w').
Proof.
  split; [reflexivity|].
  apply (failed_candidate_aborts_batch offline_env failing_service demo_batch "c2"
           {| candidate_answer := "A nested loop would work";
              question_context := None |} "RuntimeError" empty_world empty_world).
  reflexivity.
Defined.

(** ** The sort and the ranks, on drafts that are given

    The second half of [rank_candidates] is not reached on any request; on a
    list of drafts it does what the specification asks for. *)

Lemma insert_by_score_perm (x : RankedCandidate) (l : list RankedCandidate) :
  Permutation (insert_by_score x l) (x :: l).
Proof.
  induction l as [|y l IH]; simpl; [done|].
  destruct (rc_score x <? rc_score y); [|done].
  rewrite IH. apply perm_swap.
Qed.

Lemma sort_by_score_desc_perm (l : list RankedCandidate) :
  Permutation (sort_by_score_desc l) l.
Proof.
  induction l as [|x l IH]; simpl; [done|].
  change (foldr insert_by_score [] l) with (sort_by_score_desc l).
  rewrite insert_by_score_perm. by constructor.
Qed.

Lemma insert_by_score_hd (a x : RankedCandidate) (l : list RankedCandidate) :
  by_score_desc a x -> HdRel by_score_desc a l ->
  HdRel by_score_desc a (insert_by_score x l).
Proof.
  intros Hax Hal. destruct l as [|y l]; simpl; [by constructor|].
  destruct (rc_score x <? rc_score y); constructor; [by inversion Hal | done].
Qed.

Lemma insert_by_score_sorted (x : RankedCandidate) (l : list RankedCandidate) :
  Sorted by_score_desc l -> Sorted by_score_desc (insert_by_score x l).
Proof.
  induction l as [|y l IH]; simpl; intros Hs.
  - repeat constructor.
  - inversion Hs as [|? ? Hl Hhd]; subst.
    destruct (Z.ltb_spec (rc_score x) (rc_score y)).
    + constructor; [by apply IH|].
      apply insert_by_score_hd; [unfold by_score_desc; lia | done].
    + constructor; [done|]. constructor. unfold by_score_desc. lia.
Qed.

Lemma sort_by_score_desc_sorted (l : list RankedCandidate) :
  Sorted by_score_desc (sort_by_score_desc l).
Proof.
  induction l as [|x l IH]; simpl; [constructor|].
  by apply insert_by_score_sorted.
Qed.

Lemma insert_by_score_filter (z : Z) (x : RankedCandidate) (l : list RankedCandidate) :
  with_score_of z (insert_by_score x l) = with_score_of z (x :: l).
Proof.
  unfold with_score_of. induction l as [|y l IH]; simpl; [done|].
  destruct (Z.ltb_spec (rc_score x) (rc_score y)); [|done].
  rewrite !filter_cons in *. rewrite IH.
  destruct (decide (rc_score y = z)), (decide (rc_score x = z)); try done; lia.
Qed.

(** The sort is stable: candidates with equal scores keep the order in which
    they were submitted. *)
Lemma sort_by_score_desc_stable (z : Z) (l : list RankedCandidate) :
  with_score_of z (sort_by_score_desc l) = with_score_of z l.
Proof.
  induction l as [|x l IH]; simpl; [done|].
  change (foldr insert_by_score [] l) with (sort_by_score_desc l).
  rewrite insert_by_score_filter. unfold with_score_of in *.
  rewrite !filter_cons, IH. done.
Qed.

Lemma RankedCandidate_init_ranked (E : Env) (c : RankedCandidate) (k : Z) :
  1 <= rc_score c <= 5 -> 1 <= k ->
  RankedCandidate_init E (kw
    [("candidate_id", PyStr (rc_candidate_id c)); ("score", PyInt (rc_score c));
     ("summary", PyStr (rc_summary c)); ("improvement", PyStr (rc_improvement c));
     ("rank", PyInt k)]) = Ok (with_rank k c).
Proof.
  intros Hscore Hk. unfold RankedCandidate_init.
  change (kw _ "candidate_id") with (Some (PyStr (rc_candidate_id c))).
  change (kw _ "score") with (Some (PyInt (rc_score c))).
  change (kw _ "summary") with (Some (PyStr (rc_summary c))).
  change (kw _ "improvement") with (Some (PyStr (rc_improvement c))).
  change (kw _ "rank") with (Some (PyInt k)).
  unfold int_field, str_field. simpl.
  destruct (Z.leb_spec 1 (rc_score c)); [|lia].
  destruct (Z.leb_spec (rc_score c) 5); [|lia].
  destruct (Z.leb_spec 1 k); [|lia].
  reflexivity.
Qed.

Lemma assign_ranks_ok (E : Env) (l : list RankedCandidate) (k : Z) :
  1 <= k -> Forall (fun c => 1 <= rc_score c <= 5) l ->
  assign_ranks E k l = Ok (ranked_from k l).
Proof.
  revert k. induction l as [|c l IH]; intros k Hk Hl; [done|].
  inversion Hl as [|? ? Hc Hl']; subst.
  cbn [assign_ranks ranked_from].
  rewrite RankedCandidate_init_ranked by done. simpl.
  rewrite IH by (done || lia). reflexivity.
Qed.

Lemma ranked_from_length (k : Z) (l : list RankedCandidate) :
  length (ranked_from k l) = length l.
Proof. revert k. induction l as [|c l IH]; intros k; simpl; [done|]. by rewrite IH. Qed.

(** The candidate at position [i] gets the rank [k + i]. *)
Lemma ranked_from_lookup (k : Z) (l : list RankedCandidate) (i : nat) :
  ranked_from k l !! i = with_rank (k + Z.of_nat i) <$> l !! i.
Proof.
  revert k i. induction l as [|c l IH]; intros k [|i]; simpl; try done.
  - by rewrite Z.add_0_r.
  - rewrite IH. by replace (k + 1 + Z.of_nat i) with (k + Z.pos (Pos.of_succ_nat i)) by lia.
Qed.

(** On a non-empty list of drafts with scores between 1 and 5, the second
    half of [rank_candidates] returns the drafts sorted by descending score,
    ties in the order of submission, with the ranks 1, 2, ..., N, and
    [total_candidates = N]. *)
Lemma sort_and_rank_ok (E : Env) (l : list RankedCandidate) :
  l <> [] -> Forall (fun c => 1 <= rc_score c <= 5) l ->
  exists sorted,
    sort_and_rank E l =
      Ok {| rr_candidates := ranked_from 1 sorted;
            rr_total_candidates := Z.of_nat (length l) |} /\
    sorted = sort_by_score_desc l /\
    Permutation sorted l /\
    Sorted by_score_desc sorted /\
    (forall z, with_score_of z sorted = with_score_of z l) /\
    (forall i, ranked_from 1 sorted !! i
               = with_rank (1 + Z.of_nat i) <$> sorted !! i).
Proof.
  intros Hne Hl. exists (sort_by_score_desc l).
  split; [|split; [done|split; [apply sort_by_score_desc_perm|
    split; [apply sort_by_score_desc_sorted|
    split; [intros; apply sort_by_score_desc_stable|
            intros; apply ranked_from_lookup]]]]].
  unfold sort_and_rank. rewrite assign_ranks_ok; [|done|].
  - simpl. unfold RankingResponse_init, int_field. simpl.
    rewrite ranked_from_length.
    rewrite (Permutation_length (sort_by_score_desc_perm l)).
    destruct l as [|c l']; [done|].
    destruct (Z.leb_spec 1 (Z.of_nat (length (c :: l')))) as [_|Hlen];
      [reflexivity | simpl in Hlen; lia].
  - eapply Permutation_Forall; [|exact Hl].
    symmetry. apply sort_by_score_desc_perm.
Qed.

(** The example of the specification: the scores 2, 5, 5, 1 in this order. *)
Example sort_and_rank_2551 :
  sort_and_rank offline_env [draft "a" 2; draft "b" 5; draft "c" 5; draft "d" 1]
  = Ok {| rr_candidates :=
            [with_rank 1 (draft "b" 5); with_rank 2 (draft "c" 5);
             with_rank 3 (draft "a" 2); with_rank 4 (draft "d" 1)];
          rr_total_candidates := 4 |}.
Proof. vm_compute. reflexivity. Qed.

Lemma current_agent_monotonic_witness :
  exists trace,
    fst (invoke_trace (evaluation_graph healthy_env) (initial_state demo_request)
           empty_world) = Ok trace /\
    stage_order !! 0%nat = Some "evaluator" /\
    forall state, trace !! 4%nat = Some state -> is_set state "evaluator_score".
Proof.
  destruct (current_agent_monotonic healthy_env demo_request empty_world)
    as (trace & w' & Htrace & _ & _ & Hset).
  exists trace. split; [by rewrite Htrace|]. split; [reflexivity|].
  intros state Hstate.
  apply (Hset 4%nat 0%nat state "evaluator" "evaluator_score" Hstate).
  - reflexivity.
  - lia.
  - apply list_elem_of_here.
Defined.

Lemma generate_cache_key_spec_witness :
  md5_hexdigest offline_env (cache_content "I would use a hash map" None)
    = md5_hexdigest offline_env
        (cache_content "I would use a hash map" (Some EmptyString)) /\
  _generate_cache_key offline_env "I would use a hash map" None
    = _generate_cache_key offline_env "I would use a hash map" (Some EmptyString).
Proof.
  split; [reflexivity|].
  apply (proj1 (proj2 (generate_cache_key_spec offline_env
                         "I would use a hash map" None))
           "I would use a hash map" (Some EmptyString)).
  reflexivity.
Defined.

(** * Properties of the requests, the workflow and the routes *)

(** ** Request validation *)

Lemma lstrip_starts_clean (s : string) : starts_clean (lstrip s).
Proof.
  induction s as [|c s IH]; simpl; [done|].
  destruct (is_space c) eqn:Hc; [done|]. simpl. done.
Qed.

Lemma lstrip_clean (s : string) : starts_clean s -> lstrip s = s.
Proof. destruct s as [|c s]; simpl; [done|]. by intros ->. Qed.

Lemma rstrip_idem (s : string) : rstrip (rstrip s) = rstrip s.
Proof.
  induction s as [|c s IH]; [done|]. simpl.
  destruct (rstrip s) as [|d r] eqn:Hr.
  - destruct (is_space c) eqn:Hc; [done|]. simpl. by rewrite Hc.
  - change (rstrip (String c (String d r)))
      with (match rstrip (String d r) with
            | EmptyString => if is_space c then EmptyString else String c EmptyString
            | r' => String c r'
            end).
    by rewrite IH.
Qed.

Lemma rstrip_starts_clean (s : string) : starts_clean s -> starts_clean (rstrip s).
Proof.
  destruct s as [|c s]; simpl; [done|]. intros Hc.
  destruct (rstrip s); [by rewrite Hc|done].
Qed.

(** Stripping a stripped text changes nothing. *)
Lemma strip_idem (s : string) : strip (strip s) = strip s.
Proof.
  unfold strip. rewrite (lstrip_clean (rstrip (lstrip s))).
  - apply rstrip_idem.
  - apply rstrip_starts_clean, lstrip_starts_clean.
Qed.

Lemma len_lstrip (s : string) : len (lstrip s) <= len s.
Proof.
  unfold len. induction s as [|c s IH]; simpl; [lia|].
  destruct (is_space c); simpl; lia.
Qed.

Lemma len_rstrip (s : string) : len (rstrip s) <= len s.
Proof.
  unfold len. induction s as [|c s IH]; simpl; [lia|].
  destruct (rstrip s); [destruct (is_space c)|]; simpl in *; lia.
Qed.

Lemma len_strip (s : string) : len (strip s) <= len s.
Proof. unfold strip. pose proof (len_rstrip (lstrip s)). pose proof (len_lstrip s). lia. Qed.

(** What [validate_answer] accepts: the stripped text, of 10 characters or
    more. *)
Lemma validate_answer_ok (v a : string) :
  validate_answer v = Ok a -> a = strip v /\ 10 <= len a.
Proof.
  unfold validate_answer. destruct (Z.ltb_spec (len (strip v)) 10); [done|].
  by intros [= <-].
Qed.

Lemma validate_answer_stored (a : string) :
  strip a = a -> 10 <= len a -> validate_answer a = Ok a.
Proof.
  intros Hs Hl. unfold validate_answer. rewrite Hs.
  by destruct (Z.ltb_spec (len a) 10); [lia|].
Qed.

Lemma str_field_accepts (lo hi : Z) (s : string) :
  lo <= len s <= hi -> str_field (Some lo) (Some hi) (Some (PyStr s)) = Ok s.
Proof.
  intros H. unfold str_field. simpl.
  destruct (Z.leb_spec lo (len s)); [|lia].
  by destruct (Z.leb_spec (len s) hi); [|lia].
Qed.

Lemma optional_str_field_ok (hi : Z) (v : pyval) (o : option string) :
  optional_str_field (Some hi) v = Ok o ->
  v = of_optional o /\ (forall s, o = Some s -> len s <= hi).
Proof.
  unfold optional_str_field. destruct v; simpl; try done.
  - intros [= <-]. by split.
  - unfold str_field. simpl. destruct (Z.leb_spec (len s) hi); simpl; [|done].
    intros [= <-]. split; [done|]. by intros ? [= <-].
Qed.

(** A stored answer is accepted again, unchanged. *)
Lemma answer_accepted_again (v a : string) :
  str_field (Some 10) (Some 5000) (Some (PyStr v)) = Ok v ->
  validate_answer v = Ok a ->
  10 <= len a <= 5000 /\ strip a = a /\
  str_field (Some 10) (Some 5000) (Some (PyStr a)) = Ok a /\
  validate_answer a = Ok a.
Proof.
  intros Hfield Hv. apply str_field_ok in Hfield as (_ & _ & Hhi). simpl in Hhi.
  apply validate_answer_ok in Hv as [-> Hlo].
  pose proof (len_strip v). assert (len (strip v) <= 5000) by lia.
  split; [lia|]. split; [apply strip_idem|].
  split; [apply str_field_accepts; lia|].
  apply validate_answer_stored; [apply strip_idem|done].
Qed.



(** X2. The request that [rank_candidates] builds for a candidate, outside
    any [try], cannot be rejected: for a candidate that [CandidateAnswer]
    accepted and the question that the ranking request stored,
    [EvaluateAnswerRequest] accepts the stored answer and the stored
    question and keeps both unchanged. *)
Theorem rank_candidates_eval_request (cid a q : pyval) (c : CandidateAnswer)
    (question : option string) :
  CandidateAnswer_init cid a = Ok c ->
  optional_str_field (Some 1000) q = Ok question ->
  EvaluateAnswerRequest_init (PyStr (answer c)) (of_optional question)
    = Ok {| candidate_answer := answer c; question_context := question |}.
Proof.
  unfold CandidateAnswer_init. intros H Hq.
  apply optional_str_field_ok in Hq as Hq'. destruct Hq' as [-> _].
  apply rbind_ok in H as (id & Hid & H).
  apply rbind_ok in H as (v & Hfield & H).
  apply rbind_ok in H as (ans & Hv & H).
  injection H as <-. simpl.
  pose proof (str_field_ok _ _ _ _ Hfield) as ([= ->] & _).
  destruct (answer_accepted_again v ans Hfield Hv) as (_ & _ & Hf & Hagain).
  unfold EvaluateAnswerRequest_init. rewrite Hf. simpl. rewrite Hagain. simpl.
  by rewrite Hq.
Qed.

Lemma rank_candidates_eval_request_witness :
  CandidateAnswer_init (PyStr "c1") (PyStr " I would use a hash map ")
    = Ok {| candidate_id := "c1"; answer := "I would use a hash map" |} /\
  EvaluateAnswerRequest_init (PyStr "I would use a hash map") (PyStr "Two sum?")
    = Ok {| candidate_answer := "I would use a hash map";
            question_context := Some "Two sum?" |}.
Proof.
  split; [vm_compute; reflexivity|].
  apply (rank_candidates_eval_request (PyStr "c1") (PyStr " I would use a hash map ")
           (PyStr "Two sum?")
           {| candidate_id := "c1"; answer := "I would use a hash map" |}
           (Some "Two sum?")); vm_compute; reflexivity.
Defined.

Lemma size_list_to_set_le (l : list string) :
  (size (list_to_set l : gset string) <= length l)%nat.
Proof.
  induction l as [|x l IH].
  { change (list_to_set [] : gset string) with (∅ : gset string).
    rewrite size_empty. simpl. lia. }
  change (list_to_set (x :: l) : gset string) with ({[x]} ∪ list_to_set l : gset string).
  rewrite size_union_alt, size_singleton. simpl.
  assert (size (list_to_set l ∖ {[x]} : gset string) <= size (list_to_set l : gset string))%nat
    by (apply subseteq_size; intros y Hy; apply elem_of_difference in Hy; tauto).
  lia.
Qed.

(** The test of [validate_candidates]: as many identifiers as distinct
    identifiers. *)
Lemma length_size_NoDup (l : list string) :
  length l = size (list_to_set l : gset string) <-> NoDup l.
Proof.
  split; [|intros H; symmetry; by apply size_list_to_set].
  induction l as [|x l IH]; [constructor|].
  change (list_to_set (x :: l) : gset string) with ({[x]} ∪ list_to_set l : gset string).
  simpl. intros Hlen. destruct (decide (x ∈ l)) as [Hin|Hnin].
  - exfalso. pose proof (size_list_to_set_le l).
    assert ({[x]} ∪ list_to_set l = (list_to_set l : gset string)) as Heq
      by (by apply subseteq_union_1_L, singleton_subseteq_l, elem_of_list_to_set).
    rewrite Heq in Hlen. lia.
  - constructor; [done|]. apply IH.
    rewrite size_union, size_singleton in Hlen
      by (by apply disjoint_singleton_l; rewrite elem_of_list_to_set).
    lia.
Qed.

(** X3. [RankCandidatesRequest] accepts a list of validated candidates
    exactly when it has between 1 and 100 candidates whose identifiers are
    pairwise distinct and the question is absent or has at most 1000
    characters; the accepted request holds the candidates in the order
    given. Two candidates with the same identifier are rejected. *)
Theorem RankCandidatesRequest_init_accepts (cs : list CandidateAnswer) (q : pyval)
    (r : RankCandidatesRequest) :
  RankCandidatesRequest_init cs q = Ok r <->
  (1 <= length cs <= 100)%nat /\
  NoDup (map candidate_id cs) /\
  exists question,
    optional_str_field (Some 1000) q = Ok question /\
    r = {| candidates := cs; rank_question_context := question |}.
Proof.
  unfold RankCandidatesRequest_init, validate_candidates. split.
  - intros H. apply rbind_ok in H as (v & Hlen & H).
    destruct (Z.leb_spec 1 (Z.of_nat (length cs))); simpl in Hlen; [|done].
    destruct (Z.leb_spec (Z.of_nat (length cs)) 100); simpl in Hlen; [|done].
    injection Hlen as <-.
    apply rbind_ok in H as (cs' & Hval & H).
    case_bool_decide as Hsize; [|done]. injection Hval as <-.
    apply rbind_ok in H as (question & Hq & H). injection H as <-.
    split; [lia|]. split; [by apply length_size_NoDup|]. by exists question.
  - intros (Hlen & Hnd & question & Hq & ->).
    destruct (Z.leb_spec 1 (Z.of_nat (length cs))); [|lia].
    destruct (Z.leb_spec (Z.of_nat (length cs)) 100); [|lia]. simpl.
    rewrite bool_decide_true by by apply length_size_NoDup.
    simpl. by rewrite Hq.
Qed.

Lemma RankCandidatesRequest_init_accepts_witness :
  NoDup (map candidate_id (candidates demo_batch)) /\
  RankCandidatesRequest_init (candidates demo_batch) PyNone = Ok demo_batch /\
  RankCandidatesRequest_init
    [{| candidate_id := "c1"; answer := "I would use a hash map" |};
     {| candidate_id := "c1"; answer := "A nested loop would work" |}] PyNone
    = Raise "ValueError".
Proof.
  assert (NoDup (map candidate_id (candidates demo_batch))) as Hnd.
  { apply (bool_decide_unpack _). vm_compute. reflexivity. }
  split; [exact Hnd|]. split; [|vm_compute; reflexivity].
  apply (proj2 (RankCandidatesRequest_init_accepts (candidates demo_batch) PyNone
                  demo_batch)).
  split; [simpl; lia|]. split; [exact Hnd|]. by exists None.
Defined.

(** ** The agents *)

Lemma agent_try_eq {A} (E : Env) (p : system_prompt) (u : string)
    (init : (string -> option pyval) -> result A) (w : world) :
  (response <- llm_invoke_counted E p u ;;
   parsed <- lift (parser_parse E response) ;;
   lift (kwargs init parsed)) w
  = (agent_try E (llm_calls w) p u init, bump 1 w).
Proof.
  unfold bind, llm_invoke_counted, lift, agent_try, bump. simpl.
  destruct (llm_invoke E (llm_calls w) p u) as [response|e]; simpl; [|done].
  by destruct (parser_parse E response).
Qed.

Lemma EvaluatorOutput_init_ok (E : Env) (f : string -> option pyval)
    (out : EvaluatorOutput) :
  EvaluatorOutput_init E f = Ok out -> 1 <= eo_score out <= 5.
Proof.
  unfold EvaluatorOutput_init. intros H.
  apply rbind_ok in H as (score & Hscore & H).
  apply rbind_ok in H as (j & _ & H). injection H as <-. simpl.
  apply int_field_ok in Hscore as [? ?]. simpl in *. lia.
Qed.

Lemma kwargs_EvaluatorOutput_ok (E : Env) (obj : pyobj) (out : EvaluatorOutput) :
  kwargs (EvaluatorOutput_init E) obj = Ok out -> 1 <= eo_score out <= 5.
Proof. destruct obj; simpl; [apply EvaluatorOutput_init_ok | done]. Qed.

(** The evaluator agent with a client: one invocation, no exception, a score
    between 1 and 5; the fallback when the [try] block raised. *)
Lemma evaluate_answer_sync_available (E : Env) (a : string) (q : pyval) (w : world) :
  get_langchain_llm_raises E = None ->
  exists out,
    evaluate_answer_sync E (PyStr a) q w = (Ok out, bump 1 w) /\
    1 <= eo_score out <= 5 /\
    (forall e,
       agent_try E (llm_calls w) EVALUATOR_SYSTEM_PROMPT
         (answer_and_question (PyStr a) q) (EvaluatorOutput_init E) = Raise e ->
       out = evaluator_fallback e) /\
    (forall o,
       agent_try E (llm_calls w) EVALUATOR_SYSTEM_PROMPT
         (answer_and_question (PyStr a) q) (EvaluatorOutput_init E) = Ok o ->
       out = o).
Proof.
  intros Hllm. unfold evaluate_answer_sync, get_langchain_llm. rewrite Hllm.
  unfold bind at 1. simpl. unfold bind at 1. simpl.
  unfold try_except. rewrite agent_try_eq.
  destruct (agent_try E (llm_calls w) EVALUATOR_SYSTEM_PROMPT _ _) as [o|e] eqn:Htry.
  - exists o. split; [done|]. split; [|split; [done|by intros ? [= <-]]].
    unfold agent_try in Htry.
    apply rbind_ok in Htry as (response & _ & Htry).
    apply rbind_ok in Htry as (parsed & _ & Htry).
    by apply kwargs_EvaluatorOutput_ok in Htry.
  - exists (evaluator_fallback e). split; [done|].
    split; [simpl; lia|]. split; [by intros ? [= <-]|done].
Qed.

Lemma evaluate_answer_sync_unavailable (E : Env) (a : string) (q : pyval)
    (w : world) (e : exn) :
  get_langchain_llm_raises E = Some e ->
  evaluate_answer_sync E (PyStr a) q w = (Raise e, w).
Proof.
  intros Hllm. unfold evaluate_answer_sync, get_langchain_llm. by rewrite Hllm.
Qed.

Lemma analyze_answer_sync_available (E : Env) (a : string) (q s : pyval) (w : world) :
  get_langchain_llm_raises E = None ->
  exists out,
    analyze_answer_sync E (PyStr a) q s w = (Ok out, bump 1 w) /\
    (forall e,
       agent_try E (llm_calls w) ANALYZER_SYSTEM_PROMPT
         (with_score s (answer_and_question (PyStr a) q)) AnalyzerOutput_init
         = Raise e ->
       out = analyzer_fallback) /\
    (forall o,
       agent_try E (llm_calls w) ANALYZER_SYSTEM_PROMPT
         (with_score s (answer_and_question (PyStr a) q)) AnalyzerOutput_init
         = Ok o ->
       out = o).
Proof.
  intros Hllm. unfold analyze_answer_sync, get_langchain_llm. rewrite Hllm.
  unfold bind at 1. simpl. unfold bind at 1. simpl.
  unfold try_except. rewrite agent_try_eq.
  destruct (agent_try E (llm_calls w) ANALYZER_SYSTEM_PROMPT _ _) as [o|e] eqn:Htry.
  - exists o. split; [done|]. split; [done|by intros ? [= <-]].
  - exists analyzer_fallback. split; [done|]. split; [done|done].
Qed.

Lemma analyze_answer_sync_unavailable (E : Env) (a : string) (q s : pyval)
    (w : world) (e : exn) :
  get_langchain_llm_raises E = Some e ->
  analyze_answer_sync E (PyStr a) q s w = (Raise e, w).
Proof.
  intros Hllm. unfold analyze_answer_sync, get_langchain_llm. by rewrite Hllm.
Qed.

Lemma suggest_improvement_sync_available (E : Env) (a q s k : pyval) (w : world) :
  get_langchain_llm_raises E = None ->
  exists out,
    suggest_improvement_sync E a q s k w = (Ok out, bump 1 w) /\
    (forall e,
       agent_try E (llm_calls w) IMPROVEMENT_SYSTEM_PROMPT
         (with_weaknesses k (with_score s (answer_and_question a q)))
         ImprovementOutput_init = Raise e ->
       out = improvement_fallback) /\
    (forall o,
       agent_try E (llm_calls w) IMPROVEMENT_SYSTEM_PROMPT
         (with_weaknesses k (with_score s (answer_and_question a q)))
         ImprovementOutput_init = Ok o ->
       out = o).
Proof.
  intros Hllm. unfold suggest_improvement_sync, get_langchain_llm. rewrite Hllm.
  unfold bind at 1. simpl.
  unfold try_except. rewrite agent_try_eq.
  destruct (agent_try E (llm_calls w) IMPROVEMENT_SYSTEM_PROMPT _ _) as [o|e] eqn:Htry.
  - exists o. split; [done|]. split; [done|by intros ? [= <-]].
  - exists improvement_fallback. split; [done|]. split; [done|done].
Qed.

Lemma suggest_improvement_sync_unavailable (E : Env) (a q s k : pyval)
    (w : world) (e : exn) :
  get_langchain_llm_raises E = Some e ->
  suggest_improvement_sync E a q s k w = (Raise e, w).
Proof.
  intros Hllm. unfold suggest_improvement_sync, get_langchain_llm. by rewrite Hllm.
Qed.

Lemma len_slice_to_le (n : nat) (s : string) : len (slice_to n s) <= Z.of_nat n.
Proof. unfold len. rewrite length_slice_to. lia. Qed.

(** X4. With a language-model client, each of the three agents makes exactly
    one invocation of the language model and returns without raising,
    whatever the model answers: the evaluator returns a score between 1 and
    5, and when the invocation, the parser or the validation of the output
    fails, each agent returns its fixed fallback; the fallback of the
    evaluator carries at most the first 100 characters of the error. *)
Theorem agents_single_attempt (E : Env) (a : string) (q s k : pyval) (w : world) :
  get_langchain_llm_raises E = None ->
  (exists out,
     evaluate_answer_sync E (PyStr a) q w = (Ok out, bump 1 w) /\
     1 <= eo_score out <= 5 /\
     forall e,
       agent_try E (llm_calls w) EVALUATOR_SYSTEM_PROMPT
         (answer_and_question (PyStr a) q) (EvaluatorOutput_init E) = Raise e ->
       out = evaluator_fallback e /\ len (eo_justification out) <= 127) /\
  (exists out,
     analyze_answer_sync E (PyStr a) q s w = (Ok out, bump 1 w) /\
     forall e,
       agent_try E (llm_calls w) ANALYZER_SYSTEM_PROMPT
         (with_score s (answer_and_question (PyStr a) q)) AnalyzerOutput_init
         = Raise e ->
       out = analyzer_fallback) /\
  (exists out,
     suggest_improvement_sync E (PyStr a) q s k w = (Ok out, bump 1 w) /\
     forall e,
       agent_try E (llm_calls w) IMPROVEMENT_SYSTEM_PROMPT
         (with_weaknesses k (with_score s (answer_and_question (PyStr a) q)))
         ImprovementOutput_init = Raise e ->
       out = improvement_fallback).
Proof.
  intros Hllm. split; [|split].
  - destruct (evaluate_answer_sync_available E a q w Hllm) as (out & Hrun & Hs & Hf & _).
    exists out. split; [done|]. split; [done|].
    intros e He. rewrite (Hf e He). split; [done|].
    simpl. rewrite len_app. pose proof (len_slice_to_le 100 e).
    change (len "Evaluation error occurred: ") with 27. lia.
  - destruct (analyze_answer_sync_available E a q s w Hllm) as (out & Hrun & Hf & _).
    exists out. split; [done|]. intros e He. by apply (Hf e).
  - destruct (suggest_improvement_sync_available E (PyStr a) q s k w Hllm)
      as (out & Hrun & Hf & _).
    exists out. split; [done|]. intros e He. by apply (Hf e).
Qed.

Lemma agents_single_attempt_witness :
  get_langchain_llm_raises offline_env = None /\
  evaluate_answer_sync offline_env (PyStr "I would use a hash map") PyNone empty_world
    = (Ok (evaluator_fallback "connection error"), bump 1 empty_world) /\
  analyze_answer_sync offline_env (PyStr "I would use a hash map") PyNone (PyInt 3)
    empty_world = (Ok analyzer_fallback, bump 1 empty_world) /\
  suggest_improvement_sync offline_env (PyStr "I would use a hash map") PyNone
    (PyInt 3) PyNone empty_world = (Ok improvement_fallback, bump 1 empty_world).
Proof.
  split; [reflexivity|].
  destruct (agents_single_attempt offline_env "I would use a hash map" PyNone
              (PyInt 3) PyNone empty_world eq_refl)
    as ((o1 & H1 & _ & F1) & (o2 & H2 & F2) & (o3 & H3 & F3)).
  destruct (F1 "connection error" eq_refl) as [-> _].
  rewrite (F2 "connection error" eq_refl) in H2.
  rewrite (F3 "connection error" eq_refl) in H3.
  done.
Defined.

(** ** The nodes *)

Lemma evaluator_node_eq (E : Env) (state : gmap string pyval) (w : world) :
  evaluator_node E state w =
    let '(r, w') :=
      (candidate_answer <- subscript state "candidate_answer" ;;
       evaluate_answer_sync E candidate_answer (get state "question_context")) w in
    (Ok (evaluator_updates r), w').
Proof.
  unfold evaluator_node, try_except, bind.
  destruct (subscript state "candidate_answer" w) as [[a|e] w1]; [|done].
  by destruct (evaluate_answer_sync E a _ w1) as [[r|e] w2].
Qed.

Lemma analyzer_node_eq (E : Env) (state : gmap string pyval) (w : world) :
  analyzer_node E state w =
    let '(r, w') :=
      (candidate_answer <- subscript state "candidate_answer" ;;
       analyze_answer_sync E candidate_answer (get state "question_context")
         (get state "evaluator_score")) w in
    (Ok (analyzer_updates r), w').
Proof.
  unfold analyzer_node, try_except, bind.
  destruct (subscript state "candidate_answer" w) as [[a|e] w1]; [|done].
  by destruct (analyze_answer_sync E a _ _ w1) as [[r|e] w2].
Qed.

Lemma improvement_node_eq (E : Env) (state : gmap string pyval) (w : world) :
  improvement_node E state w =
    let '(r, w') :=
      (candidate_answer <- subscript state "candidate_answer" ;;
       suggest_improvement_sync E candidate_answer (get state "question_context")
         (get state "evaluator_score") (get state "analyzer_weaknesses")) w in
    (Ok (improvement_updates r), w').
Proof.
  unfold improvement_node, try_except, bind.
  destruct (subscript state "candidate_answer" w) as [[a|e] w1]; [|done].
  by destruct (suggest_improvement_sync E a _ _ _ w1) as [[r|e] w2].
Qed.

Lemma synthesizer_node_eq (state : gmap string pyval) (w : world) :
  synthesizer_node state w = (Ok (synthesizer_updates state), w).
Proof.
  unfold synthesizer_node, synthesizer_updates, try_except, lift.
  by destruct (synthesizer_try state).
Qed.

Lemma subscript_answer (state : gmap string pyval) (a : string) (w : world) :
  state !! "candidate_answer" = Some (PyStr a) ->
  subscript state "candidate_answer" w = (Ok (PyStr a), w).
Proof. intros H. unfold subscript, getitem. by rewrite H. Qed.

(** A node on a state that holds the answer, with a client. *)
Lemma evaluator_node_available (E : Env) (state : gmap string pyval) (a : string)
    (w : world) :
  get_langchain_llm_raises E = None ->
  state !! "candidate_answer" = Some (PyStr a) ->
  exists out,
    evaluator_node E state w = (Ok (evaluator_updates (Ok out)), bump 1 w) /\
    1 <= eo_score out <= 5.
Proof.
  intros Hllm Ha.
  destruct (evaluate_answer_sync_available E a (get state "question_context") w Hllm)
    as (out & Hrun & Hs & _).
  exists out. split; [|done]. rewrite evaluator_node_eq.
  by rewrite (bind_ok _ _ _ _ _ (subscript_answer state a w Ha)), Hrun.
Qed.

Lemma analyzer_node_available (E : Env) (state : gmap string pyval) (a : string)
    (w : world) :
  get_langchain_llm_raises E = None ->
  state !! "candidate_answer" = Some (PyStr a) ->
  exists out, analyzer_node E state w = (Ok (analyzer_updates (Ok out)), bump 1 w).
Proof.
  intros Hllm Ha.
  destruct (analyze_answer_sync_available E a (get state "question_context")
              (get state "evaluator_score") w Hllm) as (out & Hrun & _).
  exists out. rewrite analyzer_node_eq.
  by rewrite (bind_ok _ _ _ _ _ (subscript_answer state a w Ha)), Hrun.
Qed.

Lemma improvement_node_available (E : Env) (state : gmap string pyval) (a : string)
    (w : world) :
  get_langchain_llm_raises E = None ->
  state !! "candidate_answer" = Some (PyStr a) ->
  exists out,
    improvement_node E state w = (Ok (improvement_updates (Ok out)), bump 1 w).
Proof.
  intros Hllm Ha.
  destruct (suggest_improvement_sync_available E (PyStr a)
              (get state "question_context") (get state "evaluator_score")
              (get state "analyzer_weaknesses") w Hllm) as (out & Hrun & _).
  exists out. rewrite improvement_node_eq.
  by rewrite (bind_ok _ _ _ _ _ (subscript_answer state a w Ha)), Hrun.
Qed.

(** A node on a state that holds the answer, without a client. *)
Lemma evaluator_node_unavailable (E : Env) (state : gmap string pyval) (a : string)
    (w : world) (e : exn) :
  get_langchain_llm_raises E = Some e ->
  state !! "candidate_answer" = Some (PyStr a) ->
  evaluator_node E state w = (Ok (evaluator_updates (Raise e)), w).
Proof.
  intros Hllm Ha. rewrite evaluator_node_eq.
  by rewrite (bind_ok _ _ _ _ _ (subscript_answer state a w Ha)),
    (evaluate_answer_sync_unavailable E a _ w e Hllm).
Qed.

Lemma analyzer_node_unavailable (E : Env) (state : gmap string pyval) (a : string)
    (w : world) (e : exn) :
  get_langchain_llm_raises E = Some e ->
  state !! "candidate_answer" = Some (PyStr a) ->
  analyzer_node E state w = (Ok (analyzer_updates (Raise e)), w).
Proof.
  intros Hllm Ha. rewrite analyzer_node_eq.
  by rewrite (bind_ok _ _ _ _ _ (subscript_answer state a w Ha)),
    (analyze_answer_sync_unavailable E a _ _ w e Hllm).
Qed.

Lemma improvement_node_unavailable (E : Env) (state : gmap string pyval) (a : string)
    (w : world) (e : exn) :
  get_langchain_llm_raises E = Some e ->
  state !! "candidate_answer" = Some (PyStr a) ->
  improvement_node E state w = (Ok (improvement_updates (Raise e)), w).
Proof.
  intros Hllm Ha. rewrite improvement_node_eq.
  by rewrite (bind_ok _ _ _ _ _ (subscript_answer state a w Ha)),
    (suggest_improvement_sync_unavailable E _ _ _ _ w e Hllm).
Qed.

(** ** The run of the workflow on a request *)

Lemma answer_kept_1 (request : EvaluateAnswerRequest) (r1 : result EvaluatorOutput) :
  apply_updates (initial_state request) (evaluator_updates r1) !! "candidate_answer"
  = Some (PyStr (candidate_answer request)).
Proof. destruct r1; vm_compute; reflexivity. Qed.

Lemma answer_kept_2 (request : EvaluateAnswerRequest) (r1 : result EvaluatorOutput)
    (r2 : result AnalyzerOutput) :
  apply_updates (apply_updates (initial_state request) (evaluator_updates r1))
    (analyzer_updates r2) !! "candidate_answer"
  = Some (PyStr (candidate_answer request)).
Proof. destruct r1, r2; vm_compute; reflexivity. Qed.

(** With a client, the three agents return, each after one invocation. *)
Lemma run_available (E : Env) (request : EvaluateAnswerRequest) (w : world) :
  get_langchain_llm_raises E = None ->
  exists o1 o2 o3,
    invoke_trace (evaluation_graph E) (initial_state request) w
      = (Ok (run_states request (Ok o1) (Ok o2) (Ok o3)), bump 3 w) /\
    1 <= eo_score o1 <= 5.
Proof.
  intros Hllm.
  destruct (evaluator_node_available E (initial_state request)
              (candidate_answer request) w Hllm eq_refl) as (o1 & H1 & Hscore).
  destruct (analyzer_node_available E _ (candidate_answer request) (bump 1 w) Hllm
              (answer_kept_1 request (Ok o1))) as (o2 & H2).
  destruct (improvement_node_available E _ (candidate_answer request)
              (bump 1 (bump 1 w)) Hllm (answer_kept_2 request (Ok o1) (Ok o2)))
    as (o3 & H3).
  exists o1, o2, o3. split; [|done].
  unfold invoke_trace. erewrite bind_ok; [reflexivity|].
  change recursion_limit with 25%nat.
  eapply run_step; [reflexivity..|exact H1|].
  eapply run_step; [reflexivity..|exact H2|].
  eapply run_step; [reflexivity..|exact H3|].
  eapply run_last; [reflexivity..|]. apply synthesizer_node_eq.
Qed.

(** Without a client, the three nodes take their [except] clause and no
    invocation is made. *)
Lemma run_unavailable (E : Env) (request : EvaluateAnswerRequest) (w : world)
    (e : exn) :
  get_langchain_llm_raises E = Some e ->
  invoke_trace (evaluation_graph E) (initial_state request) w
    = (Ok (run_states request (Raise e) (Raise e) (Raise e)), w).
Proof.
  intros Hllm.
  pose proof (evaluator_node_unavailable E (initial_state request)
                (candidate_answer request) w e Hllm eq_refl) as H1.
  pose proof (analyzer_node_unavailable E _ (candidate_answer request) w e Hllm
                (answer_kept_1 request (Raise e))) as H2.
  pose proof (improvement_node_unavailable E _ (candidate_answer request) w e Hllm
                (answer_kept_2 request (Raise e) (Raise e))) as H3.
  unfold invoke_trace. erewrite bind_ok; [reflexivity|].
  change recursion_limit with 25%nat.
  eapply run_step; [reflexivity..|exact H1|].
  eapply run_step; [reflexivity..|exact H2|].
  eapply run_step; [reflexivity..|exact H3|].
  eapply run_last; [reflexivity..|]. apply synthesizer_node_eq.
Qed.

(** Every run is one of the two. *)
Lemma run_cases (E : Env) (request : EvaluateAnswerRequest) (w : world) :
  exists r1 r2 r3 n,
    invoke_trace (evaluation_graph E) (initial_state request) w
      = (Ok (run_states request r1 r2 r3), bump n w) /\
    (forall o1, r1 = Ok o1 -> 1 <= eo_score o1 <= 5) /\
    ((get_langchain_llm_raises E = None /\ n = 3%nat /\
      is_ok r1 = true /\ is_ok r2 = true /\ is_ok r3 = true) \/
     (exists e, get_langchain_llm_raises E = Some e /\ n = 0%nat /\
        r1 = Raise e /\ r2 = Raise e /\ r3 = Raise e)).
Proof.
  destruct (get_langchain_llm_raises E) as [e|] eqn:Hllm.
  - exists (Raise e), (Raise e), (Raise e), 0%nat.
    split; [|split; [done|right; by exists e]].
    rewrite (run_unavailable E request w e Hllm). by destruct w.
  - destruct (run_available E request w Hllm) as (o1 & o2 & o3 & Hrun & Hscore).
    exists (Ok o1), (Ok o2), (Ok o3), 3%nat.
    split; [done|]. split; [by intros ? [= <-]|]. by left.
Qed.

Lemma run_world (E : Env) (request : EvaluateAnswerRequest) (w : world) :
  exists r1 r2 r3,
    invoke_trace (evaluation_graph E) (initial_state request) w
      = (Ok (run_states request r1 r2 r3), bump (invocations E) w) /\
    (forall o1, r1 = Ok o1 -> 1 <= eo_score o1 <= 5).
Proof.
  destruct (run_cases E request w) as (r1 & r2 & r3 & n & Hrun & Hscore & Hn).
  exists r1, r2, r3. split; [|done]. unfold invocations.
  destruct Hn as [(-> & -> & _)|(e & -> & -> & _)]; done.
Qed.

Lemma invoke_of_trace (g : StateGraph) (input : gmap string pyval)
    (trace : list (gmap string pyval)) (w w' : world) :
  invoke_trace g input w = (Ok trace, w') ->
  invoke g input w = (Ok (List.last trace input), w').
Proof. intros H. unfold invoke. by rewrite (bind_ok _ _ _ _ _ H). Qed.

Lemma truncated_le (limit : Z) (keep : nat) (s : string) :
  Z.of_nat keep + 3 = limit -> len (truncated limit keep s) <= limit.
Proof.
  intros Hk. destruct (Z.lt_ge_cases limit (len s)).
  - destruct (truncated_over limit keep s Hk) as [_ ->]; [done|lia].
  - rewrite truncated_within; lia.
Qed.

Lemma synthesizer_updates_texts (state : gmap string pyval) (score : pyval)
    (summary improvement : string) :
  get_default state "evaluator_score" (PyInt 3) = score ->
  get_default state "final_summary" (PyStr "No summary available") = PyStr summary ->
  get_default state "final_improvement" (PyStr "No improvement suggestion available")
    = PyStr improvement ->
  synthesizer_updates state =
    dict
      [("final_score", score);
       ("final_summary", PyStr (truncated 200 197 summary));
       ("final_improvement", PyStr (truncated 300 297 improvement));
       ("current_agent", PyStr "synthesizer");
       ("messages", PyMsgs ["Synthesis complete"])].
Proof.
  intros Hscore Hs Hi. unfold synthesizer_updates.
  rewrite (synthesizer_try_texts state summary improvement Hs Hi). by rewrite Hscore.
Qed.

(** The updates of the synthesizer in a run. *)
Lemma run_synthesizer_updates (request : EvaluateAnswerRequest)
    (r1 : result EvaluatorOutput) (r2 : result AnalyzerOutput)
    (r3 : result ImprovementOutput) :
  synthesizer_updates
    (apply_updates
       (apply_updates
          (apply_updates (initial_state request) (evaluator_updates r1))
          (analyzer_updates r2))
       (improvement_updates r3))
  = dict
      [("final_score", PyInt (final_score_of r1));
       ("final_summary", PyStr (final_summary_of r2));
       ("final_improvement", PyStr (final_improvement_of r3));
       ("current_agent", PyStr "synthesizer");
       ("messages", PyMsgs ["Synthesis complete"])].
Proof.
  unfold final_summary_of, final_improvement_of.
  apply synthesizer_updates_texts; destruct r1, r2, r3; vm_compute; reflexivity.
Qed.

Lemma final_fields (request : EvaluateAnswerRequest) (r1 : result EvaluatorOutput)
    (r2 : result AnalyzerOutput) (r3 : result ImprovementOutput) :
  let final := List.last (run_states request r1 r2 r3) (initial_state request) in
  final !! "final_score" = Some (PyInt (final_score_of r1)) /\
  final !! "final_summary" = Some (PyStr (final_summary_of r2)) /\
  final !! "final_improvement" = Some (PyStr (final_improvement_of r3)).
Proof.
  unfold run_states. cbn [List.last]. rewrite run_synthesizer_updates.
  repeat split; (rewrite apply_updates_lookup by done);
    by apply lookup_union_Some_l.
Qed.

(** The response model on a score that is in range and two texts within
    their upper bounds: only the lower bounds decide. *)
Lemma EvaluationResponse_init_decides (E : Env) (z : Z) (s i : string) :
  1 <= z <= 5 -> len s <= 200 -> len i <= 300 ->
  EvaluationResponse_init E
    (kw [("score", PyInt z); ("summary", PyStr s); ("improvement", PyStr i)])
  = if (10 <=? len s) && (10 <=? len i)
    then Ok {| er_score := z; er_summary := s; er_improvement := i |}
    else Raise ValidationError.
Proof.
  intros Hz Hs Hi. unfold EvaluationResponse_init.
  change (kw _ "score") with (Some (PyInt z)).
  change (kw _ "summary") with (Some (PyStr s)).
  change (kw _ "improvement") with (Some (PyStr i)).
  unfold int_field, str_field. simpl.
  destruct (Z.leb_spec 1 z); [|lia]. destruct (Z.leb_spec z 5); [|lia]. simpl.
  destruct (Z.leb_spec (len s) 200); [|lia].
  destruct (Z.leb_spec (len i) 300); [|lia].
  destruct (10 <=? len s); simpl; [|done].
  by destruct (10 <=? len i).
Qed.


Lemma run_states_eq (request : EvaluateAnswerRequest) (r1 : result EvaluatorOutput)
    (r2 : result AnalyzerOutput) (r3 : result ImprovementOutput) :
  run_states request r1 r2 r3 =
    let s0 := initial_state request in
    let s1 := apply_updates s0 (evaluator_updates r1) in
    let s2 := apply_updates s1 (analyzer_updates r2) in
    let s3 := apply_updates s2 (improvement_updates r3) in
    [s0; s1; s2; s3;
     apply_updates s3
       (dict
          [("final_score", PyInt (final_score_of r1));
           ("final_summary", PyStr (final_summary_of r2));
           ("final_improvement", PyStr (final_improvement_of r3));
           ("current_agent", PyStr "synthesizer");
           ("messages", PyMsgs ["Synthesis complete"])])].
Proof. unfold run_states. cbv zeta. by rewrite run_synthesizer_updates. Qed.

(** X6. The final state of every run holds a score between 1 and 5, a
    summary of at most 200 characters and an improvement of at most 300
    characters, so the construction of the response can fail on the lower
    bounds only: a direct execution returns the three values of the final
    state when the summary and the improvement have 10 characters or more,
    and the neutral fallback response otherwise. *)
Theorem execute_response (E : Env) (request : EvaluateAnswerRequest) (w : world) :
  exists final z s i,
    invoke (evaluation_graph E) (initial_state request) w
      = (Ok final, bump (invocations E) w) /\
    final !! "final_score" = Some (PyInt z) /\
    final !! "final_summary" = Some (PyStr s) /\
    final !! "final_improvement" = Some (PyStr i) /\
    1 <= z <= 5 /\ len s <= 200 /\ len i <= 300 /\
    execute E request w =
      (Ok (if (10 <=? len s) && (10 <=? len i)
           then {| er_score := z; er_summary := s; er_improvement := i |}
           else neutral_response),
       bump (invocations E) w).
Proof.
  destruct (run_world E request w) as (r1 & r2 & r3 & Hrun & Hscore).
  apply invoke_of_trace in Hrun.
  destruct (final_fields request r1 r2 r3) as (Hz & Hs & Hi).
  assert (1 <= final_score_of r1 <= 5) as Hzb.
  { destruct r1 as [o1|e]; simpl; [by apply Hscore | lia]. }
  assert (len (final_summary_of r2) <= 200) as Hsb by by apply truncated_le.
  assert (len (final_improvement_of r3) <= 300) as Hib by by apply truncated_le.
  eexists _, (final_score_of r1), (final_summary_of r2), (final_improvement_of r3).
  split; [exact Hrun|]. do 6 (split; [done|]).
  unfold execute, try_except, run_workflow.
  rewrite (bind_ok _ _ _ _ _ Hrun).
  unfold subscript, getitem. rewrite Hz, Hs, Hi.
  unfold bind, ret, lift.
  rewrite (EvaluationResponse_init_decides E _ _ _ Hzb Hsb Hib).
  destruct ((10 <=? len (final_summary_of r2))
            && (10 <=? len (final_improvement_of r3))); [done|].
  apply fallback_response_eq.
Qed.

(** X7. No node of the workflow alters the input: in every state of every
    run, the answer, the question and the [cached] flag are those of the
    initial state. *)
Theorem run_keeps_input (E : Env) (request : EvaluateAnswerRequest) (w : world) :
  exists trace w',
    invoke_trace (evaluation_graph E) (initial_state request) w = (Ok trace, w') /\
    Forall
      (fun state =>
         state !! "candidate_answer" = Some (PyStr (candidate_answer request)) /\
         state !! "question_context"
           = Some (of_optional (question_context request)) /\
         state !! "cached" = Some (PyBool false))
      trace.
Proof.
  destruct (run_world E request w) as (r1 & r2 & r3 & Hrun & _).
  eexists _, _. split; [exact Hrun|].
  rewrite run_states_eq. cbv zeta.
  destruct r1, r2, r3; repeat constructor; vm_compute; reflexivity.
Qed.

Lemma run_states_inputs (request : EvaluateAnswerRequest) (o1 : EvaluatorOutput)
    (o2 : AnalyzerOutput) :
  let s0 := initial_state request in
  let s1 := apply_updates s0 (evaluator_updates (Ok o1)) in
  let s2 := apply_updates s1 (analyzer_updates (Ok o2)) in
  get s0 "question_context" = of_optional (question_context request) /\
  get s1 "question_context" = of_optional (question_context request) /\
  get s2 "question_context" = of_optional (question_context request) /\
  get s1 "evaluator_score" = PyInt (eo_score o1) /\
  get s2 "evaluator_score" = PyInt (eo_score o1) /\
  get s2 "analyzer_weaknesses" = PyStr (ao_weaknesses o2).
Proof. repeat split; vm_compute; reflexivity. Qed.

(** With a client, the states of a run are built from what the three agents
    return: the analyzer is given the score of the evaluator, the
    improvement agent this score and the weaknesses of the analyzer. *)
Lemma run_of_agents (E : Env) (request : EvaluateAnswerRequest) (w : world) :
  get_langchain_llm_raises E = None ->
  exists o1 o2 o3,
    evaluate_answer_sync E (PyStr (candidate_answer request))
      (of_optional (question_context request)) w = (Ok o1, bump 1 w) /\
    analyze_answer_sync E (PyStr (candidate_answer request))
      (of_optional (question_context request)) (PyInt (eo_score o1)) (bump 1 w)
      = (Ok o2, bump 2 w) /\
    suggest_improvement_sync E (PyStr (candidate_answer request))
      (of_optional (question_context request)) (PyInt (eo_score o1))
      (PyStr (ao_weaknesses o2)) (bump 2 w) = (Ok o3, bump 3 w) /\
    invoke_trace (evaluation_graph E) (initial_state request) w
      = (Ok (run_states request (Ok o1) (Ok o2) (Ok o3)), bump 3 w).
Proof.
  intros Hllm.
  destruct (evaluate_answer_sync_available E (candidate_answer request)
              (of_optional (question_context request)) w Hllm) as (o1 & H1 & _).
  destruct (analyze_answer_sync_available E (candidate_answer request)
              (of_optional (question_context request)) (PyInt (eo_score o1))
              (bump 1 w) Hllm) as (o2 & H2 & _).
  destruct (suggest_improvement_sync_available E
              (PyStr (candidate_answer request))
              (of_optional (question_context request)) (PyInt (eo_score o1))
              (PyStr (ao_weaknesses o2)) (bump 2 w) Hllm) as (o3 & H3 & _).
  exists o1, o2, o3. split; [exact H1|]. split; [exact H2|]. split; [exact H3|].
  destruct (run_states_inputs request o1 o2) as (Q0 & Q1 & Q2 & S1 & S2 & W2).
  assert (evaluator_node E (initial_state request) w
          = (Ok (evaluator_updates (Ok o1)), bump 1 w)) as N1.
  { rewrite evaluator_node_eq.
    rewrite (bind_ok _ _ _ _ _
               (subscript_answer (initial_state request) (candidate_answer request)
                  w eq_refl)).
    rewrite Q0, H1. reflexivity. }
  assert (analyzer_node E
            (apply_updates (initial_state request) (evaluator_updates (Ok o1)))
            (bump 1 w)
          = (Ok (analyzer_updates (Ok o2)), bump 2 w)) as N2.
  { rewrite analyzer_node_eq.
    rewrite (bind_ok _ _ _ _ _
               (subscript_answer _ (candidate_answer request) (bump 1 w)
                  (answer_kept_1 request (Ok o1)))).
    rewrite Q1, S1, H2. reflexivity. }
  assert (improvement_node E
            (apply_updates
               (apply_updates (initial_state request) (evaluator_updates (Ok o1)))
               (analyzer_updates (Ok o2)))
            (bump 2 w)
          = (Ok (improvement_updates (Ok o3)), bump 3 w)) as N3.
  { rewrite improvement_node_eq.
    rewrite (bind_ok _ _ _ _ _
               (subscript_answer _ (candidate_answer request) (bump 2 w)
                  (answer_kept_2 request (Ok o1) (Ok o2)))).
    rewrite Q2, S2, W2, H3. reflexivity. }
  unfold invoke_trace. erewrite bind_ok; [reflexivity|].
  change recursion_limit with 25%nat.
  eapply run_step; [reflexivity..|exact N1|].
  eapply run_step; [reflexivity..|exact N2|].
  eapply run_step; [reflexivity..|exact N3|].
  eapply run_last; [reflexivity..|]. apply synthesizer_node_eq.
Qed.

(** X8. The messages of a run are the reports of what the agents returned.
    With a client, the evaluator node appends the score and the
    justification that the evaluator agent returned, the analyzer node the
    summary that the analyzer agent returned for this score, the
    improvement node the suggestion that the improvement agent returned for
    this score and the weaknesses of the analysis, and the synthesizer its
    own message: each state holds the messages of the state before it and
    one more. Without a client, the three nodes take their [except] clause
    and append nothing: the only message is that of the synthesizer. *)
Theorem run_messages (E : Env) (request : EvaluateAnswerRequest) (w : world) :
  (get_langchain_llm_raises E = None ->
   exists o1 o2 o3 trace,
     evaluate_answer_sync E (PyStr (candidate_answer request))
       (of_optional (question_context request)) w = (Ok o1, bump 1 w) /\
     analyze_answer_sync E (PyStr (candidate_answer request))
       (of_optional (question_context request)) (PyInt (eo_score o1)) (bump 1 w)
       = (Ok o2, bump 2 w) /\
     suggest_improvement_sync E (PyStr (candidate_answer request))
       (of_optional (question_context request)) (PyInt (eo_score o1))
       (PyStr (ao_weaknesses o2)) (bump 2 w) = (Ok o3, bump 3 w) /\
     invoke_trace (evaluation_graph E) (initial_state request) w
       = (Ok trace, bump 3 w) /\
     map messages_of trace =
       [[];
        ["Score: " +:+ pretty (eo_score o1) +:+ ", Justification: "
         +:+ eo_justification o1];
        ["Score: " +:+ pretty (eo_score o1) +:+ ", Justification: "
         +:+ eo_justification o1;
         "Summary: " +:+ ao_summary o2];
        ["Score: " +:+ pretty (eo_score o1) +:+ ", Justification: "
         +:+ eo_justification o1;
         "Summary: " +:+ ao_summary o2;
         "Improvement: " +:+ io_suggestion o3];
        ["Score: " +:+ pretty (eo_score o1) +:+ ", Justification: "
         +:+ eo_justification o1;
         "Summary: " +:+ ao_summary o2;
         "Improvement: " +:+ io_suggestion o3;
         "Synthesis complete"]]) /\
  (forall e, get_langchain_llm_raises E = Some e ->
     exists trace,
       invoke_trace (evaluation_graph E) (initial_state request) w
         = (Ok trace, w) /\
       map messages_of trace = [[]; []; []; []; ["Synthesis complete"]]).
Proof.
  split.
  - intros Hllm.
    destruct (run_of_agents E request w Hllm) as (o1 & o2 & o3 & H1 & H2 & H3 & Hrun).
    exists o1, o2, o3, (run_states request (Ok o1) (Ok o2) (Ok o3)).
    split; [exact H1|]. split; [exact H2|]. split; [exact H3|].
    split; [exact Hrun|].
    rewrite run_states_eq. cbv zeta. vm_compute. reflexivity.
  - intros e Hllm.
    exists (run_states request (Raise e) (Raise e) (Raise e)).
    split; [by apply run_unavailable|].
    rewrite run_states_eq. cbv zeta. vm_compute. reflexivity.
Qed.

Lemma run_messages_witness :
  get_langchain_llm_raises healthy_env = None /\
  exists trace w' m1 m2 m3,
    invoke_trace (evaluation_graph healthy_env) (initial_state demo_request)
      empty_world = (Ok trace, w') /\
    List.last (map messages_of trace) [] = [m1; m2; m3; "Synthesis complete"].
Proof.
  split; [reflexivity|].
  destruct (proj1 (run_messages healthy_env demo_request empty_world) eq_refl)
    as (o1 & o2 & o3 & trace & _ & _ & _ & Hrun & Hmsgs).
  exists trace, (bump 3 empty_world). eexists _, _, _. split; [exact Hrun|].
  rewrite Hmsgs. cbn [List.last]. reflexivity.
Defined.

(** X9. The fallbacks of the agents leave no trace in the state: with a
    client, the [error] field is [None] in every state of every run, also
    when the language model fails at every call; without a client, the
    final state holds the message of the exception that the client
    raised. *)
Theorem run_error_field (E : Env) (request : EvaluateAnswerRequest) (w : world) :
  exists trace w',
    invoke_trace (evaluation_graph E) (initial_state request) w = (Ok trace, w') /\
    (get_langchain_llm_raises E = None ->
     Forall (fun state => state !! "error" = Some PyNone) trace) /\
    (forall e, get_langchain_llm_raises E = Some e ->
       List.last trace (initial_state request) !! "error" = Some (PyStr e)).
Proof.
  destruct (run_cases E request w) as (r1 & r2 & r3 & n & Hrun & _ & Hn).
  eexists _, _. split; [exact Hrun|].
  rewrite run_states_eq. cbv zeta.
  destruct Hn as [(Hllm & _ & H1 & H2 & H3)|(e & Hllm & _ & -> & -> & ->)].
  - split; [|intros e He; congruence]. intros _.
    destruct r1, r2, r3; try done; repeat constructor; vm_compute; reflexivity.
  - split; [intros He; congruence|]. intros e' He'.
    rewrite Hllm in He'. injection He' as <-. vm_compute. reflexivity.
Qed.

Lemma run_error_field_witness :
  get_langchain_llm_raises offline_env = None /\
  exists trace,
    fst (invoke_trace (evaluation_graph offline_env) (initial_state demo_request)
           empty_world) = Ok trace /\
    Forall (fun state => state !! "error" = Some PyNone) trace.
Proof.
  split; [reflexivity|].
  destruct (run_error_field offline_env demo_request empty_world)
    as (trace & w' & Hrun & Hnone & _).
  exists trace. split; [by rewrite Hrun|]. apply Hnone. reflexivity.
Defined.

(** X10. [should_continue] replays the edges of the graph: on the states of
    every run it names, in turn, the evaluator, the analyzer, the
    improvement node and the synthesizer, and on the final state it answers
    [end]; a state whose marker is none of the four names ends the
    workflow. *)
Theorem should_continue_follows_run (E : Env) (request : EvaluateAnswerRequest)
    (w : world) :
  (exists trace w',
     invoke_trace (evaluation_graph E) (initial_state request) w = (Ok trace, w') /\
     map should_continue trace
       = ["evaluator"; "analyzer"; "improvement"; "synthesizer"; "end"]) /\
  should_continue (initial_state request) = entry_point (evaluation_graph E) /\
  (forall node next state,
     edges (evaluation_graph E) !! node = Some next ->
     state !! "current_agent" = Some (PyStr node) ->
     should_continue state = if String.eqb next END then "end" else next) /\
  (forall state name,
     state !! "current_agent" = Some (PyStr name) ->
     nodes (evaluation_graph E) !! name = None ->
     should_continue state = "end").
Proof.
  split; [|split; [reflexivity|split]].
  - destruct (run_world E request w) as (r1 & r2 & r3 & Hrun & _).
    eexists _, _. split; [exact Hrun|].
    rewrite run_states_eq. cbv zeta.
    destruct r1, r2, r3; vm_compute; reflexivity.
  - intros node next state Hedge Hstate.
    unfold should_continue, get. rewrite Hstate. simpl.
    apply elem_of_list_to_map_2 in Hedge.
    repeat (apply elem_of_cons in Hedge as [[= -> ->]|Hedge]; [reflexivity|]).
    by apply elem_of_nil in Hedge.
  - intros state name Hstate Hnode.
    unfold should_continue, get. rewrite Hstate. simpl.
    destruct (String.eqb_spec name "evaluator") as [->|_]; [done|].
    destruct (String.eqb_spec name "analyzer") as [->|_]; [done|].
    destruct (String.eqb_spec name "improvement") as [->|_]; [done|].
    by destruct (String.eqb name "synthesizer").
Qed.

Lemma should_continue_follows_run_witness :
  edges (evaluation_graph offline_env) !! "analyzer" = Some "improvement" /\
  should_continue (dict [("current_agent", PyStr "analyzer")]) = "improvement" /\
  should_continue (dict [("current_agent", PyStr "supervisor")]) = "end".
Proof.
  split; [reflexivity|].
  destruct (should_continue_follows_run offline_env demo_request empty_world)
    as (_ & _ & Hedge & Hother).
  split.
  - apply (Hedge "analyzer" "improvement" (dict [("current_agent", PyStr "analyzer")]));
      reflexivity.
  - apply (Hother (dict [("current_agent", PyStr "supervisor")]) "supervisor");
      reflexivity.
Defined.

(** ** The effects of [evaluate] on the cache *)

Lemma run_workflow_world (E : Env) (request : EvaluateAnswerRequest) (w : world) :
  exists res, run_workflow E request w = (res, bump (invocations E) w).
Proof.
  destruct (run_world E request w) as (r1 & r2 & r3 & Hrun & _).
  apply invoke_of_trace in Hrun.
  unfold run_workflow. rewrite (bind_ok _ _ _ _ _ Hrun).
  unfold bind, subscript, getitem, lift, ret, raise.
  repeat match goal with
         | |- context [match ?x !! ?k with _ => _ end] => destruct (x !! k)
         end; by eexists.
Qed.

(** What [_cache_result] does to the world: one command at most, and the
    store is left as it was or receives the serialized response under the
    key. *)
Lemma cache_result_effect (E : Env) (key : string) (r : EvaluationResponse)
    (w : world) :
  exists w',
    _cache_result E key r w = (Ok tt, w') /\
    llm_calls w' = llm_calls w /\
    (redis_ops w' <= S (redis_ops w))%nat /\
    (caching_off E = true -> w' = w) /\
    (store w' = store w \/
     store w' = <[key := json_dumps E (model_dump r)]> (store w)).
Proof.
  unfold _cache_result. destruct (caching_off E).
  { exists w. repeat split; auto. }
  unfold try_except, redis_setex, redis_command.
  destruct (redis_raises E (redis_ops w)) as [e|].
  { eexists. repeat split; simpl; auto. done. }
  destruct (0 <? redis_ttl E); eexists; repeat split; simpl; auto; done.
Qed.

Lemma get_cached_result_effect (E : Env) (key : string) (w : world) :
  exists o w',
    _get_cached_result E key w = (Ok o, w') /\
    llm_calls w' = llm_calls w /\
    store w' = store w /\
    (redis_ops w' <= S (redis_ops w))%nat /\
    (caching_off E = true -> w' = w).
Proof.
  destruct (caching_off E) eqn:Hoff.
  { exists None, w. rewrite get_cached_result_off by done. repeat split; auto. }
  destruct (redis_raises E (redis_ops w)) as [e|] eqn:He.
  - eexists None, _. rewrite (get_cached_result_read_raises E key w e) by done.
    repeat split; simpl; auto. done.
  - eexists _, _. rewrite get_cached_result_read by done.
    repeat split; simpl; auto. done.
Qed.

(** X5. With a language-model client, the invocation of the graph in
    [evaluate] returns a final state after exactly three invocations of the
    language model, one per agent and no retry, whatever the model answers,
    and it issues no Redis command and leaves the store as it was. A call of
    [evaluate] therefore makes exactly three invocations when the read of
    the cache is a miss and none when it is a hit, also when the response
    model rejects the result and when the write to the cache fails. *)
Theorem invoke_effects (E : Env) (request : EvaluateAnswerRequest) (w : world) :
  get_langchain_llm_raises E = None ->
  (exists final w1,
     invoke (evaluation_graph E) (initial_state request) w = (Ok final, w1) /\
     llm_calls w1 = (3 + llm_calls w)%nat /\
     redis_ops w1 = redis_ops w /\
     store w1 = store w) /\
  (exists cached w1 r w2,
     _get_cached_result E
       (_generate_cache_key E (candidate_answer request) (question_context request))
       w = (Ok cached, w1) /\
     evaluate E request w = (Ok r, w2) /\
     llm_calls w2 =
       (match cached with Some _ => 0 | None => 3 end + llm_calls w)%nat).
Proof.
  intros Hllm.
  assert (invocations E = 3%nat) as Hinv by (unfold invocations; by rewrite Hllm).
  split.
  - destruct (run_world E request w) as (r1 & r2 & r3 & Hrun & _).
    apply invoke_of_trace in Hrun. rewrite Hinv in Hrun.
    eexists _, _. split; [exact Hrun|]. by repeat split.
  - destruct (get_cached_result_effect E
                (_generate_cache_key E (candidate_answer request)
                   (question_context request)) w)
      as (o & w1 & Hget & Hllm1 & _).
    exists o, w1. unfold evaluate. rewrite (bind_ok _ _ _ _ _ Hget).
    destruct o as [r|].
    { exists r, w1. split; [done|]. split; [done|]. by rewrite Hllm1. }
    destruct (run_workflow_world E request w1) as [res Hrun].
    rewrite Hinv in Hrun. unfold try_except. destruct res as [r|e].
    + rewrite (bind_ok _ _ _ _ _ Hrun).
      destruct (cache_result_effect E
                  (_generate_cache_key E (candidate_answer request)
                     (question_context request)) r (bump 3 w1))
        as (w2 & Hwrite & Hllm2 & _).
      rewrite (bind_ok _ _ _ _ _ Hwrite). exists r, w2.
      split; [done|]. split; [done|]. rewrite Hllm2. simpl. by rewrite Hllm1.
    + rewrite (bind_raise _ _ _ _ _ Hrun), fallback_response_eq.
      exists neutral_response, (bump 3 w1).
      split; [done|]. split; [done|]. simpl. by rewrite Hllm1.
Qed.

Lemma invoke_effects_witness :
  get_langchain_llm_raises healthy_env = None /\
  exists r w2,
    evaluate healthy_env demo_request empty_world = (Ok r, w2) /\
    llm_calls w2 = 3%nat.
Proof.
  split; [reflexivity|].
  destruct (invoke_effects healthy_env demo_request empty_world eq_refl)
    as (_ & cached & w1 & r & w2 & Hget & Heval & Hcalls).
  vm_compute in Hget. injection Hget as <- <-.
  exists r, w2. split; [exact Heval | exact Hcalls].
Defined.

(** X11. What a call of [evaluate] does to the world. It returns a response
    and makes at most three invocations of the language model and at most
    two Redis commands; the store is left as it was, or it receives, under
    the cache key of the request and under no other key, the serialization
    of the response that is returned; and when caching is off no Redis
    command is issued. *)
Theorem evaluate_effects (E : Env) (request : EvaluateAnswerRequest) (w : world) :
  let key :=
    _generate_cache_key E (candidate_answer request) (question_context request) in
  exists r w',
    evaluate E request w = (Ok r, w') /\
    (llm_calls w' <= 3 + llm_calls w)%nat /\
    (redis_ops w' <= 2 + redis_ops w)%nat /\
    (store w' = store w \/
     store w' = <[key := json_dumps E (model_dump r)]> (store w)) /\
    (forall k, k <> key -> store w' !! k = store w !! k) /\
    (caching_off E = true -> redis_ops w' = redis_ops w /\ store w' = store w).
Proof.
  intros key.
  destruct (get_cached_result_effect E key w)
    as (o & w1 & Hget & Hllm1 & Hst1 & Hops1 & Hoff1).
  assert (invocations E <= 3)%nat as Hinv
    by (unfold invocations; destruct (get_langchain_llm_raises E); lia).
  unfold evaluate. fold key. rewrite (bind_ok _ _ _ _ _ Hget).
  destruct o as [r|].
  { exists r, w1. split; [done|]. rewrite Hllm1, Hst1.
    split; [lia|]. split; [lia|]. split; [by left|]. split; [done|].
    intros Hoff. by rewrite (Hoff1 Hoff). }
  destruct (run_workflow_world E request w1) as [res Hrun].
  unfold try_except. destruct res as [r|e].
  - rewrite (bind_ok _ _ _ _ _ Hrun).
    destruct (cache_result_effect E key r (bump (invocations E) w1))
      as (w2 & Hwrite & Hllm2 & Hops2 & Hoff2 & Hst2).
    rewrite (bind_ok _ _ _ _ _ Hwrite). exists r, w2. split; [done|].
    simpl in *. rewrite Hst1 in Hst2.
    split; [lia|]. split; [lia|]. split; [done|]. split.
    + intros k Hk. destruct Hst2 as [-> | ->]; [done|]. by rewrite lookup_insert_ne.
    + intros Hoff. rewrite (Hoff2 Hoff). simpl. by rewrite (Hoff1 Hoff).
  - rewrite (bind_raise _ _ _ _ _ Hrun), fallback_response_eq.
    exists neutral_response, (bump (invocations E) w1). split; [done|].
    simpl. rewrite Hst1.
    split; [lia|]. split; [lia|]. split; [by left|]. split; [done|].
    intros Hoff. by rewrite (Hoff1 Hoff).
Qed.

Lemma evaluate_effects_witness :
  exists r w',
    evaluate offline_env demo_request empty_world = (Ok r, w') /\
    redis_ops w' = redis_ops empty_world /\ store w' = store empty_world.
Proof.
  destruct (evaluate_effects offline_env demo_request empty_world)
    as (r & w' & Heval & _ & _ & _ & _ & Hoff).
  exists r, w'. split; [exact Heval|]. by apply Hoff.
Defined.

(** X12. The neutral fallback response is never cached: when the read is a
    miss and the workflow raises, for instance because the response model
    rejects a short summary, [evaluate] returns the neutral response after
    the one read and no write, and the store is as it was. *)
Theorem evaluate_fallback_not_cached (E : Env) (request : EvaluateAnswerRequest)
    (w w1 w2 : world) (e : exn) :
  _get_cached_result E
    (_generate_cache_key E (candidate_answer request) (question_context request)) w
    = (Ok None, w1) ->
  run_workflow E request w1 = (Raise e, w2) ->
  evaluate E request w = (Ok neutral_response, w2) /\
  store w2 = store w /\
  redis_ops w2 = redis_ops w1.
Proof.
  intros Hmiss Hrun.
  destruct (get_cached_result_effect E
    (_generate_cache_key E (candidate_answer request) (question_context request)) w)
    as (o & w1' & Hget & _ & Hst1 & _).
  rewrite Hmiss in Hget. injection Hget as <- <-.
  destruct (run_workflow_world E request w1) as [res Hres].
  rewrite Hrun in Hres. injection Hres as _ ->.
  split; [|by split].
  unfold evaluate. rewrite (bind_ok _ _ _ _ _ Hmiss).
  unfold try_except. rewrite (bind_raise _ _ _ _ _ Hrun).
  apply fallback_response_eq.
Qed.

Lemma evaluate_fallback_not_cached_witness :
  run_workflow terse_env demo_request (after_command empty_world)
    = (Raise ValidationError, World 3 1 ∅) /\
  evaluate terse_env demo_request empty_world = (Ok neutral_response, World 3 1 ∅) /\
  store (World 3 1 ∅) = store empty_world.
Proof.
  split; [vm_compute; reflexivity|].
  destruct (evaluate_fallback_not_cached terse_env demo_request empty_world
              (after_command empty_world) (World 3 1 ∅) ValidationError)
    as (Hev & Hst & _); [vm_compute; reflexivity .. |].
  by split.
Defined.

(** A hit: the stored entry is returned after the one read. *)
Lemma evaluate_hit (E : Env) (request : EvaluateAnswerRequest) (w : world)
    (r : EvaluationResponse) :
  caching_off E = false ->
  redis_raises E (redis_ops w) = None ->
  cache_lookup E (store w)
    (_generate_cache_key E (candidate_answer request) (question_context request))
    = Some r ->
  evaluate E request w = (Ok r, after_command w).
Proof.
  intros Hon Hup Hlookup. unfold evaluate.
  erewrite bind_ok by (by apply get_cached_result_read).
  by rewrite Hlookup.
Qed.

(** X13. A hit is answered from the store alone: when caching is on, the
    read does not fail and the store holds, under the key of the request, a
    non-empty text that deserializes to a response, [evaluate] returns this
    response after one Redis command, without any invocation of the
    language model and without a write, whatever the language model would
    have answered. *)
Theorem evaluate_hit_from_store (E : Env) (request : EvaluateAnswerRequest)
    (w : world) (text : string) (r : EvaluationResponse) :
  caching_off E = false ->
  redis_raises E (redis_ops w) = None ->
  store w
    !! _generate_cache_key E (candidate_answer request) (question_context request)
    = Some text ->
  text <> EmptyString ->
  deserialize E text = Ok r ->
  evaluate E request w = (Ok r, after_command w) /\
  llm_calls (after_command w) = llm_calls w /\
  store (after_command w) = store w /\
  redis_ops (after_command w) = S (redis_ops w) /\
  valid_response r.
Proof.
  intros Hon Hup Htext Hne Hde.
  assert (cache_lookup E (store w)
            (_generate_cache_key E (candidate_answer request)
               (question_context request)) = Some r) as Hlookup.
  { unfold cache_lookup. rewrite Htext. unfold truthy.
    destruct (String.eqb_spec text EmptyString); [done|]. simpl. by rewrite Hde. }
  split; [by apply evaluate_hit|]. do 3 (split; [done|]).
  unfold deserialize in Hde. apply rbind_ok in Hde as (obj & _ & Hinit).
  destruct obj as [d|]; [|done]. by apply EvaluationResponse_init_valid in Hinit.
Qed.

Lemma evaluate_hit_from_store_witness :
  deserialize cache_only_env demo_entry = Ok demo_response /\
  evaluate cache_only_env demo_request warm_world
    = (Ok demo_response, after_command warm_world) /\
  fst (execute cache_only_env demo_request warm_world)
    = Ok agents_fallback_response.
Proof.
  split; [vm_compute; reflexivity|]. split; [|vm_compute; reflexivity].
  apply (evaluate_hit_from_store cache_only_env demo_request warm_world demo_entry
           demo_response).
  - reflexivity.
  - reflexivity.
  - vm_compute; reflexivity.
  - discriminate.
  - vm_compute; reflexivity.
Defined.

Lemma cache_lookup_written (E : Env) (st : gmap string string) (key : string)
    (r : EvaluationResponse) :
  json_dumps E (model_dump r) <> EmptyString ->
  json_loads E (json_dumps E (model_dump r)) = Ok (PyDict (model_dump r)) ->
  valid_response r ->
  cache_lookup E (<[key := json_dumps E (model_dump r)]> st) key = Some r.
Proof.
  intros Hne Hloads Hvalid. unfold cache_lookup. rewrite lookup_insert_eq.
  unfold truthy. destruct (String.eqb_spec (json_dumps E (model_dump r)) EmptyString);
    [done|]. simpl.
  unfold deserialize. rewrite Hloads. simpl.
  by rewrite EvaluationResponse_init_model_dump.
Qed.

(** X14. A response written by [_cache_result] is read back by
    [_get_cached_result]: with caching on, a positive expiry, two Redis
    commands that do not fail and a serialization that reads back what it
    wrote, the read that follows the write returns the response that was
    written, and the entries under the other keys answer as before. *)
Theorem cache_write_then_read (E : Env) (key : string) (r : EvaluationResponse)
    (w : world) :
  caching_off E = false ->
  redis_raises E (redis_ops w) = None ->
  redis_raises E (S (redis_ops w)) = None ->
  0 < redis_ttl E ->
  json_dumps E (model_dump r) <> EmptyString ->
  json_loads E (json_dumps E (model_dump r)) = Ok (PyDict (model_dump r)) ->
  valid_response r ->
  exists w1,
    _cache_result E key r w = (Ok tt, w1) /\
    _get_cached_result E key w1 = (Ok (Some r), after_command w1) /\
    forall key', key' <> key ->
      cache_lookup E (store w1) key' = cache_lookup E (store w) key'.
Proof.
  intros Hon Hup1 Hup2 Httl Hne Hloads Hvalid.
  eexists. split; [by apply cache_result_write|]. split.
  - rewrite get_cached_result_read by done. simpl.
    by rewrite cache_lookup_written.
  - intros key' Hkey'. unfold cache_lookup. simpl.
    by rewrite lookup_insert_ne.
Qed.

Lemma cache_write_then_read_witness :
  valid_response demo_response /\
  exists w1,
    _cache_result healthy_env "eval:k" demo_response empty_world = (Ok tt, w1) /\
    _get_cached_result healthy_env "eval:k" w1
      = (Ok (Some demo_response), after_command w1).
Proof.
  assert (valid_response demo_response) as Hvalid.
  { unfold valid_response. vm_compute. intuition discriminate. }
  split; [exact Hvalid|].
  destruct (cache_write_then_read healthy_env "eval:k" demo_response empty_world)
    as (w1 & Hwrite & Hread & _);
    [reflexivity | reflexivity | reflexivity | reflexivity | discriminate
    | vm_compute; reflexivity | exact Hvalid |].
  by exists w1.
Defined.

(** After a miss, a workflow that returns and a write that succeeds, the
    store holds the serialized response under the key of the request. *)
Lemma evaluate_miss_writes (E : Env) (request : EvaluateAnswerRequest)
    (w w1 w2 : world) (r : EvaluationResponse) :
  caching_off E = false ->
  redis_raises E (redis_ops w2) = None ->
  0 < redis_ttl E ->
  _get_cached_result E
    (_generate_cache_key E (candidate_answer request) (question_context request)) w
    = (Ok None, w1) ->
  run_workflow E request w1 = (Ok r, w2) ->
  evaluate E request w =
    (Ok r,
     {| llm_calls := llm_calls w2; redis_ops := S (redis_ops w2);
        store :=
          <[_generate_cache_key E (candidate_answer request)
              (question_context request) := json_dumps E (model_dump r)]>
            (store w2) |}).
Proof.
  intros Hon Hup Httl Hmiss Hrun.
  unfold evaluate. rewrite (bind_ok _ _ _ _ _ Hmiss).
  unfold try_except. rewrite (bind_ok _ _ _ _ _ Hrun).
  by rewrite (bind_ok _ _ _ _ _ (cache_result_write E _ r w2 Hon Hup Httl)).
Qed.

(** X15. Two requests with the same content [answer + ":" + (question or
    "")] share one cache entry: with a healthy store, once the first request
    was evaluated and cached, [evaluate] answers the second request with the
    response of the first, without running the workflow on the second. *)
Theorem evaluate_same_content (E : Env) (first second : EvaluateAnswerRequest)
    (w w1 w2 : world) (r : EvaluationResponse) :
  caching_off E = false ->
  (forall n, redis_raises E n = None) ->
  0 < redis_ttl E ->
  json_dumps E (model_dump r) <> EmptyString ->
  json_loads E (json_dumps E (model_dump r)) = Ok (PyDict (model_dump r)) ->
  cache_content (candidate_answer first) (question_context first)
    = cache_content (candidate_answer second) (question_context second) ->
  _get_cached_result E
    (_generate_cache_key E (candidate_answer first) (question_context first)) w
    = (Ok None, w1) ->
  run_workflow E first w1 = (Ok r, w2) ->
  exists w3,
    evaluate E first w = (Ok r, w3) /\
    evaluate E second w3 = (Ok r, after_command w3) /\
    llm_calls (after_command w3) = llm_calls w3.
Proof.
  intros Hon Hup Httl Hne Hloads Hcontent Hmiss Hrun.
  pose proof (run_workflow_valid E first w1 w2 r Hrun) as Hvalid.
  eexists. split; [by apply (evaluate_miss_writes E first w w1 w2 r)|].
  split; [|done]. apply evaluate_hit; [done|done|]. simpl.
  unfold _generate_cache_key. rewrite <- Hcontent.
  change ("eval:" +:+ md5_hexdigest E
            (cache_content (candidate_answer first) (question_context first)))
    with (_generate_cache_key E (candidate_answer first) (question_context first)).
  by apply cache_lookup_written.
Qed.

Lemma evaluate_same_content_witness :
  colon_in_answer <> colon_in_question /\
  cache_content (candidate_answer colon_in_answer) (question_context colon_in_answer)
    = cache_content (candidate_answer colon_in_question)
        (question_context colon_in_question) /\
  exists w3,
    evaluate healthy_env colon_in_answer empty_world = (Ok demo_response, w3) /\
    evaluate healthy_env colon_in_question w3 = (Ok demo_response, after_command w3) /\
    llm_calls (after_command w3) = llm_calls w3.
Proof.
  split; [discriminate|]. split; [reflexivity|].
  apply (evaluate_same_content healthy_env colon_in_answer colon_in_question
           empty_world (after_command empty_world) (World 3 1 ∅) demo_response).
  - reflexivity.
  - reflexivity.
  - reflexivity.
  - discriminate.
  - vm_compute; reflexivity.
  - reflexivity.
  - vm_compute; reflexivity.
  - vm_compute; reflexivity.
Defined.

(** ** A missing question and an empty question *)

Lemma apply_updates_lookup_congr (s s' update : gmap string pyval) (k : string) :
  s !! k = s' !! k ->
  apply_updates s update !! k = apply_updates s' update !! k.
Proof.
  intros Hk. destruct (decide (k = "messages")) as [->|Hne].
  - assert ((update ∪ s) !! "messages" = (update ∪ s') !! "messages") as Hmerged
      by (by rewrite !lookup_union, Hk).
    unfold apply_updates. rewrite <- Hk.
    destruct (update !! "messages") as [[]|]; try exact Hmerged.
    destruct (s !! "messages") as [[]|]; try exact Hmerged.
    by rewrite !lookup_insert_eq.
  - rewrite !apply_updates_lookup by done. by rewrite !lookup_union, Hk.
Qed.

Lemma same_prompts_apply_updates (s s' update : gmap string pyval) :
  same_prompts s s' -> same_prompts (apply_updates s update) (apply_updates s' update).
Proof.
  intros [Hkeys Hprompt]. split.
  - intros k Hk. by apply apply_updates_lookup_congr, Hkeys.
  - intros a. unfold get. rewrite !apply_updates_lookup by done.
    rewrite !lookup_union.
    destruct (update !! "question_context") as [v|]; simpl.
    + by destruct (s !! "question_context"), (s' !! "question_context").
    + rewrite !(left_id_L None _). apply Hprompt.
Qed.

Lemma evaluate_answer_sync_prompt (E : Env) (a q q' : pyval) :
  answer_and_question a q = answer_and_question a q' ->
  evaluate_answer_sync E a q = evaluate_answer_sync E a q'.
Proof. intros H. unfold evaluate_answer_sync. cbv zeta. by rewrite H. Qed.

Lemma analyze_answer_sync_prompt (E : Env) (a q q' s : pyval) :
  answer_and_question a q = answer_and_question a q' ->
  analyze_answer_sync E a q s = analyze_answer_sync E a q' s.
Proof. intros H. unfold analyze_answer_sync. cbv zeta. by rewrite H. Qed.

Lemma suggest_improvement_sync_prompt (E : Env) (a q q' s k : pyval) :
  answer_and_question a q = answer_and_question a q' ->
  suggest_improvement_sync E a q s k = suggest_improvement_sync E a q' s k.
Proof. intros H. unfold suggest_improvement_sync. cbv zeta. by rewrite H. Qed.

Lemma evaluator_node_same_prompts (E : Env) (s s' : gmap string pyval) (w : world) :
  same_prompts s s' -> evaluator_node E s w = evaluator_node E s' w.
Proof.
  intros [Hkeys Hprompt]. rewrite !evaluator_node_eq.
  unfold subscript, getitem. rewrite <- (Hkeys "candidate_answer") by done.
  destruct (s !! "candidate_answer") as [a|]; [|done].
  unfold bind, ret.
  by rewrite (evaluate_answer_sync_prompt E a _ _ (Hprompt a)).
Qed.

Lemma analyzer_node_same_prompts (E : Env) (s s' : gmap string pyval) (w : world) :
  same_prompts s s' -> analyzer_node E s w = analyzer_node E s' w.
Proof.
  intros [Hkeys Hprompt]. rewrite !analyzer_node_eq.
  unfold subscript, getitem, get at 2 4.
  rewrite <- (Hkeys "candidate_answer") by done.
  rewrite <- (Hkeys "evaluator_score") by done.
  destruct (s !! "candidate_answer") as [a|]; [|done].
  unfold bind, ret.
  by rewrite (analyze_answer_sync_prompt E a _ _ _ (Hprompt a)).
Qed.

Lemma improvement_node_same_prompts (E : Env) (s s' : gmap string pyval) (w : world) :
  same_prompts s s' -> improvement_node E s w = improvement_node E s' w.
Proof.
  intros [Hkeys Hprompt]. rewrite !improvement_node_eq.
  unfold subscript, getitem, get at 2 3 5 6.
  rewrite <- (Hkeys "candidate_answer") by done.
  rewrite <- (Hkeys "evaluator_score") by done.
  rewrite <- (Hkeys "analyzer_weaknesses") by done.
  destruct (s !! "candidate_answer") as [a|]; [|done].
  unfold bind, ret.
  by rewrite (suggest_improvement_sync_prompt E a _ _ _ _ (Hprompt a)).
Qed.

Lemma synthesizer_node_same_prompts (s s' : gmap string pyval) (w : world) :
  same_prompts s s' -> synthesizer_node s w = synthesizer_node s' w.
Proof.
  intros [Hkeys _]. rewrite !synthesizer_node_eq.
  unfold synthesizer_updates, synthesizer_try, get_default.
  rewrite <- (Hkeys "evaluator_score") by done.
  rewrite <- (Hkeys "final_summary") by done.
  by rewrite <- (Hkeys "final_improvement") by done.
Qed.

(** Two runs from states that the nodes cannot tell apart. *)
Lemma run_same_prompts (E : Env) (fuel : nat) (node : string)
    (s s' : gmap string pyval) (w : world) :
  same_prompts s s' ->
  match run (evaluation_graph E) fuel node s w,
        run (evaluation_graph E) fuel node s' w with
  | (Ok t, w1), (Ok t', w1') => Forall2 same_prompts t t' /\ w1 = w1'
  | (Raise e, w1), (Raise e', w1') => e = e' /\ w1 = w1'
  | _, _ => False
  end.
Proof.
  revert node s s' w. induction fuel as [|fuel IH]; intros node s s' w Hs.
  { simpl. by split. }
  rewrite !run_S.
  destruct (nodes (evaluation_graph E) !! node) as [fn|] eqn:Hfn; [|done].
  assert (fn s w = fn s' w) as Hnode.
  { apply evaluation_graph_nodes in Hfn as [-> | [-> | [-> | ->]]];
      auto using evaluator_node_same_prompts, analyzer_node_same_prompts,
        improvement_node_same_prompts, synthesizer_node_same_prompts. }
  unfold bind. rewrite <- Hnode.
  destruct (fn s w) as [[update|e] w1]; [|simpl; by split].
  pose proof (same_prompts_apply_updates s s' update Hs) as Hs1.
  cbv zeta.
  destruct (edges (evaluation_graph E) !! node) as [next|];
    [|split; [by constructor; [|constructor]|done]].
  destruct (String.eqb next END); [split; [by constructor; [|constructor]|done]|].
  specialize (IH next _ _ w1 Hs1).
  destruct (run (evaluation_graph E) fuel next (apply_updates s update) w1)
    as [[t|e] w2],
    (run (evaluation_graph E) fuel next (apply_updates s' update) w1)
    as [[t'|e'] w2']; try done.
  destruct IH as [Ht ->]. split; [by constructor|done].
Qed.

Lemma last_same_prompts (t t' : list (gmap string pyval)) (d d' : gmap string pyval) :
  Forall2 same_prompts t t' -> same_prompts d d' ->
  same_prompts (List.last t d) (List.last t' d').
Proof.
  intros Ht. revert d d'. induction Ht as [|x y t t' Hxy Ht IH]; intros d d' Hd; [done|].
  destruct Ht as [|x2 y2 t2 t2' Hxy2 Ht2]; [done|].
  change (same_prompts (List.last (x2 :: t2) d) (List.last (y2 :: t2') d')).
  by apply IH.
Qed.

Lemma initial_state_same_prompts (a : string) :
  same_prompts
    (initial_state {| candidate_answer := a; question_context := None |})
    (initial_state {| candidate_answer := a; question_context := Some EmptyString |}).
Proof.
  split; [|intros x; reflexivity].
  intros k Hk. unfold initial_state, dict. rewrite !list_to_map_cons. simpl.
  destruct (decide (k = "candidate_answer")) as [->|Hne].
  - by rewrite !lookup_insert_eq.
  - rewrite !(lookup_insert_ne _ "candidate_answer") by done.
    by rewrite !(lookup_insert_ne _ "question_context") by done.
Qed.

Lemma run_workflow_no_question (E : Env) (a : string) (w : world) :
  run_workflow E {| candidate_answer := a; question_context := None |} w
  = run_workflow E {| candidate_answer := a; question_context := Some EmptyString |} w.
Proof.
  pose proof (run_same_prompts E recursion_limit
                (entry_point (evaluation_graph E)) _ _ w
                (initial_state_same_prompts a)) as Hrun.
  unfold run_workflow, invoke, invoke_trace, bind.
  destruct (run (evaluation_graph E) recursion_limit _
              (initial_state {| candidate_answer := a; question_context := None |}) w)
    as [[t|e] w1],
    (run (evaluation_graph E) recursion_limit _
       (initial_state {| candidate_answer := a;
                         question_context := Some EmptyString |}) w)
    as [[t'|e'] w1']; try done.
  - destruct Hrun as [Ht ->]. unfold ret.
    pose proof (initial_state_same_prompts a) as Hinit.
    pose proof (last_same_prompts _ _ _ _
                  (List.Forall2_cons _ _ Hinit Ht) Hinit) as [Hkeys _].
    unfold subscript, getitem.
    rewrite <- (Hkeys "final_score") by done.
    rewrite <- (Hkeys "final_summary") by done.
    by rewrite <- (Hkeys "final_improvement") by done.
  - by destruct Hrun as [-> ->].
Qed.

(** X16. A request without a question and the same request with an empty
    question are one request to the service: they have the same cache key,
    and for every language model, parser and cache, the direct execution
    and [evaluate] return the same response and leave the same world. *)
Theorem evaluate_no_question (E : Env) (a : string) (w : world) :
  _generate_cache_key E a None = _generate_cache_key E a (Some EmptyString) /\
  execute E {| candidate_answer := a; question_context := None |} w
  = execute E {| candidate_answer := a; question_context := Some EmptyString |} w /\
  evaluate E {| candidate_answer := a; question_context := None |} w
  = evaluate E {| candidate_answer := a; question_context := Some EmptyString |} w.
Proof.
  split; [reflexivity|]. split.
  - unfold execute, try_except. by rewrite run_workflow_no_question.
  - unfold evaluate. cbn [candidate_answer question_context].
    change (_generate_cache_key E a (Some EmptyString))
      with (_generate_cache_key E a None).
    unfold try_except, bind.
    destruct (_get_cached_result E (_generate_cache_key E a None) w)
      as [[[r|]|e] w1]; try done.
    by rewrite run_workflow_no_question.
Qed.

(** ** The routes *)

(** X17. The route of [POST /evaluate-answer] never raises its
    [HTTPException]: for every behaviour of the language model, the parser
    and the cache, and every request, it returns a response, and the
    response satisfies the bounds of the response model. The [except]
    clause of the route is dead code. *)
Theorem evaluate_answer_route_returns (E : Env)
    (request : EvaluateAnswerRequest) (w : world) :
  exists result w',
    routes.evaluate_answer E request w = (Returned result, w') /\
    valid_response result.
Proof.
  destruct (evaluate_total E request w) as (r & w' & Heval & Hvalid).
  exists r, w'. split; [|done].
  unfold routes.evaluate_answer. by rewrite Heval.
Qed.

(** X18. The route of [POST /rank-candidates] answers every request with
    the [HTTPException] of its [except] clause: status 500, error
    [RankingError], carrying the validation error of the draft with
    rank 0. *)
Theorem rank_candidates_route_fails (E : Env)
    (request : RankCandidatesRequest) (w : world) :
  exists w',
    routes.rank_candidates E request w
    = (HTTPException 500 "RankingError" "Failed to rank candidates"
         ValidationError, w').
Proof.
  destruct (rank_candidates_with_raises E (evaluate E) request w) as (w' & Hrank).
  exists w'. unfold routes.rank_candidates, rank_candidates. by rewrite Hrank.
Qed.

(** ** The sort and the ranks *)

Lemma ranked_from_ids (k : Z) (l : list RankedCandidate) :
  ids_of (ranked_from k l) = ids_of l.
Proof.
  revert k. induction l as [|c l IH]; intros k; [done|].
  unfold ids_of in *. simpl. by rewrite IH.
Qed.

Lemma ranked_from_with_score_of (z k : Z) (l : list RankedCandidate) :
  ids_of (with_score_of z (ranked_from k l)) = ids_of (with_score_of z l).
Proof.
  revert k. induction l as [|c l IH]; intros k; [done|].
  unfold ids_of, with_score_of in *. cbn [ranked_from].
  rewrite !filter_cons. cbn [with_rank rc_score].
  destruct (decide (rc_score c = z)); simpl; by rewrite IH.
Qed.

Lemma Sorted_by_score_desc_lookup (l : list RankedCandidate) (i j : nat)
    (c d : RankedCandidate) :
  Sorted by_score_desc l -> (i <= j)%nat ->
  l !! i = Some c -> l !! j = Some d -> rc_score d <= rc_score c.
Proof.
  intros Hsorted. apply Sorted_StronglySorted in Hsorted;
    [|intros x y z' Hxy Hyz; unfold by_score_desc in *; lia].
  revert i j. induction Hsorted as [|x l Hl IH Hx]; intros i j Hij Hi Hj; [done|].
  destruct i as [|i], j as [|j]; simpl in *; try lia.
  - injection Hi as <-. injection Hj as <-. lia.
  - injection Hi as <-.
    rewrite List.Forall_forall in Hx. apply Hx.
    apply list_elem_of_In. by eapply list_elem_of_lookup_2.
  - apply (IH i j); [lia|done|done].
Qed.

(** X19. The second half of [rank_candidates], on a non-empty list of
    drafts with scores between 1 and 5: it returns a ranking with
    [total_candidates] the number of drafts; the candidate at position [i]
    is a submitted one and has rank [i + 1]; the candidate identifiers are a
    permutation of the submitted ones; scores never increase along the
    list; and the candidates of equal score are in the order of
    submission. *)
Theorem sort_and_rank_ranking (E : Env) (l : list RankedCandidate) :
  l <> [] -> Forall (fun c => 1 <= rc_score c <= 5) l ->
  exists r,
    sort_and_rank E l = Ok r /\
    rr_total_candidates r = Z.of_nat (length l) /\
    length (rr_candidates r) = length l /\
    (forall (i : nat) c, rr_candidates r !! i = Some c ->
       rc_rank c = Z.of_nat i + 1 /\ exists c0, c0 ∈ l /\ c = with_rank (rc_rank c) c0) /\
    Permutation (ids_of (rr_candidates r)) (ids_of l) /\
    (forall (i j : nat) c d, (i <= j)%nat ->
       rr_candidates r !! i = Some c -> rr_candidates r !! j = Some d ->
       rc_score d <= rc_score c) /\
    (forall z, ids_of (with_score_of z (rr_candidates r))
               = ids_of (with_score_of z l)).
Proof.
  intros Hne Hl.
  destruct (sort_and_rank_ok E l Hne Hl)
    as (sorted & Hres & -> & Hperm & Hsorted & Hstable & Hlookup).
  eexists. split; [exact Hres|]. cbn [rr_total_candidates rr_candidates].
  split; [done|].
  split; [by rewrite ranked_from_length, (Permutation_length Hperm)|].
  split; [|split; [|split]].
  - intros i c Hc. rewrite Hlookup in Hc.
    destruct (sort_by_score_desc l !! i) as [c0|] eqn:Hc0; [|done].
    injection Hc as <-. cbn [with_rank rc_rank]. split; [lia|].
    exists c0. split; [|done].
    rewrite <- Hperm. by eapply list_elem_of_lookup_2.
  - rewrite ranked_from_ids. unfold ids_of. by apply Permutation_map.
  - intros i j c d Hij Hc Hd. rewrite Hlookup in Hc, Hd.
    destruct (sort_by_score_desc l !! i) as [c0|] eqn:Hc0; [|done].
    destruct (sort_by_score_desc l !! j) as [d0|] eqn:Hd0; [|done].
    injection Hc as <-. injection Hd as <-. cbn [with_rank rc_score].
    by apply (Sorted_by_score_desc_lookup _ i j c0 d0 Hsorted).
  - intros z. by rewrite ranked_from_with_score_of, Hstable.
Qed.

Lemma sort_and_rank_ranking_witness :
  exists r,
    sort_and_rank offline_env
      [draft "a" 2; draft "b" 5; draft "c" 5; draft "d" 1] = Ok r /\
    ids_of (rr_candidates r) = ["b"; "c"; "a"; "d"] /\
    map rc_rank (rr_candidates r) = [1; 2; 3; 4].
Proof.
  destruct (sort_and_rank_ranking offline_env
              [draft "a" 2; draft "b" 5; draft "c" 5; draft "d" 1])
    as (r & Hr & _); [done | repeat constructor; simpl; lia |].
  exists r. split; [exact Hr|].
  vm_compute in Hr. injection Hr as <-. by split.
Defined.

(** ** The defaults of the Synthesize stage *)






